(* ===== verification/_CoqProject ===== *)
-Q . S2P
Prelude.v
PyValue.v
Models.v
Permissions.v
Serializers.v
Aggregation.v
Claims.v
Views.v
TokenViews.v
Urls.v
InitializeData.v
