(* ===== verification/Prelude.v ===== *)
(** * A verification development of the uninstall.io authorization server

    The repository is a small Django service ([src/authserver]) that
    implements multi-tenant role-based access control, plus a seed script
    ([src/scripts/initialize_data.py]).  Its parts, and how they interact:

    - the tenant model ([auth_app/models.py]): tables of organizations,
      users, roles, permissions, and the two join tables
      [RoleUserOrgAssociation] (role, organization, user) and
      [RolePermissionAssociation] (role, permission), with Django's
      constraints ([unique=True], [unique_together], foreign keys with the
      default [CASCADE] deletion of Django 1.x);
    - the permission aggregation of [User.get_permissions] and
      [User.get_organizations] ([models.py]), which reads the join tables,
      and the serializers of [auth_app/serializers.py] that shape its output;
    - the token payload: at login the JWT library's payload handler embeds
      the user's permissions as a list of [{name: ...}] records (the handler
      is configured in settings that are not part of [src/]);
    - the decision procedure [JWTPermission.has_permission]
      ([auth_app/permissions.py]), which reads the decoded payload of the
      request's token and answers whether the view's [resource_name]
      combined with the HTTP method is among the payload's names;
    - the views of [auth_app/views.py] and the URL table of
      [authserver/urls.py], which declare [resource_name = 'Users'] and hand
      each request to the decision procedure before the handler runs;
    - the seed script, a fixed sequence of creations that builds the demo
      tenant (a clinic group with three branches, seven roles, users).

    ** Files, and what each models

    - [Prelude.v] (this file): Python's exceptions as values ([exn], [res]
      and the monad notation [x <- c ;; k] of [py_scope]), the
      [try ... except KeyError] combinator, the fallible list comprehension
      [res_mapM], the hint database [rbac] and the generic list lemmas.
    - [PyValue.v]: the Python values a decoded JSON token holds ([pyval]:
      [None], booleans, integers, strings, lists, dicts), with Python's
      subscription [v[k]] ([py_getitem]), iteration ([py_iter]) and string
      membership ([py_in]), each raising the [TypeError] or [KeyError] that
      CPython raises.
    - [Models.v]: the records of [models.py] and the database state
      [DB] (one table per model, an id sequence per table), the writes the
      code performs (model [save], [get_or_create] of the join tables,
      deletion with cascade), the well-formedness invariant [db_wf] and its
      preservation by every write; [User.email_user] as the message it
      hands to [send_mail].
    - [Permissions.v]: [JWTPermission.has_permission] and
      [has_object_permission], [User.has_perm], [User.has_perms] and
      [User.has_module_perms], each on every branch of the source.
    - [Aggregation.v]: [get_permissions] and [get_organizations] with the
      serializers, against the abstract specification of the effective
      permission set.
    - [Claims.v]: the interface [JWTCodec] between the token issuer and the
      decision procedure (a typeclass whose law is that decoding an encoded
      payload gives it back), the payload handler, and the end-to-end
      refinement theorem: a request is allowed exactly when the permission
      name is in the user's effective set.
    - [Views.v]: the handlers of [UserList] and [UserDetail] ([get],
      [post], [put], [delete], [get_object] with its [Http404] and [OverflowError]), the request
      dispatch of Django REST framework's [APIView] (library code, modelled
      from its documented behaviour: [check_permissions] first, then the
      handler, 401/403/404/405), the validation of [UserSerializer] as an
      interface [UserValidator] with its law and an instance, the JWT
      authentication that runs before the permission check (library code,
      with the settings' username handler as a parameter).
    - [TokenViews.v]: the three token views of the JWT library that
      [urls.py] routes (library code, modelled from its serializers):
      [obtain_jwt_token], the login by email and password,
      [refresh_jwt_token], which checks the old token and its user and
      issues a new token whose payload is built again from the current
      state, and [verify_jwt_token], which gives the token back; the clock,
      the delays of the settings and the password check are parameters.
    - [Urls.v]: the URL table [resolve] of [urls.py] with its [pk]
      parsing, the reference meaning [detail_pattern] of the regex
      [^api/users/(?P<pk>[0-9]+)/$], and [handle_request], the whole path
      of a request: routing, [JSONWebTokenAuthentication], [dispatch] with
      [JWTPermission], and the handler's writes; [handle_token_request]
      for the three token paths.
    - [InitializeData.v]: [scripts/initialize_data.py] as one program of the
      state-and-exception monad [DBM] of [Models.v] (every save, both loops,
      the case-insensitive permission lookup with its [except
      DoesNotExist], the [roles_obj_dict] lookups, every [get_or_create]),
      in three phases ([create_organizations], [create_roles],
      [create_users]) inside [transaction.atomic].

    The files import one another in the order of [_CoqProject]: the models
    and the decision come first, the aggregation reads the models, the
    token file composes aggregation and decision, the views compose
    authentication, decision and model writes, the token views re-issue
    tokens with the payload of the token file, the URL table puts routing
    in front of both kinds of view, and the seed script runs on all of
    them.

    ** Theorems, by group

    - decision procedure ([Permissions.v]): full functional
      characterisation of [has_permission] (fail-closed on anonymous users,
      on a missing [resource_name] and on a payload without [permissions];
      exact string match of "<resource>-<METHOD>"); the shapes of payload on
      which it raises instead of denying (the decision reads only the
      token's names, so an active superuser gets no bypass);
      [has_module_perms] raising [NameError] because the global it reads
      is bound neither by the imports of [models.py] nor by the builtins; the payload
      schema [payload_wt] of the specification, on which the decision
      never raises (the issued payloads have it: [Claims.v]).
    - tenant model ([Models.v]): the invariant [db_wf] (unique ids, unique
      names, unique join rows, no dangling reference) holds of the empty
      database, is preserved by every write and so holds of every state
      reachable by [db_step]; [get_or_create] is idempotent; reachable
      states have an acyclic organization tree, the cascade deletes every
      descendant and nothing else, its fuel is enough (further rounds
      collect nothing), an update of [parent] can close a cycle, and after
      [n < 2^63] writes every id fits the signed 64-bit [BigAutoField].
    - aggregation ([Aggregation.v]): [get_permissions] is the union over
      the user's grants of the roles' permissions, free of duplicates and
      blind to the organization (users whose grant rows name the same
      roles get the same permissions); [get_organizations] groups the grants by
      organization in first-encounter order and agrees with
      [get_permissions]; granting is live: from any reachable state one
      [get_or_create] step gives a user every permission of a role and
      keeps the ones they had.
    - token ([Claims.v], [TokenViews.v]): issuing a token and deciding on
      it refines the abstract decision; a refreshed token carries exactly
      the permissions of the user in the state it was refreshed in, and the
      old token's [orig_iat], so refreshes never outlive the refresh limit
      of the first login; a user who logs in can refresh the token they
      get; an inactive account gets no token, whatever the password.
    - views ([Views.v]): writes happen only on an allowed [POST], [PUT] or
      [DELETE], and each is the handler's own write on the URL's key (the
      insert of the validated fields, the update of user [pk], the delete
      of user [pk]); a refusal is a 401 or 403 that changes nothing; an
      allowed request on a well-formed state gets a response when the
      URL's key fits a SQLite [INTEGER], and a server error
      ([OverflowError]) beyond it; [get_object] raises [Http404] exactly
      on a missing key of that range; a successful [DELETE] revokes
      every grant of the user; a token that does not decode, names no user
      or an inactive one gets a 401 that changes nothing.
    - URL table and request path ([Urls.v]): [resolve] reaches
      [UserDetail] with key [n] exactly on the paths the regex matches with
      [int(pk) = n] (leading zeros, Python's [$] before a final newline);
      the token patterns are unanchored; and end to end, a request that
      changes the database was routed to a user view and carried a token
      that decodes to a payload naming an active user and listing
      "Users-<METHOD>" for a [POST], [PUT] or [DELETE]; a token refreshed
      through [api/tokens/refresh/] keeps the submitted [orig_iat] and
      gets a 403 from the user endpoints for every method whose
      permission the user no longer has.
    - seed script ([InitializeData.v]): it runs to completion on an empty
      database by model steps and links every role of its table
      [roles_data] to exactly the permissions listed there; it fails with
      [IntegrityError] when re-run; no seeded user reaches the user
      endpoints; and its case-insensitive lookup links a differently
      spelled permission already present, which the case-sensitive
      decision then never matches.  The scenario lemmas of that file
      (the permissions of each seeded user, the refused superuser, the two
      doctors of the specification's scenario) are evaluations of the
      seeded state.

    ** Choices of representation, bounds and fuel

    Ids are [N] (Django's [BigAutoField]); no code path does arithmetic on
    ids, and [reachable_ids_fit_BigAutoField] shows that every id of a
    state reached in fewer than [2^63] writes lies in the column's range,
    so the unbounded model is the bounded column on every such run.  The
    one unbounded integer the code receives from outside is the [pk] of
    [api/users/<pk>/]; [get_object] binds it as a SQLite [INTEGER] and
    raises [OverflowError] beyond [2^63 - 1], as the [sqlite3] driver does
    (SQLite is the backend the case-insensitive lookup of the seed script
    assumes as well).  Python dicts decoded from JSON are association
    lists whose first binding of a key is read; [json.loads] keeps the
    last of duplicate keys, a case none of the theorems involves.
    Tables are lists in insertion order, which is the order the queries of
    the code return rows in (none of the models declares a
    [Meta.ordering]).  Python dicts built by the code are association lists
    whose key order is insertion order.  The cascade through
    [Organization.parent] ([collect_orgs]) runs on fuel [length orgs]; each
    round adds at least one organization not yet collected or stops, so
    that fuel is enough: [Organization_delete_closed] proves the result
    closed under children and [Organization_delete_fuel_enough] that more
    rounds change nothing.  The seed script and the witnesses are evaluated
    by [vm_compute] on concrete states.

    ** Not modelled

    Password hashing (Django's [make_password] and [check_password]; the
    login view takes the password check as a parameter) and the delivery of
    mail by [send_mail] (I/O: [email_user] is modelled up to the message);
    the JWT signature itself (a library: [Claims.v] states its contract as
    a class law); the settings of the project (the username and payload
    handlers of the JWT library are parameters, or modelled from the
    specification; the clock is a parameter, and the decoder does not tell
    an expired token from a forged one); the admin site beyond its route
    (Django's code); throttling, content negotiation and HTTP parsing. *)

From stdpp Require Export base list decidable strings sets relations.
From Stdlib Require Export NArith ZArith.

Declare Scope py_scope.
Delimit Scope py_scope with py.

(** ** Python exceptions as values *)

(** The exceptions the modelled code raises or catches. *)
Inductive exn :=
| KeyError (key : string)
| TypeError (msg : string)
| AttributeError (attr : string)
| NameError (name : string)
| DoesNotExist (model : string)
| MultipleObjectsReturned (model : string)
| IntegrityError (msg : string)
| OverflowError (msg : string)
| Http404.

#[export] Instance exn_eq_dec : EqDecision exn.
Proof. solve_decision. Defined.

(** The outcome of a Python computation: a value, or a raised exception. *)
Inductive res (A : Type) :=
| Ok (a : A)
| Raise (e : exn).
Arguments Ok {A} a.
Arguments Raise {A} e.

Definition res_bind {A B} (c : res A) (f : A -> res B) : res B :=
  match c with
  | Ok a => f a
  | Raise e => Raise e
  end.

Definition res_map {A B} (f : A -> B) (c : res A) : res B :=
  res_bind c (fun a => Ok (f a)).

Notation "x <- c ;; k" := (res_bind c (fun x => k))
  (at level 100, c at next level, right associativity) : py_scope.

Open Scope py_scope.

(** [try: c except KeyError: return d] *)
Definition except_KeyError {A} (c : res A) (d : A) : res A :=
  match c with
  | Raise (KeyError _) => Ok d
  | r => r
  end.

(** The list comprehension [[f(x) for x in l]]: elements are evaluated from
    left to right, and the first exception aborts the whole list. *)
Fixpoint res_mapM {A B} (f : A -> res B) (l : list A) : res (list B) :=
  match l with
  | [] => Ok []
  | x :: l' => y <- f x ;; ys <- res_mapM f l' ;; Ok (y :: ys)
  end.

Definition is_Ok {A} (r : res A) : bool :=
  match r with Ok _ => true | Raise _ => false end.

(** ** Automation *)

Create HintDb rbac discriminated.
Create Rewrite HintDb rbac_simpl.

(** Split the binds of a hypothesis [H : (x <- c ;; k) = r]. *)
Ltac res_inv H :=
  repeat match type of H with
  | res_bind ?c _ = _ =>
      let E := fresh "E" in
      destruct c eqn:E; simpl in H; [|try discriminate H]
  end.

(** ** Generic lemmas *)

(** Unlike [injection], keeps the terms under [Ok] as they are written. *)
Lemma Ok_inj {A} (a b : A) : Ok a = Ok b -> a = b.
Proof. by intros [=]. Qed.

Lemma res_bind_Ok {A B} (c : res A) (f : A -> res B) (b : B) :
  res_bind c f = Ok b <-> exists a, c = Ok a /\ f a = Ok b.
Proof. destruct c; simpl; split; intros H; naive_solver. Qed.

Lemma res_mapM_Ok {A B} (f : A -> res B) (l : list A) (l' : list B) :
  res_mapM f l = Ok l' <-> Forall2 (fun x y => f x = Ok y) l l'.
Proof.
  revert l'; induction l as [|x l IH]; intros l'; simpl.
  - split; [intros [= <-]; constructor | intros H; inversion H; done].
  - rewrite res_bind_Ok. setoid_rewrite res_bind_Ok. split.
    + intros (y & Hy & ys & Hys & [= <-]). constructor; [done | by apply IH].
    + intros H; inversion H as [|? y ? ys Hy Hys]; subst.
      exists y; split; [done|]. exists ys; split; [by apply IH | done].
Qed.

(** The first element on which [f] raises decides the exception. *)
Lemma res_mapM_app_raise {A B} (f : A -> res B) l1 x l2 e :
  is_Ok (res_mapM f l1) = true -> f x = Raise e ->
  res_mapM f (l1 ++ x :: l2) = Raise e.
Proof.
  induction l1 as [|y l1 IH]; simpl; intros H1 Hx.
  - by rewrite Hx.
  - destruct (f y); simpl in *; [|done].
    destruct (res_mapM f l1) eqn:E; simpl in *; [|done].
    by rewrite IH.
Qed.

Lemma res_mapM_fmap {A B C} (g : A -> B) (f : B -> res C) (l : list A) :
  res_mapM f (g <$> l) = res_mapM (fun x => f (g x)) l.
Proof.
  induction l as [|x l IH]; [done|]. rewrite fmap_cons. cbn [res_mapM]. by rewrite IH.
Qed.

Lemma res_mapM_Ok_fmap {A B} (f : A -> B) (l : list A) :
  res_mapM (fun x => Ok (f x)) l = Ok (f <$> l).
Proof.
  induction l as [|x l IH]; [done|]. rewrite fmap_cons. cbn [res_mapM res_bind].
  by rewrite IH.
Qed.

(** A column without duplicates is a key: rows that agree on it are equal. *)
Lemma NoDup_fmap_inj_on {A B} (f : A -> B) (l : list A) x y :
  NoDup (f <$> l) -> x ∈ l -> y ∈ l -> f x = f y -> x = y.
Proof.
  induction l as [|z l IH]; simpl; [set_solver|].
  rewrite NoDup_cons, list_elem_of_fmap. intros [Hz Hnd] Hx Hy Hf.
  apply elem_of_cons in Hx as [-> | Hx], Hy as [-> | Hy]; [done | | | by apply IH].
  - exfalso. apply Hz. exists y. split; [done|]. exact Hy.
  - exfalso. apply Hz. exists x. split; [symmetry; done|]. exact Hx.
Qed.

(** [String.append] is [simpl never]: its two equations, for rewriting. *)
(** A filter that no element passes is empty. *)
Lemma filter_all_false {A} (P : A -> Prop) `{!forall x, Decision (P x)} (l : list A) :
  (forall x, x ∈ l -> ~ P x) -> filter P l = [].
Proof.
  induction l as [|y l IH]; intros Hl; [done|]. rewrite filter_cons_False by (apply Hl; left).
  apply IH. intros x Hx. apply Hl. by right.
Qed.

(** A query on a unique key selects at most one row. *)
Lemma filter_key_unique {A K} `{EqDecision K} (key : A -> K) k (l : list A) :
  NoDup (key <$> l) ->
  filter (fun a => key a = k) l = [] \/
  exists x, filter (fun a => key a = k) l = [x] /\ x ∈ l /\ key x = k.
Proof.
  induction l as [|y l IH]; intros Hnd; [by left|].
  rewrite fmap_cons in Hnd. apply NoDup_cons in Hnd as [Hy Hnd].
  destruct (decide (key y = k)) as [Hyk|Hyk].
  - right. exists y. rewrite filter_cons_True by done. split; [|split; [left | done]].
    f_equal. apply filter_all_false. intros x Hx Hxk. apply Hy. apply list_elem_of_fmap.
    exists x. split; [congruence | done].
  - rewrite filter_cons_False by done. destruct (IH Hnd) as [? | (x & ? & ? & ?)]; [by left|].
    right. exists x. split; [done|]. split; [by right | done].
Qed.


Lemma str_app_nil_l (s : string) : "" +:+ s = s.
Proof. done. Qed.
Lemma str_app_cons c (s1 s2 : string) : String c s1 +:+ s2 = String c (s1 +:+ s2).
Proof. done. Qed.

Lemma str_app_assoc (s1 s2 s3 : string) : s1 +:+ (s2 +:+ s3) = (s1 +:+ s2) +:+ s3.
Proof.
  induction s1 as [|c s1 IH]; [by rewrite !str_app_nil_l|]. by rewrite !str_app_cons, IH.
Qed.

#[export] Hint Rewrite str_app_nil_l str_app_cons : rbac_simpl.
#[export] Hint Rewrite @res_mapM_fmap @res_mapM_Ok_fmap : rbac_simpl.
#[export] Hint Resolve res_mapM_app_raise : rbac.
