(* ===== verification/PyValue.v ===== *)
(** * Python values of a decoded token payload

    The payload that [jwt_decode_handler] returns is the result of
    [json.loads]: [None], booleans, integers, strings, lists and dicts with
    string keys.  This file gives them as the inductive [pyval], with the
    three Python operations that [JWTPermission.has_permission] applies to
    them (subscription by a string key, iteration, and [in] on a list),
    each raising what CPython raises on the other shapes; and the three
    operations the JWT library's refresh applies ([d.get(k)], [d[k] = v],
    the truth value of [if v:]); and the lookup of a global name in a
    module's top-level bindings and the builtins, with its [NameError]. *)

From Stdlib Require Ascii.
From S2P Require Import Prelude.

#[local] Set Warnings "-register-all".

(** A dict is an association list in insertion order. *)
Inductive pyval :=
| PyNone
| PyBool (b : bool)
| PyInt (z : Z)
| PyStr (s : string)
| PyList (l : list pyval)
| PyDict (kvs : list (string * pyval)).

(** Induction through the lists and dicts of a value. *)
Section pyval_ind'.
Variable P : pyval -> Prop.
Hypothesis HNone : P PyNone.
Hypothesis HBool : forall b, P (PyBool b).
Hypothesis HInt : forall z, P (PyInt z).
Hypothesis HStr : forall s, P (PyStr s).
Hypothesis HList : forall l, Forall P l -> P (PyList l).
Hypothesis HDict : forall kvs, Forall (fun kv => P (snd kv)) kvs -> P (PyDict kvs).

Fixpoint pyval_ind' (v : pyval) : P v :=
  match v with
  | PyNone => HNone
  | PyBool b => HBool b
  | PyInt z => HInt z
  | PyStr s => HStr s
  | PyList l =>
      HList l ((fix go (l : list pyval) : Forall P l :=
                  match l with
                  | [] => List.Forall_nil _
                  | x :: l' => List.Forall_cons _ x l' (pyval_ind' x) (go l')
                  end) l)
  | PyDict kvs =>
      HDict kvs ((fix go (kvs : list (string * pyval))
                    : Forall (fun kv => P (snd kv)) kvs :=
                    match kvs with
                    | [] => List.Forall_nil _
                    | kv :: kvs' => List.Forall_cons _ kv kvs' (pyval_ind' (snd kv)) (go kvs')
                    end) kvs)
  end.
End pyval_ind'.

(** [d.get(k)] on the association list of a dict. *)
Fixpoint dict_lookup (kvs : list (string * pyval)) (k : string) : option pyval :=
  match kvs with
  | [] => None
  | (k', v) :: kvs' => if bool_decide (k = k') then Some v else dict_lookup kvs' k
  end.

(** [v[k]] for a string [k]. *)
Definition py_getitem (v : pyval) (k : string) : res pyval :=
  match v with
  | PyDict kvs =>
      match dict_lookup kvs k with
      | Some x => Ok x
      | None => Raise (KeyError k)
      end
  | PyList _ => Raise (TypeError "list indices must be integers")
  | PyStr _ => Raise (TypeError "string indices must be integers")
  | PyNone => Raise (TypeError "'NoneType' object is not subscriptable")
  | PyBool _ => Raise (TypeError "'bool' object is not subscriptable")
  | PyInt _ => Raise (TypeError "'int' object is not subscriptable")
  end.

(** [d[k] = v] on a dict: the value of an existing key is replaced in
    place, a new key goes last (dicts keep insertion order). *)
Fixpoint dict_set {V} (d : list (string * V)) (k : string) (v : V) : list (string * V) :=
  match d with
  | [] => [(k, v)]
  | (k', v') :: d' => if bool_decide (k = k') then (k, v) :: d' else (k', v') :: dict_set d' k v
  end.

(** [v[k] = x] for a string [k]. *)
Definition py_setitem (v : pyval) (k : string) (x : pyval) : res pyval :=
  match v with
  | PyDict kvs => Ok (PyDict (dict_set kvs k x))
  | _ => Raise (TypeError "object does not support item assignment")
  end.

(** [v.get(k)]: [None] for a missing key; only dicts have [get]. *)
Definition py_get (v : pyval) (k : string) : res (option pyval) :=
  match v with
  | PyDict kvs => Ok (dict_lookup kvs k)
  | _ => Raise (AttributeError "get")
  end.

(** The truth value of [if v:]. *)
Definition py_truthy (v : pyval) : bool :=
  match v with
  | PyNone => false
  | PyBool b => b
  | PyInt z => negb (Z.eqb z 0)
  | PyStr s => negb (bool_decide (s = ""))
  | PyList l => negb (bool_decide (l = []))
  | PyDict kvs => negb (bool_decide (kvs = []))
  end.

(** [str.isspace()] on one ASCII character. *)
Definition py_isspace (c : Ascii.ascii) : bool :=
  let n := Ascii.nat_of_ascii c in
  ((9 <=? n) && (n <=? 13))%nat || ((28 <=? n) && (n <=? 32))%nat.

Fixpoint py_lstrip (s : string) : string :=
  match s with
  | String c s' => if py_isspace c then py_lstrip s' else s
  | EmptyString => EmptyString
  end.

Definition str_reverse (s : string) : string :=
  String.string_of_list_ascii (reverse (String.list_ascii_of_string s)).

(** [s.strip()] *)
Definition py_strip (s : string) : string :=
  str_reverse (py_lstrip (str_reverse (py_lstrip s))).

(** [type(v).__name__] *)
Definition py_type_name (v : pyval) : string :=
  match v with
  | PyNone => "NoneType" | PyBool _ => "bool" | PyInt _ => "int"
  | PyStr _ => "str" | PyList _ => "list" | PyDict _ => "dict"
  end.

(** The one-character strings of a string, as [for c in s] yields them. *)
Fixpoint str_chars (s : string) : list pyval :=
  match s with
  | EmptyString => []
  | String c s' => PyStr (String c EmptyString) :: str_chars s'
  end.

(** [for x in v]: lists yield their elements, dicts their keys, strings
    their characters; the other values are not iterable. *)
Definition py_iter (v : pyval) : res (list pyval) :=
  match v with
  | PyList l => Ok l
  | PyDict kvs => Ok (map (fun kv => PyStr (fst kv)) kvs)
  | PyStr s => Ok (str_chars s)
  | PyNone => Raise (TypeError "'NoneType' object is not iterable")
  | PyBool _ => Raise (TypeError "'bool' object is not iterable")
  | PyInt _ => Raise (TypeError "'int' object is not iterable")
  end.

(** [s == v] for a string [s]: only a string equal to it compares equal. *)
Definition py_str_eq (s : string) (v : pyval) : bool :=
  match v with
  | PyStr t => bool_decide (s = t)
  | _ => false
  end.

(** [s in l] for a list [l]. *)
Definition py_in (s : string) (l : list pyval) : bool :=
  existsb (py_str_eq s) l.

(** [s.lower()] on ASCII letters; other characters are kept. *)
Definition ascii_lower (c : Ascii.ascii) : Ascii.ascii :=
  let n := Ascii.nat_of_ascii c in
  if (65 <=? n)%nat && (n <=? 90)%nat then Ascii.ascii_of_nat (n + 32) else c.

Fixpoint str_lower (s : string) : string :=
  match s with
  | EmptyString => EmptyString
  | String c s' => String (ascii_lower c) (str_lower s')
  end.

(** The names of the [builtins] module (CPython 3); a name a function
    body reads is looked up in the module's globals, then here. *)
Definition py_builtins : list string :=
  ["ArithmeticError"; "AssertionError"; "AttributeError"; "BaseException";
   "BaseExceptionGroup"; "BlockingIOError"; "BrokenPipeError"; "BufferError"; "BytesWarning";
   "ChildProcessError"; "ConnectionAbortedError"; "ConnectionError"; "ConnectionRefusedError";
   "ConnectionResetError"; "DeprecationWarning"; "EOFError"; "Ellipsis"; "EncodingWarning";
   "EnvironmentError"; "Exception"; "ExceptionGroup"; "False"; "FileExistsError";
   "FileNotFoundError"; "FloatingPointError"; "FutureWarning"; "GeneratorExit"; "IOError";
   "ImportError"; "ImportWarning"; "IndentationError"; "IndexError"; "InterruptedError";
   "IsADirectoryError"; "KeyError"; "KeyboardInterrupt"; "LookupError"; "MemoryError";
   "ModuleNotFoundError"; "NameError"; "None"; "NotADirectoryError"; "NotImplemented";
   "NotImplementedError"; "OSError"; "OverflowError"; "PendingDeprecationWarning";
   "PermissionError"; "ProcessLookupError"; "RecursionError"; "ReferenceError";
   "ResourceWarning"; "RuntimeError"; "RuntimeWarning"; "StopAsyncIteration"; "StopIteration";
   "SyntaxError"; "SyntaxWarning"; "SystemError"; "SystemExit"; "TabError"; "TimeoutError";
   "True"; "TypeError"; "UnboundLocalError"; "UnicodeDecodeError"; "UnicodeEncodeError";
   "UnicodeError"; "UnicodeTranslateError"; "UnicodeWarning"; "UserWarning"; "ValueError";
   "Warning"; "ZeroDivisionError"; "__build_class__"; "__debug__"; "__doc__"; "__import__";
   "__loader__"; "__name__"; "__package__"; "__spec__"; "abs"; "aiter"; "all"; "anext"; "any";
   "ascii"; "bin"; "bool"; "breakpoint"; "bytearray"; "bytes"; "callable"; "chr";
   "classmethod"; "compile"; "complex"; "copyright"; "credits"; "delattr"; "dict"; "dir";
   "divmod"; "enumerate"; "eval"; "exec"; "exit"; "filter"; "float"; "format"; "frozenset";
   "getattr"; "globals"; "hasattr"; "hash"; "help"; "hex"; "id"; "input"; "int"; "isinstance";
   "issubclass"; "iter"; "len"; "license"; "list"; "locals"; "map"; "max"; "memoryview";
   "min"; "next"; "object"; "oct"; "open"; "ord"; "pow"; "print"; "property"; "quit"; "range";
   "repr"; "reversed"; "round"; "set"; "setattr"; "slice"; "sorted"; "staticmethod"; "str";
   "sum"; "super"; "tuple"; "type"; "vars"; "zip"].

(** Reading a global [name] from a function of a module whose top level
    binds [globals]: [NameError] when neither binds it. *)
Definition py_lookup_global (globals : list string) (name : string) : res unit :=
  if bool_decide (name ∈ globals ++ py_builtins) then Ok tt else Raise (NameError name).

(** ** Lemmas *)

Lemma py_in_spec s l : py_in s l = true <-> PyStr s ∈ l.
Proof.
  unfold py_in. rewrite existsb_exists, list_elem_of_In. split.
  - intros [v [Hin Heq]]. destruct v; simpl in Heq; try discriminate.
    apply bool_decide_eq_true in Heq. by subst.
  - intros Hin. exists (PyStr s). simpl. by rewrite bool_decide_true.
Qed.

Lemma py_in_fmap_PyStr s (names : list string) :
  py_in s (PyStr <$> names) = bool_decide (s ∈ names).
Proof.
  apply Bool.eq_iff_eq_true. rewrite py_in_spec, bool_decide_eq_true, list_elem_of_fmap.
  naive_solver.
Qed.

Lemma dict_lookup_app_l kvs1 kvs2 k v :
  dict_lookup kvs1 k = Some v -> dict_lookup (kvs1 ++ kvs2) k = Some v.
Proof.
  induction kvs1 as [|[k' v'] kvs1 IH]; simpl; [done|].
  case_bool_decide; auto.
Qed.

Lemma py_getitem_Ok v k x :
  py_getitem v k = Ok x <-> exists kvs, v = PyDict kvs /\ dict_lookup kvs k = Some x.
Proof.
  split.
  - destruct v; simpl; try discriminate. destruct (dict_lookup kvs k) eqn:E;
      intros [= ->]; eauto.
  - intros (kvs & -> & Hl). simpl. by rewrite Hl.
Qed.

Lemma py_getitem_dict_missing kvs k :
  dict_lookup kvs k = None -> py_getitem (PyDict kvs) k = Raise (KeyError k).
Proof. intros H. simpl. by rewrite H. Qed.

Lemma py_getitem_not_dict v k :
  (forall kvs, v <> PyDict kvs) -> exists msg, py_getitem v k = Raise (TypeError msg).
Proof. destruct v; simpl; eauto. intros H. by destruct (H kvs). Qed.

Lemma dict_lookup_dict_set_ne kvs k k' x :
  k' <> k -> dict_lookup (dict_set kvs k x) k' = dict_lookup kvs k'.
Proof.
  intros Hne. induction kvs as [|[k0 v0] kvs IH]; simpl.
  - by rewrite bool_decide_false.
  - case_bool_decide; simpl; [subst; by rewrite !bool_decide_false | by rewrite IH].
Qed.

Lemma dict_lookup_dict_set_eq kvs k x : dict_lookup (dict_set kvs k x) k = Some x.
Proof.
  induction kvs as [|[k0 v0] kvs IH]; simpl; [by rewrite bool_decide_true|].
  case_bool_decide; simpl; [by rewrite bool_decide_true | by rewrite bool_decide_false].
Qed.

#[export] Hint Resolve py_getitem_dict_missing : rbac.
