(* ===== verification/Models.v ===== *)
(** * The tenant model of [auth_app/models.py]

    The seven models of [models.py] as records, the database as one table
    per model ([db_table] names), the writes the code performs on it, and
    the invariant that Django's declarations ([unique=True],
    [unique_together], [ForeignKey(..., null=False)]) maintain.  The time
    stamps ([created_at], [updated_at], [date_joined]) and the password
    columns of [AbstractBaseUser] are not modelled: no code reads them.
    [models_py_globals] lists the names the module's top level binds (its
    imports and classes), which name lookups in its methods read.
    The writes are saves, [get_or_create]s, the [UPDATE] of a user row,
    and deletions with their [CASCADE]; [db_step] collects them, and the
    reachability theorems are proved by rule induction on it.  The last
    section is the state-and-exception monad [DBM] in which the seed
    script is written, with [steps_only]: a program of the
    monad changes the database by [db_step]s only. *)

From S2P Require Import Prelude.

(** ** Records *)

Record Application := mkApplication {
  app_id : N; app_name : string; app_is_active : bool }.

Record Organization := mkOrganization {
  org_id : N; org_name : string; org_parent : option N; org_is_active : bool }.

Record User := mkUser {
  user_id : N; user_name : string; user_email : string;
  user_is_active : bool; user_is_staff : bool; user_is_superuser : bool }.

Record Role := mkRole {
  role_id : N; role_name : string; role_description : string }.

Record RoleUserOrgAssociation := mkRoleUserOrgAssociation {
  ruo_id : N; ruo_role : N; ruo_organization : N; ruo_user : N }.

Record Permission := mkPermission {
  perm_id : N; perm_name : string; perm_description : string }.

Record RolePermissionAssociation := mkRolePermissionAssociation {
  rp_id : N; rp_role : N; rp_permission : N }.

#[export] Instance Application_eq_dec : EqDecision Application.
Proof. solve_decision. Defined.
#[export] Instance Organization_eq_dec : EqDecision Organization.
Proof. solve_decision. Defined.
#[export] Instance User_eq_dec : EqDecision User.
Proof. solve_decision. Defined.
#[export] Instance Role_eq_dec : EqDecision Role.
Proof. solve_decision. Defined.
#[export] Instance RoleUserOrgAssociation_eq_dec : EqDecision RoleUserOrgAssociation.
Proof. solve_decision. Defined.
#[export] Instance Permission_eq_dec : EqDecision Permission.
Proof. solve_decision. Defined.
#[export] Instance RolePermissionAssociation_eq_dec : EqDecision RolePermissionAssociation.
Proof. solve_decision. Defined.

(** [User.get_full_name] and [User.get_short_name]: both are the name. *)
Definition get_full_name (u : User) : string := user_name u.
Definition get_short_name (u : User) : string := user_name u.

(** The names the top level of [models.py] binds: the module's own
    attributes, its imports (lines 1-13), and its classes. *)
Definition models_py_globals : list string :=
  ["__name__"; "__doc__"; "__file__"; "__package__"; "__loader__"; "__spec__"; "__builtins__";
   "unicode_literals"; "collections"; "send_mail"; "models"; "timezone"; "_"; "AbstractBaseUser";
   "AutoCreatedField"; "AutoLastModifiedField"; "UserManager";
   "Application"; "Organization"; "User"; "Role"; "RoleUserOrgAssociation"; "Permission";
   "RolePermissionAssociation"].

(** The message [send_mail(subject, message, from_email, recipient_list)]
    hands to the mail backend; its delivery is Django's. *)
Record Mail := mkMail {
  mail_subject : string;
  mail_message : string;
  mail_from : option string;   (* [None]: [DEFAULT_FROM_EMAIL] *)
  mail_to : list string }.

(** [User.email_user]: one message, to the user's own address. *)
Definition email_user (u : User) (subject message : string) (from_email : option string) : Mail :=
  mkMail subject message from_email [user_email u].

(** The primary key of a row. *)
Class HasId (A : Type) := id_of : A -> N.
#[export] Instance Application_id : HasId Application := app_id.
#[export] Instance Organization_id : HasId Organization := org_id.
#[export] Instance User_id : HasId User := user_id.
#[export] Instance Role_id : HasId Role := role_id.
#[export] Instance RoleUserOrgAssociation_id : HasId RoleUserOrgAssociation := ruo_id.
#[export] Instance Permission_id : HasId Permission := perm_id.
#[export] Instance RolePermissionAssociation_id : HasId RolePermissionAssociation := rp_id.

(** The [unique_together] keys of the join tables. *)
Definition ruo_key (a : RoleUserOrgAssociation) : N * N * N :=
  (ruo_role a, ruo_organization a, ruo_user a).
Definition rp_key (a : RolePermissionAssociation) : N * N := (rp_role a, rp_permission a).

(** ** Tables *)

(** A table: its rows in insertion order and the last id its
    [BigAutoField] sequence issued. *)
Record Table (A : Type) := mkTable { rows : list A; last_id : N }.
Arguments mkTable {A} rows last_id.
Arguments rows {A} t.
Arguments last_id {A} t.

Definition empty_table {A} : Table A := mkTable [] 0.

(** [obj.save()] of a new object: the sequence issues the next id. *)
Definition table_insert {A} (t : Table A) (mk : N -> A) : Table A * A :=
  let i := N.succ (last_id t) in
  let r := mk i in
  (mkTable (rows t ++ [r]) i, r).

(** [DELETE FROM t WHERE not P]: the rows that satisfy [P] stay. *)
Definition table_keep {A} (P : A -> Prop) `{!forall x, Decision (P x)} (t : Table A) : Table A :=
  mkTable (filter P (rows t)) (last_id t).

(** [UPDATE t SET ... WHERE id = x.id]: the row with [x]'s key becomes [x]. *)
Definition table_update {A} `{HasId A} (t : Table A) (x : A) : Table A :=
  mkTable ((fun y => if bool_decide (id_of y = id_of x) then x else y) <$> rows t) (last_id t).

(** [Model.objects.get(...)] on the rows a query selected. *)
Definition objects_get {A} (model : string) (l : list A) : res A :=
  match l with
  | [x] => Ok x
  | [] => Raise (DoesNotExist model)
  | _ => Raise (MultipleObjectsReturned model)
  end.

(** ** The database *)

Record DB := mkDB {
  applications : Table Application;
  organizations : Table Organization;
  users : Table User;
  roles : Table Role;
  roles_users_org : Table RoleUserOrgAssociation;
  permissions : Table Permission;
  roles_permissions : Table RolePermissionAssociation }.

#[export] Instance Table_eq_dec `{EqDecision A} : EqDecision (Table A).
Proof. solve_decision. Defined.
#[export] Instance DB_eq_dec : EqDecision DB.
Proof. solve_decision. Defined.

Definition empty_db : DB :=
  mkDB empty_table empty_table empty_table empty_table empty_table empty_table empty_table.

Definition set_applications db t := mkDB t (organizations db) (users db) (roles db)
  (roles_users_org db) (permissions db) (roles_permissions db).
Definition set_organizations db t := mkDB (applications db) t (users db) (roles db)
  (roles_users_org db) (permissions db) (roles_permissions db).
Definition set_users db t := mkDB (applications db) (organizations db) t (roles db)
  (roles_users_org db) (permissions db) (roles_permissions db).
Definition set_roles db t := mkDB (applications db) (organizations db) (users db) t
  (roles_users_org db) (permissions db) (roles_permissions db).
Definition set_roles_users_org db t := mkDB (applications db) (organizations db) (users db)
  (roles db) t (permissions db) (roles_permissions db).
Definition set_permissions db t := mkDB (applications db) (organizations db) (users db)
  (roles db) (roles_users_org db) t (roles_permissions db).
Definition set_roles_permissions db t := mkDB (applications db) (organizations db) (users db)
  (roles db) (roles_users_org db) (permissions db) t.

(** The ids present in each table. *)
Definition org_ids db := org_id <$> rows (organizations db).
Definition user_ids db := user_id <$> rows (users db).
Definition role_ids db := role_id <$> rows (roles db).
Definition perm_ids db := perm_id <$> rows (permissions db).

(** ** The invariant *)

(** Primary keys are unique and issued by the sequence. *)
Definition table_wf {A} `{HasId A} (t : Table A) : Prop :=
  NoDup (id_of <$> rows t) /\ Forall (fun r => (0 < id_of r <= last_id t)%N) (rows t).

(** What the schema of [models.py] guarantees of every committed state. *)
Record db_wf (db : DB) : Prop := {
  wf_applications : table_wf (applications db);
  wf_organizations : table_wf (organizations db);
  wf_users : table_wf (users db);
  wf_roles : table_wf (roles db);
  wf_roles_users_org : table_wf (roles_users_org db);
  wf_permissions : table_wf (permissions db);
  wf_roles_permissions : table_wf (roles_permissions db);
  (* unique=True *)
  wf_app_names : NoDup (app_name <$> rows (applications db));
  wf_org_names : NoDup (org_name <$> rows (organizations db));
  wf_user_emails : NoDup (user_email <$> rows (users db));
  wf_perm_names : NoDup (perm_name <$> rows (permissions db));
  (* unique_together *)
  wf_ruo_unique : NoDup (ruo_key <$> rows (roles_users_org db));
  wf_rp_unique : NoDup (rp_key <$> rows (roles_permissions db));
  (* ForeignKey *)
  wf_org_parent : forall o p, o ∈ rows (organizations db) -> org_parent o = Some p ->
    p ∈ org_ids db;
  wf_ruo_fk : forall a, a ∈ rows (roles_users_org db) ->
    ruo_role a ∈ role_ids db /\ ruo_organization a ∈ org_ids db /\ ruo_user a ∈ user_ids db;
  wf_rp_fk : forall a, a ∈ rows (roles_permissions db) ->
    rp_role a ∈ role_ids db /\ rp_permission a ∈ perm_ids db }.

(** ** Writes *)

Definition integrity_unique (col : string) : exn :=
  IntegrityError ("UNIQUE constraint failed: " +:+ col).
Definition integrity_fk : exn := IntegrityError "FOREIGN KEY constraint failed".

(** [Application(name=name).save()]: [name] is [unique=True],
    [is_active] defaults to [True]. *)
Definition Application_save (db : DB) (name : string) : res (DB * Application) :=
  if bool_decide (name ∈ app_name <$> rows (applications db))
  then Raise (integrity_unique "applications.name")
  else let ins := table_insert (applications db) (fun i => mkApplication i name true) in
       Ok (set_applications db ins.1, ins.2).

(** [Organization(name=name, parent=parent).save()]: [name] is unique and
    [parent] a nullable foreign key to [Organization]. *)
Definition Organization_save (db : DB) (name : string) (parent : option N)
    : res (DB * Organization) :=
  if bool_decide (name ∈ org_name <$> rows (organizations db))
  then Raise (integrity_unique "organizations.name")
  else if match parent with
          | Some p => bool_decide (p ∉ org_ids db)
          | None => false
          end
  then Raise integrity_fk
  else let ins := table_insert (organizations db) (fun i => mkOrganization i name parent true) in
       Ok (set_organizations db ins.1, ins.2).

(** [Role(name=name, description=description).save()]: no constraint. *)
Definition Role_save (db : DB) (name description : string) : res (DB * Role) :=
  let ins := table_insert (roles db) (fun i => mkRole i name description) in
  Ok (set_roles db ins.1, ins.2).

(** [Permission(name=name, description=description).save()]: [name] is
    unique; a [CharField] left out is saved as [''].  *)
Definition Permission_save (db : DB) (name description : string) : res (DB * Permission) :=
  if bool_decide (name ∈ perm_name <$> rows (permissions db))
  then Raise (integrity_unique "permissions.name")
  else let ins := table_insert (permissions db) (fun i => mkPermission i name description) in
       Ok (set_permissions db ins.1, ins.2).

(** [User.objects.create_user] / [create_superuser] of [UserManager]
    ([USERNAME_FIELD = 'email'], [email] unique; the password is hashed
    and stored, which is not modelled). *)
Definition UserManager_create (db : DB) (email name : string) (superuser : bool)
    : res (DB * User) :=
  if bool_decide (email ∈ user_email <$> rows (users db))
  then Raise (integrity_unique "users.email")
  else let ins := table_insert (users db) (fun i => mkUser i name email true superuser superuser) in
       Ok (set_users db ins.1, ins.2).

Definition create_user db email name := UserManager_create db email name false.
Definition create_superuser db email name := UserManager_create db email name true.

(** [RoleUserOrgAssociation.objects.get_or_create(role=, organization=,
    user=)]: [get] on the three fields, and on [DoesNotExist] an insert
    checked against the [unique_together] and the three foreign keys. *)
Definition RoleUserOrgAssociation_get_or_create (db : DB) (role org user : N)
    : res (DB * RoleUserOrgAssociation * bool) :=
  match objects_get "RoleUserOrgAssociation"
          (filter (fun a => ruo_key a = (role, org, user)) (rows (roles_users_org db))) with
  | Ok a => Ok (db, a, false)
  | Raise (DoesNotExist _) =>
      if bool_decide (role ∈ role_ids db /\ org ∈ org_ids db /\ user ∈ user_ids db)
      then let ins := table_insert (roles_users_org db) (fun i => mkRoleUserOrgAssociation i role org user) in
           Ok (set_roles_users_org db ins.1, ins.2, true)
      else Raise integrity_fk
  | Raise e => Raise e
  end.

(** [RolePermissionAssociation.objects.get_or_create(role=, permission=)]. *)
Definition RolePermissionAssociation_get_or_create (db : DB) (role perm : N)
    : res (DB * RolePermissionAssociation * bool) :=
  match objects_get "RolePermissionAssociation"
          (filter (fun a => rp_key a = (role, perm)) (rows (roles_permissions db))) with
  | Ok a => Ok (db, a, false)
  | Raise (DoesNotExist _) =>
      if bool_decide (role ∈ role_ids db /\ perm ∈ perm_ids db)
      then let ins := table_insert (roles_permissions db) (fun i => mkRolePermissionAssociation i role perm) in
           Ok (set_roles_permissions db ins.1, ins.2, true)
      else Raise integrity_fk
  | Raise e => Raise e
  end.

(** ** Lemmas on tables *)

Lemma NoDup_fmap_snoc {A B} (f : A -> B) (l : list A) (x : A) :
  NoDup (f <$> l) -> f x ∉ f <$> l -> NoDup (f <$> l ++ [x]).
Proof.
  intros Hnd Hx. rewrite fmap_app. simpl. apply NoDup_app.
  split; [done|]. split; [set_solver | apply NoDup_singleton].
Qed.

Lemma NoDup_fmap_filter {A B} (f : A -> B) (P : A -> Prop) `{!forall x, Decision (P x)}
    (l : list A) :
  NoDup (f <$> l) -> NoDup (f <$> filter P l).
Proof. intros Hl. eapply sublist_NoDup; [exact Hl|]. apply fmap_sublist, sublist_filter. Qed.

Lemma table_insert_fresh `{HasId A} (t : Table A) :
  table_wf t -> N.succ (last_id t) ∉ id_of <$> rows t.
Proof.
  intros [_ Hb] (r & Heq & Hr)%list_elem_of_fmap.
  rewrite Forall_forall in Hb. specialize (Hb r Hr). lia.
Qed.

Lemma table_insert_wf `{HasId A} (t : Table A) (mk : N -> A) :
  table_wf t -> (forall i, id_of (mk i) = i) -> table_wf (table_insert t mk).1.
Proof.
  intros Hwf Hmk. pose proof (table_insert_fresh t Hwf) as Hf. destruct Hwf as [Hnd Hb].
  split; simpl.
  - apply NoDup_fmap_snoc; [done|]. by rewrite Hmk.
  - apply Forall_app. split.
    + eapply Forall_impl; [exact Hb|]. simpl. intros. lia.
    + constructor; [rewrite Hmk; lia | done].
Qed.

Lemma table_keep_wf `{HasId A} (P : A -> Prop) `{!forall x, Decision (P x)} (t : Table A) :
  table_wf t -> table_wf (table_keep P t).
Proof.
  intros [Hnd Hb]. split; simpl.
  - by apply NoDup_fmap_filter.
  - rewrite Forall_forall in *. intros x [_ Hx]%list_elem_of_filter. by apply Hb.
Qed.

Lemma table_update_ids `{HasId A} (t : Table A) x :
  id_of <$> rows (table_update t x) = id_of <$> rows t.
Proof. simpl. rewrite <- list_fmap_compose. apply list_fmap_ext. intros _ y _. simpl. by case_bool_decide. Qed.

Lemma replace_absent `{HasId A} (l : list A) x :
  id_of x ∉ id_of <$> l ->
  (fun y => if bool_decide (id_of y = id_of x) then x else y) <$> l = l.
Proof.
  induction l as [|y l IH]; intros Hx; [done|].
  rewrite !fmap_cons, not_elem_of_cons in *. destruct Hx as [Hy Hx].
  rewrite bool_decide_false by congruence. by rewrite IH.
Qed.

Lemma elem_of_replace `{HasId A} {B} (f : A -> B) (l : list A) x b :
  b ∈ f <$> ((fun y => if bool_decide (id_of y = id_of x) then x else y) <$> l) ->
  b = f x \/ b ∈ f <$> filter (fun y => id_of y <> id_of x) l.
Proof.
  intros (z & -> & Hz)%list_elem_of_fmap. apply list_elem_of_fmap in Hz as (w & -> & Hw).
  case_bool_decide; [by left|]. right. apply list_elem_of_fmap. exists w.
  split; [done|]. by apply list_elem_of_filter.
Qed.

Lemma table_update_wf `{HasId A} (t : Table A) x : table_wf t -> table_wf (table_update t x).
Proof.
  intros [Hnd Hb]. split; [by rewrite table_update_ids|].
  destruct (decide (id_of x ∈ id_of <$> rows t)) as [Hin|Hout].
  - apply list_elem_of_fmap in Hin as (y & Hxy & Hy). rewrite Forall_forall in Hb.
    simpl. apply Forall_fmap, Forall_forall. intros z Hz. simpl.
    case_bool_decide; [rewrite Hxy; by apply Hb | by apply Hb].
  - unfold table_update. by rewrite replace_absent.
Qed.

(** A column stays unique under the update when the new value is not held
    by another row. *)
Lemma table_update_NoDup `{HasId A} {B} (f : A -> B) (l : list A) x :
  NoDup (id_of <$> l) -> NoDup (f <$> l) ->
  f x ∉ f <$> filter (fun y => id_of y <> id_of x) l ->
  NoDup (f <$> ((fun y => if bool_decide (id_of y = id_of x) then x else y) <$> l)).
Proof.
  induction l as [|y l IH]; intros Hid Hf Hx; [constructor|].
  rewrite fmap_cons in Hid. rewrite fmap_cons in Hf. rewrite fmap_cons. apply NoDup_cons in Hid as [Hy Hid].
  apply NoDup_cons in Hf as [Hfy Hf]. rewrite filter_cons in Hx.
  case_bool_decide as Hyx; rewrite fmap_cons; apply NoDup_cons.
  - rewrite decide_False in Hx by congruence. rewrite replace_absent by congruence.
    split; [|done]. intros (z & Hz & Hzl)%list_elem_of_fmap. apply Hx.
    apply list_elem_of_fmap. exists z. split; [done|]. apply list_elem_of_filter.
    split; [|done]. intros Hzx. apply Hy. apply list_elem_of_fmap. exists z. split; [congruence|done].
  - rewrite decide_True in Hx by done. rewrite fmap_cons, not_elem_of_cons in Hx.
    destruct Hx as [Hxy Hx]. split; [|by apply IH].
    intros [Hb | Hb]%elem_of_replace; [congruence|].
    apply Hfy. apply list_elem_of_fmap in Hb as (z & Hz & Hzl%list_elem_of_filter).
    apply list_elem_of_fmap. exists z. split; [done | tauto].
Qed.

Lemma rows_table_insert {A} (t : Table A) mk :
  rows (table_insert t mk).1 = rows t ++ [mk (N.succ (last_id t))].
Proof. done. Qed.

Lemma table_insert_row {A} (t : Table A) mk : (table_insert t mk).2 = mk (N.succ (last_id t)).
Proof. done. Qed.

#[export] Hint Resolve table_insert_wf table_keep_wf NoDup_fmap_filter : rbac.

(** ** Every write preserves [db_wf] *)

Ltac db_simpl :=
  unfold org_ids, user_ids, role_ids, perm_ids in *;
  cbn [set_applications set_organizations set_users set_roles set_roles_users_org
       set_permissions set_roles_permissions applications organizations users roles
       roles_users_org permissions roles_permissions] in *.

Ltac db_simpl_rows := db_simpl; rewrite ?rows_table_insert in *.

(** Open the invariant, rebuild it, and discharge the fields the write
    does not touch. *)
Ltac wf_rebuild Hwf :=
  destruct Hwf; constructor; db_simpl; try assumption.

Lemma elem_of_fmap_snoc {A B} (f : A -> B) (l : list A) x y :
  y ∈ f <$> l -> y ∈ f <$> l ++ [x].
Proof. rewrite fmap_app. set_solver. Qed.
#[export] Hint Resolve elem_of_fmap_snoc : rbac.

Lemma Application_save_wf db name db' a :
  db_wf db -> Application_save db name = Ok (db', a) -> db_wf db'.
Proof.
  unfold Application_save. intros Hwf H.
  case_bool_decide as Hn; [discriminate|]. apply Ok_inj, pair_equal_spec in H as [<- _].
  wf_rebuild Hwf; [by apply table_insert_wf |]. rewrite rows_table_insert.
  by apply NoDup_fmap_snoc.
Qed.

Lemma Organization_save_wf db name parent db' o :
  db_wf db -> Organization_save db name parent = Ok (db', o) -> db_wf db'.
Proof.
  unfold Organization_save. intros Hwf H.
  case_bool_decide as Hn; [discriminate|].
  assert (Hp : forall p, parent = Some p -> p ∈ org_ids db).
  { intros p ->. case_bool_decide; [discriminate | tauto]. }
  destruct (match parent with Some p => _ | None => false end); [discriminate|].
  apply Ok_inj, pair_equal_spec in H as [<- _]. pose proof (wf_ruo_fk db Hwf) as Hfk.
  pose proof (wf_org_parent db Hwf) as Hpar.
  wf_rebuild Hwf.
  - by apply table_insert_wf.
  - rewrite rows_table_insert. by apply NoDup_fmap_snoc.
  - rewrite !rows_table_insert. intros o' p Ho Hop. apply elem_of_fmap_snoc.
    apply elem_of_app in Ho as [Ho | ->%list_elem_of_singleton]; [by eapply Hpar | by apply Hp].
  - rewrite !rows_table_insert. intros a Ha. destruct (Hfk a Ha) as (? & ? & ?).
    eauto with rbac.
Qed.

Lemma Role_save_wf db name description db' r :
  db_wf db -> Role_save db name description = Ok (db', r) -> db_wf db'.
Proof.
  unfold Role_save. intros Hwf H. apply Ok_inj, pair_equal_spec in H as [<- _].
  pose proof (wf_ruo_fk db Hwf) as Hfk. pose proof (wf_rp_fk db Hwf) as Hrp.
  wf_rebuild Hwf; [by apply table_insert_wf | ..]; rewrite !rows_table_insert.
  - intros a Ha. destruct (Hfk a Ha) as (? & ? & ?). eauto with rbac.
  - intros a Ha. destruct (Hrp a Ha) as (? & ?). eauto with rbac.
Qed.

Lemma Permission_save_wf db name description db' p :
  db_wf db -> Permission_save db name description = Ok (db', p) -> db_wf db'.
Proof.
  unfold Permission_save. intros Hwf H.
  case_bool_decide as Hn; [discriminate|]. apply Ok_inj, pair_equal_spec in H as [<- _].
  pose proof (wf_rp_fk db Hwf) as Hrp.
  wf_rebuild Hwf; [by apply table_insert_wf | ..]; rewrite !rows_table_insert.
  - by apply NoDup_fmap_snoc.
  - intros a Ha. destruct (Hrp a Ha) as (? & ?). eauto with rbac.
Qed.

Lemma UserManager_create_wf db email name su db' u :
  db_wf db -> UserManager_create db email name su = Ok (db', u) -> db_wf db'.
Proof.
  unfold UserManager_create. intros Hwf H.
  case_bool_decide as Hn; [discriminate|]. apply Ok_inj, pair_equal_spec in H as [<- _].
  pose proof (wf_ruo_fk db Hwf) as Hfk.
  wf_rebuild Hwf; [by apply table_insert_wf | ..]; rewrite !rows_table_insert.
  - by apply NoDup_fmap_snoc.
  - intros a Ha. destruct (Hfk a Ha) as (? & ? & ?). eauto with rbac.
Qed.

(** A query that found nothing: the key is absent from the column. *)
Lemma filter_key_nil {A K} `{EqDecision K} (key : A -> K) (k : K) (l : list A) :
  filter (fun a => key a = k) l = [] -> k ∉ key <$> l.
Proof.
  intros Hf (a & -> & Ha)%list_elem_of_fmap.
  by apply (filter_nil_not_elem_of _ _ a Hf).
Qed.

Lemma objects_get_DoesNotExist {A} model model' (l : list A) :
  objects_get model l = Raise (DoesNotExist model') -> l = [].
Proof. destruct l as [|? [|]]; simpl; congruence. Qed.

Lemma objects_get_Ok {A} model (l : list A) a : objects_get model l = Ok a -> l = [a].
Proof. destruct l as [|? [|]]; simpl; congruence. Qed.

(** [objects.get(...)] of a filter returns a row of the table that passes it. *)
Lemma objects_get_filter_Ok {A} model (P : A -> Prop) `{!forall x, Decision (P x)} l a :
  objects_get model (filter P l) = Ok a -> a ∈ l /\ P a.
Proof.
  intros Hg%objects_get_Ok. assert (Ha : a ∈ filter P l) by (rewrite Hg; set_solver).
  apply list_elem_of_filter in Ha as [? ?]. done.
Qed.

(** Emails are unique, so [email_user] reaches the one user and no other
    row of the table. *)
Lemma email_user_only_recipient db u v subject message from_email :
  NoDup (user_email <$> rows (users db)) -> u ∈ rows (users db) -> v ∈ rows (users db) ->
  user_email v ∈ mail_to (email_user u subject message from_email) -> v = u.
Proof.
  intros Hnd Hu Hv He%list_elem_of_singleton. exact (NoDup_fmap_inj_on _ _ _ _ Hnd Hv Hu He).
Qed.

Lemma RoleUserOrgAssociation_get_or_create_wf db role org user db' a created :
  db_wf db ->
  RoleUserOrgAssociation_get_or_create db role org user = Ok (db', a, created) -> db_wf db'.
Proof.
  unfold RoleUserOrgAssociation_get_or_create. intros Hwf H.
  destruct (objects_get _ _) as [a'|[]] eqn:Hg; try discriminate.
  - by apply Ok_inj in H as [= <- _ _].
  - apply objects_get_DoesNotExist, filter_key_nil in Hg.
    case_bool_decide as Hfk'; [|discriminate].
    apply Ok_inj, pair_equal_spec in H as [[<- _]%pair_equal_spec _].
    pose proof (wf_ruo_fk db Hwf) as Hfk.
    wf_rebuild Hwf; [by apply table_insert_wf | ..]; rewrite !rows_table_insert.
    + by apply NoDup_fmap_snoc.
    + intros b [Hb | ->%list_elem_of_singleton]%elem_of_app; [by apply Hfk | done].
Qed.

(** On a well-formed state, [get_or_create] on existing rows succeeds:
    it returns the grant with that triple, keeps every grant, and leaves
    the permission tables alone. *)
Lemma RoleUserOrgAssociation_get_or_create_Ok db role org user :
  db_wf db -> role ∈ role_ids db -> org ∈ org_ids db -> user ∈ user_ids db ->
  exists db' a created,
    RoleUserOrgAssociation_get_or_create db role org user = Ok (db', a, created) /\
    a ∈ rows (roles_users_org db') /\ ruo_key a = (role, org, user) /\
    rows (roles_users_org db) ⊆ rows (roles_users_org db') /\
    permissions db' = permissions db /\ roles_permissions db' = roles_permissions db.
Proof.
  intros Hwf Hr Ho Hu. unfold RoleUserOrgAssociation_get_or_create.
  destruct (filter_key_unique ruo_key (role, org, user) _ (wf_ruo_unique db Hwf))
    as [-> | (x & -> & Hx & Hk)]; simpl.
  - rewrite bool_decide_true by auto. do 3 eexists. split; [reflexivity|]. db_simpl_rows.
    split; [set_solver|]. split; [done|]. split; [set_solver | done].
  - do 3 eexists. split; [reflexivity|]. set_solver.
Qed.

(** The same for [RolePermissionAssociation]: the pair's row is there
    afterwards, and the permissions table is untouched. *)
Lemma RolePermissionAssociation_get_or_create_Ok db role perm :
  db_wf db -> role ∈ role_ids db -> perm ∈ perm_ids db ->
  exists db' a created,
    RolePermissionAssociation_get_or_create db role perm = Ok (db', a, created) /\
    a ∈ rows (roles_permissions db') /\ rp_key a = (role, perm) /\
    permissions db' = permissions db.
Proof.
  intros Hwf Hr Hp. unfold RolePermissionAssociation_get_or_create.
  destruct (filter_key_unique rp_key (role, perm) _ (wf_rp_unique db Hwf))
    as [-> | (x & -> & Hx & Hk)]; simpl.
  - rewrite bool_decide_true by auto. do 3 eexists. split; [reflexivity|]. db_simpl_rows.
    split; [set_solver | done].
  - do 3 eexists. split; [reflexivity|]. done.
Qed.

Lemma RolePermissionAssociation_get_or_create_wf db role perm db' a created :
  db_wf db ->
  RolePermissionAssociation_get_or_create db role perm = Ok (db', a, created) -> db_wf db'.
Proof.
  unfold RolePermissionAssociation_get_or_create. intros Hwf H.
  destruct (objects_get _ _) as [a'|[]] eqn:Hg; try discriminate.
  - by apply Ok_inj in H as [= <- _ _].
  - apply objects_get_DoesNotExist, filter_key_nil in Hg.
    case_bool_decide as Hfk'; [|discriminate].
    apply Ok_inj, pair_equal_spec in H as [[<- _]%pair_equal_spec _].
    pose proof (wf_rp_fk db Hwf) as Hfk.
    wf_rebuild Hwf; [by apply table_insert_wf | ..]; rewrite !rows_table_insert.
    + by apply NoDup_fmap_snoc.
    + intros b [Hb | ->%list_elem_of_singleton]%elem_of_app; [by apply Hfk | done].
Qed.

(** ** A decision procedure for the invariant *)

(** The foreign-key fields as [Forall]s, which have [Decision] instances. *)
Definition db_wf_dec_prop (db : DB) : Prop :=
  (table_wf (applications db) /\ table_wf (organizations db) /\ table_wf (users db) /\
   table_wf (roles db) /\ table_wf (roles_users_org db) /\ table_wf (permissions db) /\
   table_wf (roles_permissions db)) /\
  (NoDup (app_name <$> rows (applications db)) /\ NoDup (org_name <$> rows (organizations db)) /\
   NoDup (user_email <$> rows (users db)) /\ NoDup (perm_name <$> rows (permissions db)) /\
   NoDup (ruo_key <$> rows (roles_users_org db)) /\ NoDup (rp_key <$> rows (roles_permissions db))) /\
  Forall (fun o => match org_parent o with Some p => p ∈ org_ids db | None => True end)
    (rows (organizations db)) /\
  Forall (fun a => ruo_role a ∈ role_ids db /\ ruo_organization a ∈ org_ids db /\
                   ruo_user a ∈ user_ids db) (rows (roles_users_org db)) /\
  Forall (fun a => rp_role a ∈ role_ids db /\ rp_permission a ∈ perm_ids db)
    (rows (roles_permissions db)).

#[export] Instance table_wf_dec {A} `{HasId A} (t : Table A) : Decision (table_wf t).
Proof. unfold table_wf. apply _. Defined.

#[export] Instance db_wf_dec_prop_dec db : Decision (db_wf_dec_prop db).
Proof.
  unfold db_wf_dec_prop. repeat apply and_dec; try apply _.
  apply Forall_dec. intros o. destruct (org_parent o); apply _.
Defined.

Definition db_wfb (db : DB) : bool := bool_decide (db_wf_dec_prop db).

Lemma db_wfb_sound db : db_wfb db = true -> db_wf db.
Proof.
  unfold db_wfb, db_wf_dec_prop. rewrite bool_decide_eq_true.
  intros ((? & ? & ? & ? & ? & ? & ?) & (? & ? & ? & ? & ? & ?) & Hp & Hr & Hrp).
  rewrite Forall_forall in Hp; rewrite Forall_forall in Hr; rewrite Forall_forall in Hrp.
  constructor; try done.
  intros o p Ho Hop. specialize (Hp o Ho). by rewrite Hop in Hp.
Qed.

(** ** Deletion

    Every [ForeignKey] of [models.py] is declared without [on_delete],
    which in Django 1.x means [CASCADE]: [obj.delete()] collects the rows
    that point to [obj] and deletes them with it, recursively. *)

(** [organization.parent_id IN ids] *)
Definition parent_in (ids : list N) (o : Organization) : Prop :=
  match org_parent o with Some p => p ∈ ids | None => False end.

#[export] Instance parent_in_dec ids o : Decision (parent_in ids o).
Proof. unfold parent_in. destruct (org_parent o); apply _. Defined.

(** The organizations whose parent is in [ids]. *)
Definition children_of (orgs : list Organization) (ids : list N) : list N :=
  org_id <$> filter (parent_in ids) orgs.

(** The collector's walk down [Organization.children]: each round adds the
    children not collected yet, until a round adds none.  [fuel] bounds the
    rounds; [Organization_delete] gives one round per organization. *)
Fixpoint collect_orgs (fuel : nat) (orgs : list Organization) (acc : list N) : list N :=
  match fuel with
  | O => acc
  | S fuel' =>
      let next := filter (fun i => i ∉ acc) (children_of orgs acc) in
      if bool_decide (next = []) then acc else collect_orgs fuel' orgs (acc ++ next)
  end.

(** [organization.delete()]: the organization, its descendants, and the
    grants in any of them. *)
Definition Organization_delete (db : DB) (o : N) : DB :=
  let orgs := rows (organizations db) in
  let collected := collect_orgs (length orgs) orgs [o] in
  set_roles_users_org
    (set_organizations db (table_keep (fun x => org_id x ∉ collected) (organizations db)))
    (table_keep (fun a => ruo_organization a ∉ collected) (roles_users_org db)).

(** [role.delete()]: the role and both kinds of grant that name it. *)
Definition Role_delete (db : DB) (r : N) : DB :=
  set_roles_permissions
    (set_roles_users_org
       (set_roles db (table_keep (fun x => role_id x <> r) (roles db)))
       (table_keep (fun a => ruo_role a <> r) (roles_users_org db)))
    (table_keep (fun b => rp_role b <> r) (roles_permissions db)).

(** [permission.delete()] *)
Definition Permission_delete (db : DB) (p : N) : DB :=
  set_roles_permissions
    (set_permissions db (table_keep (fun x => perm_id x <> p) (permissions db)))
    (table_keep (fun b => rp_permission b <> p) (roles_permissions db)).

(** [user.delete()] ([UserDetail.delete] of [views.py]) *)
Definition User_delete (db : DB) (u : N) : DB :=
  set_roles_users_org
    (set_users db (table_keep (fun x => user_id x <> u) (users db)))
    (table_keep (fun a => ruo_user a <> u) (roles_users_org db)).

(** [user.save()] on a user read from the table ([UserDetail.put]):
    Django issues an [UPDATE] of the row with the user's key; the unique
    index on [email] refuses an email another row holds. *)
Definition User_save_update (db : DB) (u : User) : res DB :=
  if bool_decide (user_email u ∈ user_email <$> filter (fun x => user_id x <> user_id u) (rows (users db)))
  then Raise (integrity_unique "users.email")
  else Ok (set_users db (table_update (users db) u)).

(** Revoking a grant: deleting one row of a join table. *)
Definition RoleUserOrgAssociation_delete (db : DB) (i : N) : DB :=
  set_roles_users_org db (table_keep (fun a => ruo_id a <> i) (roles_users_org db)).

Definition RolePermissionAssociation_delete (db : DB) (i : N) : DB :=
  set_roles_permissions db (table_keep (fun b => rp_id b <> i) (roles_permissions db)).

Definition Application_delete (db : DB) (i : N) : DB :=
  set_applications db (table_keep (fun x => app_id x <> i) (applications db)).

(** ** The cascade reaches every descendant *)

(** The collected set is closed under [children]. *)
Definition children_closed (orgs : list Organization) (ids : list N) : Prop :=
  forall c p, c ∈ orgs -> org_parent c = Some p -> p ∈ ids -> org_id c ∈ ids.

(** The organizations not collected yet. *)
Definition uncollected (orgs : list Organization) (acc : list N) : nat :=
  length (filter (fun i => i ∉ acc) (org_id <$> orgs)).

Lemma elem_of_children_of orgs ids i :
  i ∈ children_of orgs ids <->
  exists c p, c ∈ orgs /\ org_parent c = Some p /\ p ∈ ids /\ org_id c = i.
Proof.
  unfold children_of, parent_in. rewrite list_elem_of_fmap.
  setoid_rewrite list_elem_of_filter. split.
  - intros (c & -> & Hp & Hc). destruct (org_parent c) as [p|] eqn:E; [|done]. eauto 10.
  - intros (c & p & Hc & Hp & Hin & <-). exists c. rewrite Hp. auto.
Qed.

(** A round that adds a child strictly decreases [uncollected]. *)
Lemma uncollected_decreases orgs acc next :
  (exists i, i ∈ next /\ (i ∉ acc) /\ i ∈ (org_id <$> orgs)) ->
  uncollected orgs (acc ++ next) < uncollected orgs acc.
Proof.
  intros (i & Hi & Hacc & Horg). unfold uncollected.
  rewrite <- (list_filter_filter_l (fun j => j ∉ acc ++ next) (fun j => j ∉ acc))
    by set_solver.
  apply length_filter_lt with i; [by apply list_elem_of_filter | set_solver].
Qed.

Lemma children_of_orgs orgs ids : children_of orgs ids ⊆ org_id <$> orgs.
Proof.
  intros i (c & p & Hc & _ & _ & <-)%elem_of_children_of. apply list_elem_of_fmap. eauto.
Qed.

(** A round that finds new children lowers [uncollected]. *)
Lemma uncollected_round orgs acc :
  filter (fun i => i ∉ acc) (children_of orgs acc) <> [] ->
  uncollected orgs (acc ++ filter (fun i => i ∉ acc) (children_of orgs acc)) < uncollected orgs acc.
Proof.
  intros Hne. apply uncollected_decreases. destruct (filter _ _) as [|i l] eqn:E; [done|].
  assert (Hi : i ∈ filter (fun i => i ∉ acc) (children_of orgs acc)) by (rewrite E; left).
  apply list_elem_of_filter in Hi as [Hacc Hi]. exists i.
  split; [left|]. split; [done|]. by apply (children_of_orgs orgs acc).
Qed.

(** Once every organization is collected, a round finds nothing new. *)
Lemma uncollected_0_next orgs acc :
  uncollected orgs acc = 0 -> filter (fun i => i ∉ acc) (children_of orgs acc) = [].
Proof.
  unfold uncollected. intros Hl%length_zero_iff_nil. apply filter_all_false.
  intros i Hi Hn. apply (children_of_orgs orgs acc) in Hi.
  by apply (filter_nil_not_elem_of _ _ i Hl).
Qed.

(** Fuel: with at least [uncollected] rounds, the walk returns a set that
    contains its start and is closed under [children]. *)
Lemma collect_orgs_closed fuel orgs acc :
  uncollected orgs acc <= fuel ->
  acc ⊆ collect_orgs fuel orgs acc /\ children_closed orgs (collect_orgs fuel orgs acc).
Proof.
  revert acc; induction fuel as [|fuel IH]; intros acc Hf; simpl.
  - split; [done|]. intros c p Hc _ _. apply dec_stable. intros Hn.
    assert (uncollected orgs acc <> 0); [|lia]. unfold uncollected.
    intros Hl. apply length_zero_iff_nil in Hl.
    apply (filter_nil_not_elem_of _ _ (org_id c) Hl); [done | apply list_elem_of_fmap; eauto].
  - case_bool_decide as Hnext.
    + split; [done|]. intros c p Hc Hp Hin. apply dec_stable. intros Hn.
      apply (filter_nil_not_elem_of _ _ (org_id c) Hnext); [done|].
      apply elem_of_children_of. eauto 10.
    + destruct (IH (acc ++ filter (fun i => i ∉ acc) (children_of orgs acc))) as [Hsub Hcl].
      * pose proof (uncollected_round orgs acc Hnext). lia.
      * split; [set_solver | done].
Qed.

(** With at least [uncollected] rounds the walk has reached its fixpoint:
    further rounds change nothing. *)
Lemma collect_orgs_fuel_stable fuel k orgs acc :
  uncollected orgs acc <= fuel -> collect_orgs (fuel + k) orgs acc = collect_orgs fuel orgs acc.
Proof.
  revert acc; induction fuel as [|fuel IH]; intros acc Hf; simpl.
  - destruct k; simpl; [done|]. rewrite uncollected_0_next by lia. by rewrite bool_decide_true.
  - case_bool_decide as Hnext; [done|]. apply IH. pose proof (uncollected_round orgs acc Hnext). lia.
Qed.

(** Everything the walk collects is below one of its starting points. *)
Lemma collect_orgs_below fuel orgs acc (P : N -> Prop) :
  (forall i, i ∈ acc -> P i) ->
  (forall c p, c ∈ orgs -> org_parent c = Some p -> P p -> P (org_id c)) ->
  forall i, i ∈ collect_orgs fuel orgs acc -> P i.
Proof.
  intros Hacc Hstep. revert acc Hacc; induction fuel as [|fuel IH]; intros acc Hacc; simpl; [done|].
  case_bool_decide; [done|]. apply IH. intros i [Hi | [_ Hi]%list_elem_of_filter]%elem_of_app;
    [by apply Hacc|].
  apply elem_of_children_of in Hi as (c & p & Hc & Hp & Hin & <-). by apply (Hstep c p), Hacc.
Qed.

Lemma uncollected_le orgs acc : uncollected orgs acc <= length orgs.
Proof. unfold uncollected. etrans; [apply length_filter | by rewrite length_fmap]. Qed.

Lemma Organization_delete_closed db o :
  let orgs := rows (organizations db) in
  o ∈ collect_orgs (length orgs) orgs [o] /\
  children_closed orgs (collect_orgs (length orgs) orgs [o]).
Proof.
  simpl. destruct (collect_orgs_closed (length (rows (organizations db)))
                     (rows (organizations db)) [o]) as [Hsub Hcl];
    [apply uncollected_le | split; [set_solver | done]].
Qed.

(** ** Every deletion preserves [db_wf] *)

(** A key that survives the delete still finds its row. *)
Lemma elem_of_fmap_filter {A B} (f : A -> B) (P : A -> Prop) `{!forall x, Decision (P x)}
    (l : list A) y :
  y ∈ f <$> l -> (forall x, f x = y -> P x) -> y ∈ f <$> filter P l.
Proof.
  intros (x & -> & Hx)%list_elem_of_fmap HP. apply list_elem_of_fmap.
  exists x. split; [done|]. apply list_elem_of_filter. auto.
Qed.

Lemma Role_delete_wf db r : db_wf db -> db_wf (Role_delete db r).
Proof.
  intros Hwf. pose proof (wf_ruo_fk db Hwf) as Hfk. pose proof (wf_rp_fk db Hwf) as Hrp.
  unfold Role_delete. wf_rebuild Hwf; unfold table_keep; simpl; eauto with rbac.
  - intros a [Hr Ha]%list_elem_of_filter. destruct (Hfk a Ha) as (? & ? & ?).
    split; [|done]. by apply elem_of_fmap_filter; [| intros ? ->].
  - intros b [Hr Hb]%list_elem_of_filter. destruct (Hrp b Hb) as (? & ?).
    split; [|done]. by apply elem_of_fmap_filter; [| intros ? ->].
Qed.

Lemma Permission_delete_wf db p : db_wf db -> db_wf (Permission_delete db p).
Proof.
  intros Hwf. pose proof (wf_rp_fk db Hwf) as Hrp.
  unfold Permission_delete. wf_rebuild Hwf; unfold table_keep; simpl; eauto with rbac.
  intros b [Hp Hb]%list_elem_of_filter. destruct (Hrp b Hb) as (? & ?).
  split; [done|]. by apply elem_of_fmap_filter; [| intros ? ->].
Qed.

Lemma User_delete_wf db u : db_wf db -> db_wf (User_delete db u).
Proof.
  intros Hwf. pose proof (wf_ruo_fk db Hwf) as Hfk.
  unfold User_delete. wf_rebuild Hwf; unfold table_keep; simpl; eauto with rbac.
  intros a [Hu Ha]%list_elem_of_filter. destruct (Hfk a Ha) as (? & ? & ?).
  split; [done|]. split; [done|]. by apply elem_of_fmap_filter; [| intros ? ->].
Qed.

Lemma User_save_update_wf db u db' : db_wf db -> User_save_update db u = Ok db' -> db_wf db'.
Proof.
  unfold User_save_update. intros Hwf H. case_bool_decide as Hn; [discriminate|].
  apply Ok_inj in H as <-. pose proof (wf_ruo_fk db Hwf) as Hfk.
  assert (Hids : user_id <$> rows (table_update (users db) u) = user_id <$> rows (users db))
    by apply table_update_ids.
  pose proof (wf_users db Hwf) as [Hnd _]. pose proof (wf_user_emails db Hwf) as Hem.
  wf_rebuild Hwf; [by apply table_update_wf | exact (table_update_NoDup _ _ _ Hnd Hem Hn) |].
  intros a Ha. destruct (Hfk a Ha) as (? & ? & ?). rewrite Hids. done.
Qed.

Lemma Organization_delete_wf db o : db_wf db -> db_wf (Organization_delete db o).
Proof.
  intros Hwf. pose proof (wf_ruo_fk db Hwf) as Hfk. pose proof (wf_org_parent db Hwf) as Hpar.
  destruct (Organization_delete_closed db o) as [_ Hcl].
  unfold Organization_delete. wf_rebuild Hwf; unfold table_keep; simpl; eauto with rbac.
  - intros x p [Hx Hxo]%list_elem_of_filter Hp. apply elem_of_fmap_filter; [by eapply Hpar|].
    intros y Hy. rewrite Hy. intros Hin. apply Hx. by apply (Hcl x p).
  - intros a [Ha' Ha]%list_elem_of_filter. destruct (Hfk a Ha) as (? & ? & ?).
    split; [done|]. split; [|done]. by apply elem_of_fmap_filter; [| intros ? ->].
Qed.

Lemma RoleUserOrgAssociation_delete_wf db i :
  db_wf db -> db_wf (RoleUserOrgAssociation_delete db i).
Proof.
  intros Hwf. pose proof (wf_ruo_fk db Hwf) as Hfk.
  unfold RoleUserOrgAssociation_delete. wf_rebuild Hwf; unfold table_keep; simpl;
    eauto with rbac.
  intros a [_ Ha]%list_elem_of_filter. by apply Hfk.
Qed.

Lemma RolePermissionAssociation_delete_wf db i :
  db_wf db -> db_wf (RolePermissionAssociation_delete db i).
Proof.
  intros Hwf. pose proof (wf_rp_fk db Hwf) as Hrp.
  unfold RolePermissionAssociation_delete. wf_rebuild Hwf; unfold table_keep; simpl;
    eauto with rbac.
  intros b [_ Hb]%list_elem_of_filter. by apply Hrp.
Qed.

Lemma Application_delete_wf db i : db_wf db -> db_wf (Application_delete db i).
Proof.
  intros Hwf. unfold Application_delete. wf_rebuild Hwf; unfold table_keep; simpl;
    eauto with rbac.
Qed.

(** ** Updating an organization's parent *)

(** [UPDATE organizations SET parent_id = parent WHERE id = o], row by row. *)
Definition set_parent_row (o : N) (parent : option N) (x : Organization) : Organization :=
  if bool_decide (org_id x = o)
  then mkOrganization (org_id x) (org_name x) parent (org_is_active x)
  else x.

(** [organization.parent = parent; organization.save()] on an existing
    row: the foreign key is checked, nothing else is. *)
Definition Organization_update_parent (db : DB) (o : N) (parent : option N) : res DB :=
  if bool_decide (o ∉ org_ids db) then Raise (DoesNotExist "Organization")
  else if match parent with
          | Some p => bool_decide (p ∉ org_ids db)
          | None => false
          end
  then Raise integrity_fk
  else Ok (set_organizations db
             (mkTable (set_parent_row o parent <$> rows (organizations db))
                      (last_id (organizations db)))).

Lemma set_parent_row_id o parent x : org_id (set_parent_row o parent x) = org_id x.
Proof. unfold set_parent_row. by case_bool_decide. Qed.

Lemma fmap_set_parent_row_id o parent (l : list Organization) :
  org_id <$> (set_parent_row o parent <$> l) = org_id <$> l.
Proof.
  rewrite <- list_fmap_compose. apply Forall_fmap_ext_1, Forall_forall.
  intros x _. apply set_parent_row_id.
Qed.

Lemma fmap_set_parent_row_name o parent (l : list Organization) :
  org_name <$> (set_parent_row o parent <$> l) = org_name <$> l.
Proof.
  rewrite <- list_fmap_compose. apply Forall_fmap_ext_1, Forall_forall.
  intros x _. unfold set_parent_row. simpl. by case_bool_decide.
Qed.

(** The parent edges of the organization tree. *)
Definition org_parent_edge (db : DB) (i j : N) : Prop :=
  exists o, o ∈ rows (organizations db) /\ org_id o = i /\ org_parent o = Some j.

(** Parents were created before their children. *)
Definition parents_older (db : DB) : Prop :=
  forall o p, o ∈ rows (organizations db) -> org_parent o = Some p -> (p < org_id o)%N.

(** ** The writes as a step relation *)

Inductive db_step : DB -> DB -> Prop :=
| step_application_save db name db' a :
    Application_save db name = Ok (db', a) -> db_step db db'
| step_organization_save db name parent db' o :
    Organization_save db name parent = Ok (db', o) -> db_step db db'
| step_role_save db name description db' r :
    Role_save db name description = Ok (db', r) -> db_step db db'
| step_permission_save db name description db' p :
    Permission_save db name description = Ok (db', p) -> db_step db db'
| step_user_create db email name su db' u :
    UserManager_create db email name su = Ok (db', u) -> db_step db db'
| step_ruo_get_or_create db role org user db' a created :
    RoleUserOrgAssociation_get_or_create db role org user = Ok (db', a, created) -> db_step db db'
| step_rp_get_or_create db role perm db' a created :
    RolePermissionAssociation_get_or_create db role perm = Ok (db', a, created) -> db_step db db'
| step_application_delete db i : db_step db (Application_delete db i)
| step_organization_delete db o : db_step db (Organization_delete db o)
| step_role_delete db r : db_step db (Role_delete db r)
| step_permission_delete db p : db_step db (Permission_delete db p)
| step_user_delete db u : db_step db (User_delete db u)
| step_ruo_delete db i : db_step db (RoleUserOrgAssociation_delete db i)
| step_rp_delete db i : db_step db (RolePermissionAssociation_delete db i)
| step_user_update db u db' : User_save_update db u = Ok db' -> db_step db db'.

Lemma empty_db_wf : db_wf empty_db.
Proof. apply db_wfb_sound. vm_compute. reflexivity. Qed.

Lemma db_step_wf db db' : db_wf db -> db_step db db' -> db_wf db'.
Proof.
  intros Hwf Hs. destruct Hs.
  - by eapply Application_save_wf.
  - by eapply Organization_save_wf.
  - by eapply Role_save_wf.
  - by eapply Permission_save_wf.
  - by eapply UserManager_create_wf.
  - by eapply RoleUserOrgAssociation_get_or_create_wf.
  - by eapply RolePermissionAssociation_get_or_create_wf.
  - by apply Application_delete_wf.
  - by apply Organization_delete_wf.
  - by apply Role_delete_wf.
  - by apply Permission_delete_wf.
  - by apply User_delete_wf.
  - by apply RoleUserOrgAssociation_delete_wf.
  - by apply RolePermissionAssociation_delete_wf.
  - by eapply User_save_update_wf.
Qed.

Lemma rtc_db_step_wf db db' : db_wf db -> rtc db_step db db' -> db_wf db'.
Proof. intros Hwf Hr. induction Hr; eauto using db_step_wf. Qed.

(** What a step does to the organizations table: it keeps rows, or adds
    the new row the sequence numbers next, whose parent already exists. *)
Lemma db_step_organizations db db' o :
  db_step db db' -> o ∈ rows (organizations db') ->
  o ∈ rows (organizations db) \/
  (org_id o = N.succ (last_id (organizations db)) /\
   forall p, org_parent o = Some p -> p ∈ org_ids db).
Proof.
  intros Hs Ho. destruct Hs as [db name db' a H|db name parent db' o' H|db n d db' r H
    |db n d db' p H|db e n su db' u H|db r og us db' a c H|db r p db' a c H|?|?|?|?|?|?|?|db u db' H].
  - unfold Application_save in H. case_bool_decide; [discriminate|].
    apply Ok_inj, pair_equal_spec in H as [<- _]. by left.
  - unfold Organization_save in H. case_bool_decide; [discriminate|].
    assert (Hp : forall p, parent = Some p -> p ∈ org_ids db).
    { intros p ->. case_bool_decide; [discriminate | tauto]. }
    destruct (match parent with Some p => _ | None => false end); [discriminate|].
    apply Ok_inj, pair_equal_spec in H as [<- _]. cbn [set_organizations organizations] in Ho.
    rewrite rows_table_insert in Ho.
    apply elem_of_app in Ho as [Ho | ->%list_elem_of_singleton]; [by left | by right].
  - unfold Role_save in H. apply Ok_inj, pair_equal_spec in H as [<- _]. by left.
  - unfold Permission_save in H. case_bool_decide; [discriminate|].
    apply Ok_inj, pair_equal_spec in H as [<- _]. by left.
  - unfold UserManager_create in H. case_bool_decide; [discriminate|].
    apply Ok_inj, pair_equal_spec in H as [<- _]. by left.
  - unfold RoleUserOrgAssociation_get_or_create in H.
    destruct (objects_get _ _) as [?|[]]; try discriminate.
    + by apply Ok_inj in H as [= <- _ _]; left.
    + case_bool_decide; [|discriminate].
      apply Ok_inj, pair_equal_spec in H as [[<- _]%pair_equal_spec _]. by left.
  - unfold RolePermissionAssociation_get_or_create in H.
    destruct (objects_get _ _) as [?|[]]; try discriminate.
    + by apply Ok_inj in H as [= <- _ _]; left.
    + case_bool_decide; [|discriminate].
      apply Ok_inj, pair_equal_spec in H as [[<- _]%pair_equal_spec _]. by left.
  - by left.
  - left. by apply list_elem_of_filter in Ho as [_ ?].
  - by left.
  - by left.
  - by left.
  - by left.
  - by left.
  - unfold User_save_update in H. case_bool_decide; [discriminate|].
    apply Ok_inj in H as <-. by left.
Qed.

Lemma db_step_parents_older db db' :
  db_wf db -> parents_older db -> db_step db db' -> parents_older db'.
Proof.
  intros Hwf Hold Hs o p Ho Hp.
  destruct (db_step_organizations _ _ _ Hs Ho) as [Ho' | [Hid Hnew]]; [by eapply Hold|].
  rewrite Hid. destruct (wf_organizations db Hwf) as [_ Hb].
  pose proof (Hnew p Hp) as Hp'. apply list_elem_of_fmap in Hp' as (o' & -> & Ho').
  rewrite Forall_forall in Hb. specialize (Hb o' Ho'). cbv [id_of Organization_id] in Hb. lia.
Qed.

(** A parent path strictly decreases ids. *)
Lemma parent_path_older db i j :
  parents_older db -> tc (org_parent_edge db) i j -> (j < i)%N.
Proof.
  intros Hold Hp. induction Hp as [i j (o & Ho & <- & Hj) | i y j (o & Ho & <- & Hy) _ IH].
  - by eapply Hold.
  - specialize (Hold o y Ho Hy). lia.
Qed.

(** The cascade collects every organization below the deleted one. *)
Lemma parent_path_collected orgs C i j :
  children_closed orgs C ->
  tc (fun i j => exists o, o ∈ orgs /\ org_id o = i /\ org_parent o = Some j) i j ->
  j ∈ C -> i ∈ C.
Proof.
  intros Hcl Hp. induction Hp as [i j (o & Ho & <- & Hj) | i y j (o & Ho & <- & Hy) _ IH];
    intros HjC; [by apply (Hcl o j) | apply (Hcl o y); auto].
Qed.

(** ** Bounds of the id sequences *)

(** The range of Django's [BigAutoField]: a signed 64-bit column whose
    sequence starts at 1. *)
Definition BigAutoField_max : N := 9223372036854775807.

(** The last value of each table's sequence. *)
Definition last_ids (db : DB) : list N :=
  [last_id (applications db); last_id (organizations db); last_id (users db);
   last_id (roles db); last_id (roles_users_org db); last_id (permissions db);
   last_id (roles_permissions db)].

(** Every primary key of the database. *)
Definition all_ids (db : DB) : list N :=
  (id_of <$> rows (applications db)) ++ (id_of <$> rows (organizations db)) ++
  (id_of <$> rows (users db)) ++ (id_of <$> rows (roles db)) ++
  (id_of <$> rows (roles_users_org db)) ++ (id_of <$> rows (permissions db)) ++
  (id_of <$> rows (roles_permissions db)).

Ltac last_ids_tac := unfold last_ids; simpl; repeat constructor; lia.

(** A step advances each sequence by at most one. *)
Lemma db_step_last_ids db db' :
  db_step db db' -> Forall2 (fun a b => (b <= a + 1)%N) (last_ids db) (last_ids db').
Proof.
  intros Hs. destruct Hs as [db name db' a H|db name parent db' o' H|db n d db' r H
    |db n d db' p H|db e n su db' u H|db r og us db' a c H|db r p db' a c H|?|?|?|?|?|?|?|db u db' H].
  - unfold Application_save in H. case_bool_decide; [discriminate|].
    apply Ok_inj, pair_equal_spec in H as [<- _]. last_ids_tac.
  - unfold Organization_save in H. case_bool_decide; [discriminate|].
    destruct (match parent with Some p => _ | None => false end); [discriminate|].
    apply Ok_inj, pair_equal_spec in H as [<- _]. last_ids_tac.
  - unfold Role_save in H. apply Ok_inj, pair_equal_spec in H as [<- _]. last_ids_tac.
  - unfold Permission_save in H. case_bool_decide; [discriminate|].
    apply Ok_inj, pair_equal_spec in H as [<- _]. last_ids_tac.
  - unfold UserManager_create in H. case_bool_decide; [discriminate|].
    apply Ok_inj, pair_equal_spec in H as [<- _]. last_ids_tac.
  - unfold RoleUserOrgAssociation_get_or_create in H.
    destruct (objects_get _ _) as [?|[]]; try discriminate.
    + apply Ok_inj in H as [= <- _ _]. last_ids_tac.
    + case_bool_decide; [|discriminate].
      apply Ok_inj, pair_equal_spec in H as [[<- _]%pair_equal_spec _]. last_ids_tac.
  - unfold RolePermissionAssociation_get_or_create in H.
    destruct (objects_get _ _) as [?|[]]; try discriminate.
    + apply Ok_inj in H as [= <- _ _]. last_ids_tac.
    + case_bool_decide; [|discriminate].
      apply Ok_inj, pair_equal_spec in H as [[<- _]%pair_equal_spec _]. last_ids_tac.
  - last_ids_tac.
  - last_ids_tac.
  - last_ids_tac.
  - last_ids_tac.
  - last_ids_tac.
  - last_ids_tac.
  - last_ids_tac.
  - unfold User_save_update in H. case_bool_decide; [discriminate|].
    apply Ok_inj in H as <-. last_ids_tac.
Qed.

Lemma Forall_succ_bound (k : N) (l l' : list N) :
  Forall (fun i => (i <= k)%N) l -> Forall2 (fun a b => (b <= a + 1)%N) l l' ->
  Forall (fun i => (i <= k + 1)%N) l'.
Proof. intros Hl H2. revert Hl. induction H2; inversion 1; subst; constructor; [lia | auto]. Qed.

(** After [n] steps from the empty database no sequence is past [n]. *)
Lemma nsteps_last_ids n db :
  nsteps db_step n empty_db db -> Forall (fun i => (i <= N.of_nat n)%N) (last_ids db).
Proof.
  revert db. induction n as [|n IH]; intros db Hn.
  - inversion Hn; subst. apply (bool_decide_unpack _). vm_compute. reflexivity.
  - apply nsteps_inv_r in Hn as (y & Hy & Hs). rewrite Nat2N.inj_succ, <- N.add_1_r.
    by eapply Forall_succ_bound; [apply IH | apply db_step_last_ids].
Qed.

Lemma table_ids_bounded `{HasId A} (t : Table A) (k : N) :
  table_wf t -> (last_id t <= k)%N -> Forall (fun i => (0 < i <= k)%N) (id_of <$> rows t).
Proof.
  intros [_ Hb] Hk. apply Forall_fmap. eapply Forall_impl; [exact Hb|]. simpl. lia.
Qed.

(** (C20) Invariant: every state reachable from the empty database by the
    writes of the code (saves, [get_or_create]s, cascading deletes)
    satisfies [db_wf]: unique keys and names, unique grants, no dangling
    foreign key. *)
Theorem reachable_wf db : rtc db_step empty_db db -> db_wf db.
Proof. apply rtc_db_step_wf, empty_db_wf. Qed.

(** (C21) Idempotence: calling [get_or_create] again with the triple it
    just returned or created gives back the same row, reports it as not
    created, and leaves the database as it is. *)
Theorem RoleUserOrgAssociation_get_or_create_idempotent db role org user db' a created :
  RoleUserOrgAssociation_get_or_create db role org user = Ok (db', a, created) ->
  RoleUserOrgAssociation_get_or_create db' role org user = Ok (db', a, false).
Proof.
  unfold RoleUserOrgAssociation_get_or_create. intros H.
  destruct (objects_get _ _) as [a'|[]] eqn:Hg; try discriminate.
  - apply Ok_inj in H as [= <- <- _]. by rewrite Hg.
  - apply objects_get_DoesNotExist in Hg. case_bool_decide; [|discriminate].
    apply Ok_inj, pair_equal_spec in H as [[<- <-]%pair_equal_spec _].
    cbn [set_roles_users_org roles_users_org].
    rewrite rows_table_insert, filter_app, Hg, filter_cons_True by done. done.
Qed.

(** (C22) Invariant: in every reachable state the organization tree has no
    cycle: no organization is its own ancestor. *)
Theorem reachable_orgs_acyclic db i :
  rtc db_step empty_db db -> ~ tc (org_parent_edge db) i i.
Proof.
  intros Hr. assert (Hold : parents_older db).
  { assert (Hgen : forall d0 d, rtc db_step d0 d -> db_wf d0 -> parents_older d0 ->
                               parents_older d).
    { intros d0 d Hr'. induction Hr' as [|x y z Hs _ IH]; intros Hw Ho; [done|].
      apply IH; [by eapply db_step_wf | by eapply db_step_parents_older]. }
    apply (Hgen empty_db db Hr empty_db_wf). intros o p Ho. by apply not_elem_of_nil in Ho. }
  intros Hc. pose proof (parent_path_older _ _ _ Hold Hc). lia.
Qed.

(** (C23) Cascade: deleting an organization deletes it and every
    organization below it in the tree. *)
Theorem Organization_delete_descendants db o c :
  tc (org_parent_edge db) c o ->
  (c ∉ org_ids (Organization_delete db o)) /\ (o ∉ org_ids (Organization_delete db o)).
Proof.
  intros Hp. destruct (Organization_delete_closed db o) as [Ho Hcl].
  pose proof (parent_path_collected _ _ _ _ Hcl Hp Ho) as Hc.
  unfold org_ids, Organization_delete; simpl.
  split; intros (x & Hx & [Hn _]%list_elem_of_filter)%list_elem_of_fmap; subst; done.
Qed.

(** (C24) The schema does not keep the tree acyclic: an existing
    organization can be saved as its own parent, a well-formed state with a
    cycle. *)
Theorem Organization_update_parent_cycle db o :
  db_wf db -> o ∈ org_ids db ->
  exists db', Organization_update_parent db o (Some o) = Ok db' /\ db_wf db' /\
              tc (org_parent_edge db') o o.
Proof.
  intros Hwf Ho. unfold Organization_update_parent.
  rewrite !bool_decide_false by tauto. eexists. split; [reflexivity|]. split.
  - pose proof (wf_org_parent db Hwf) as Hpar. pose proof (wf_ruo_fk db Hwf) as Hfk.
    destruct (wf_organizations db Hwf) as [Hnd Hb].
    wf_rebuild Hwf; cbn [rows last_id];
      rewrite ?fmap_set_parent_row_id, ?fmap_set_parent_row_name; try done.
    + split; cbv [id_of Organization_id]; cbn [rows last_id]; rewrite ?fmap_set_parent_row_id; [done|].
      rewrite Forall_fmap. eapply Forall_impl; [exact Hb|]. intros x. simpl.
      by rewrite set_parent_row_id.
    + intros x p (y & -> & Hy)%list_elem_of_fmap Hp. unfold set_parent_row in Hp.
      case_bool_decide; simpl in Hp; [by simplify_eq | by eapply Hpar].
  - apply list_elem_of_fmap in Ho as (x & Hx & Hxin). apply tc_once.
    exists (set_parent_row o (Some o) x). split; [apply list_elem_of_fmap; eauto|].
    unfold set_parent_row. rewrite bool_decide_true by done. simpl. auto.
Qed.

(** ** Witnesses *)

(** The walk of [Organization_delete] collects the organization and
    organizations below it only. *)
Lemma Organization_delete_collected_below db o i :
  i ∈ collect_orgs (length (rows (organizations db))) (rows (organizations db)) [o] ->
  i = o \/ tc (org_parent_edge db) i o.
Proof.
  revert i. apply (collect_orgs_below _ _ _ (fun i => i = o \/ tc (org_parent_edge db) i o));
    [by intros ? ->%list_elem_of_singleton; left|].
  intros c p Hc Hp [-> | Hpo]; right; [apply tc_once | eapply tc_l; [|exact Hpo]]; by exists c.
Qed.

(** (C25) Termination of the cascade: the walk [Organization_delete] runs
    with one round per organization has reached its fixpoint, so any number
    of further rounds collects nothing more and the fuel never cuts the
    cascade short. *)
Theorem Organization_delete_fuel_enough db o k :
  collect_orgs (length (rows (organizations db)) + k) (rows (organizations db)) [o] =
  collect_orgs (length (rows (organizations db))) (rows (organizations db)) [o].
Proof. apply collect_orgs_fuel_stable, uncollected_le. Qed.

(** (C28) Precision of the cascade: the organizations and the grants that
    [Organization_delete] removes are those of the deleted organization and
    of organizations below it; every other row survives. *)
Theorem Organization_delete_only_descendants db o :
  (forall x, x ∈ rows (organizations db) -> x ∉ rows (organizations (Organization_delete db o)) ->
     org_id x = o \/ tc (org_parent_edge db) (org_id x) o) /\
  (forall a, a ∈ rows (roles_users_org db) ->
     a ∉ rows (roles_users_org (Organization_delete db o)) ->
     ruo_organization a = o \/ tc (org_parent_edge db) (ruo_organization a) o).
Proof.
  split; intros x Hx Hn; apply Organization_delete_collected_below, dec_stable; intros Hi;
    apply Hn; unfold Organization_delete; simpl; by apply list_elem_of_filter.
Qed.

(** (C30) Bounds: after [n] writes from the empty database, with [n] below
    the range of [BigAutoField], every primary key of every table lies in
    [1 .. 2^63 - 1]: the unbounded ids of the model are the ids the signed
    64-bit columns hold. *)
Theorem reachable_ids_fit_BigAutoField n db :
  nsteps db_step n empty_db db -> (N.of_nat n <= BigAutoField_max)%N ->
  Forall (fun i => (0 < i <= BigAutoField_max)%N) (all_ids db).
Proof.
  intros Hn Hmax. pose proof (rtc_db_step_wf _ _ empty_db_wf (rtc_nsteps_2 _ _ _ Hn)) as Hwf.
  pose proof (nsteps_last_ids _ _ Hn) as Hl. unfold last_ids in Hl.
  repeat (apply Forall_cons in Hl as [? Hl]).
  unfold all_ids. repeat apply Forall_app_2;
    (apply table_ids_bounded; [by destruct Hwf | lia]).
Qed.

Section Witnesses.

(** The clinic group of [initialize_data.py] and its first branch. *)
Definition clinic : Organization := mkOrganization 1 "ABC Clinic Group" None true.
Definition branch_1 : Organization :=
  mkOrganization 2 "ABC Clinic, Indiranagar Branch, Bengaluru" (Some 1%N) true.

Definition clinic_db1 : DB := set_organizations empty_db (mkTable [clinic] 1).
Definition clinic_db : DB := set_organizations empty_db (mkTable [clinic; branch_1] 2).

Lemma clinic_db_reachable : rtc db_step empty_db clinic_db.
Proof.
  eapply rtc_l.
  { apply (step_organization_save empty_db "ABC Clinic Group" None clinic_db1 clinic).
    reflexivity. }
  eapply rtc_l.
  { apply (step_organization_save clinic_db1 "ABC Clinic, Indiranagar Branch, Bengaluru"
             (Some 1%N) clinic_db branch_1). reflexivity. }
  apply rtc_refl.
Qed.

Lemma reachable_wf_witness : db_wf clinic_db.
Proof.
  apply reachable_wf. eapply rtc_l.
  { apply (step_organization_save empty_db "ABC Clinic Group" None clinic_db1 clinic).
    reflexivity. }
  eapply rtc_l.
  { apply (step_organization_save clinic_db1 "ABC Clinic, Indiranagar Branch, Bengaluru"
             (Some 1%N) clinic_db branch_1). reflexivity. }
  apply rtc_refl.
Defined.

Lemma reachable_orgs_acyclic_witness : ~ tc (org_parent_edge clinic_db) 2%N 2%N.
Proof. apply reachable_orgs_acyclic. exact clinic_db_reachable. Defined.

(** A role, a user, a grant; then the same [get_or_create] again. *)
Definition grant_db : DB :=
  mkDB empty_table (mkTable [clinic] 1)
    (mkTable [mkUser 1 "Doctor 1" "doctor1@abcclinic.com" true false false] 1)
    (mkTable [mkRole 1 "Clinic-Doctor" ""] 1) empty_table empty_table empty_table.

Lemma RoleUserOrgAssociation_get_or_create_idempotent_witness :
  RoleUserOrgAssociation_get_or_create (set_roles_users_org grant_db
      (mkTable [mkRoleUserOrgAssociation 1 1 1 1] 1)) 1 1 1
  = Ok (set_roles_users_org grant_db (mkTable [mkRoleUserOrgAssociation 1 1 1 1] 1),
        mkRoleUserOrgAssociation 1 1 1 1, false).
Proof.
  apply (RoleUserOrgAssociation_get_or_create_idempotent grant_db 1 1 1 _ _ true).
  reflexivity.
Defined.

Lemma Organization_delete_descendants_witness :
  (2%N ∉ org_ids (Organization_delete clinic_db 1)) /\
  1%N ∉ org_ids (Organization_delete clinic_db 1).
Proof.
  apply Organization_delete_descendants. apply tc_once. exists branch_1.
  split; [apply (bool_decide_unpack _); vm_compute; reflexivity | split; reflexivity].
Defined.

Lemma Organization_update_parent_cycle_witness :
  exists db', Organization_update_parent clinic_db 1 (Some 1%N) = Ok db' /\ db_wf db' /\
              tc (org_parent_edge db') 1%N 1%N.
Proof.
  apply Organization_update_parent_cycle.
  - apply db_wfb_sound. vm_compute. reflexivity.
  - apply (bool_decide_unpack _). vm_compute. reflexivity.
Defined.

Lemma Organization_delete_only_descendants_witness :
  org_id branch_1 = 1%N \/ tc (org_parent_edge clinic_db) (org_id branch_1) 1%N.
Proof.
  apply (proj1 (Organization_delete_only_descendants clinic_db 1) branch_1);
    apply (bool_decide_unpack _); vm_compute; reflexivity.
Defined.

Lemma reachable_ids_fit_BigAutoField_witness :
  Forall (fun i => (0 < i <= BigAutoField_max)%N) (all_ids clinic_db).
Proof.
  apply (reachable_ids_fit_BigAutoField 2); [|unfold BigAutoField_max; lia].
  eapply nsteps_l.
  { apply (step_organization_save empty_db "ABC Clinic Group" None clinic_db1 clinic).
    reflexivity. }
  eapply nsteps_l.
  { apply (step_organization_save clinic_db1 "ABC Clinic, Indiranagar Branch, Bengaluru"
             (Some 1%N) clinic_db branch_1). reflexivity. }
  apply nsteps_O.
Defined.

End Witnesses.

(** ** Programs over the database *)

(** A computation that reads and writes the database and may raise:
    [Model.objects...] calls threaded through a script or a request. *)
Definition DBM (A : Type) := DB -> res (DB * A).

#[export] Instance DBM_ret : MRet DBM := fun A a db => Ok (db, a).
#[export] Instance DBM_bind : MBind DBM := fun A B f c db =>
  match c db with
  | Ok (db', a) => f a db'
  | Raise e => Raise e
  end.

Definition raiseM {A} (e : exn) : DBM A := fun _ => Raise e.

(** [for x in l: body(x)] *)
Fixpoint forM_ {A} (l : list A) (body : A -> DBM unit) : DBM unit :=
  match l with
  | [] => mret ()
  | x :: l' => body x ;; forM_ l' body
  end.

(** A program that changes the database only by steps of [db_step]. *)
Definition steps_only {A} (c : DBM A) : Prop :=
  forall db db' a, c db = Ok (db', a) -> rtc db_step db db'.

Lemma steps_only_ret {A} (a : A) : steps_only (mret a).
Proof. intros db db' a' [= <- _]. apply rtc_refl. Qed.

Lemma steps_only_raise {A} e : steps_only (@raiseM A e).
Proof. intros db db' a H. discriminate. Qed.

Lemma steps_only_bind {A B} (c : DBM A) (f : A -> DBM B) :
  steps_only c -> (forall a, steps_only (f a)) -> steps_only (c ≫= f).
Proof.
  intros Hc Hf db db' b H. unfold mbind, DBM_bind in H.
  destruct (c db) as [[db1 a]|] eqn:E; [|discriminate].
  eapply rtc_trans; [by eapply Hc | by eapply Hf].
Qed.

Lemma steps_only_forM_ {A} (l : list A) body :
  (forall x, steps_only (body x)) -> steps_only (forM_ l body).
Proof.
  intros Hb. induction l as [|x l IH]; simpl; [apply steps_only_ret|].
  by apply steps_only_bind.
Qed.

(** A read leaves the database as it is. *)
Lemma steps_only_read {A} (c : DBM A) :
  (forall db db' a, c db = Ok (db', a) -> db' = db) -> steps_only c.
Proof. intros Hc db db' a H. rewrite (Hc _ _ _ H). apply rtc_refl. Qed.

Lemma steps_only_step {A} (c : DBM A) :
  (forall db db' a, c db = Ok (db', a) -> db_step db db') -> steps_only c.
Proof. intros Hc db db' a H. apply rtc_once. by eapply Hc. Qed.

(** A program made of steps keeps the invariant. *)
Lemma steps_only_wf {A} (c : DBM A) db db' a :
  steps_only c -> db_wf db -> c db = Ok (db', a) -> db_wf db'.
Proof. intros Hc Hwf H. eapply rtc_db_step_wf; [exact Hwf | by eapply Hc]. Qed.

#[export] Hint Resolve steps_only_ret steps_only_raise steps_only_bind steps_only_forM_ : rbac.
