(* ===== verification/Permissions.v ===== *)
(** * The authorization decision of [auth_app/permissions.py]

    [JWTPermission.has_permission] and [has_object_permission], with the
    Django permission methods of [User] ([has_perm], [has_perms],
    [has_module_perms], [models.py]).  The decoding of the token is the
    JWT library's: it is the one operation of the class [JWTDecode], which
    [Claims.v] refines into an encoder/decoder pair with its law. *)

From S2P Require Import Prelude PyValue Models.

(** ** The request and the view *)

(** [request.user]: DRF sets it to [AnonymousUser] (or to [None] under the
    setting [UNAUTHENTICATED_USER = None]) when no authenticator
    succeeded, and to the [User] row otherwise. *)
Inductive RequestUser :=
| NoUser
| AnonymousUser
| AuthUser (u : User).

(** The truth value of [request.user] in [request.user and ...]. *)
Definition request_user_truthy (ru : RequestUser) : bool :=
  match ru with NoUser => false | _ => true end.

(** [rest_framework.compat.is_authenticated(user)], i.e.
    [user.is_authenticated]: [True] for every [AbstractBaseUser], [False]
    for [AnonymousUser]. *)
Definition is_authenticated (ru : RequestUser) : bool :=
  match ru with AuthUser _ => true | _ => false end.

(** [SAFE_METHODS]: declared by the module, read by no code of it, so the
    decision gives the read-only methods no exemption. *)
Definition SAFE_METHODS : list string := ["GET"; "HEAD"; "OPTIONS"].

(** The JWT library's decoder ([api_settings.JWT_DECODE_HANDLER]). *)
Class JWTDecode (token : Type) := jwt_decode_handler : token -> res pyval.

Record Request (token : Type) := mkRequest {
  req_user : RequestUser;
  req_auth : token;      (* [request.auth]: the raw token *)
  req_method : string }.
Arguments mkRequest {token} req_user req_auth req_method.
Arguments req_user {token} r.
Arguments req_auth {token} r.
Arguments req_method {token} r.

(** A view class; [None] when it declares no [resource_name] attribute. *)
Record View := mkView { view_resource_name : option string }.

(** [view.resource_name] *)
Definition getattr_resource_name (view : View) : res string :=
  match view_resource_name view with
  | Some r => Ok r
  | None => Raise (AttributeError "resource_name")
  end.

(** ** [JWTPermission] *)

Section JWTPermission.
Context {token : Type} `{!JWTDecode token}.

(** [get_payload]: [jwt_decode_handler(request.auth)] *)
Definition get_payload (request : Request token) : res pyval :=
  jwt_decode_handler (req_auth request).

(** [[x['name'] for x in payload['permissions']]] *)
Definition available_permissions (payload : pyval) : res (list pyval) :=
  perms <- py_getitem payload "permissions" ;;
  xs <- py_iter perms ;;
  res_mapM (fun x => py_getitem x "name") xs.

(** ['%s-%s' % (resource_name, request.method)] *)
Definition required_permission (resource_name method : string) : string :=
  resource_name +:+ "-" +:+ method.

Definition has_permission (request : Request token) (view : View) : res bool :=
  if negb (request_user_truthy (req_user request) && is_authenticated (req_user request))
  then Ok false
  else
    payload <- get_payload request ;;
    match getattr_resource_name view with
    | Raise (AttributeError _) => Ok false
    | Raise e => Raise e
    | Ok resource_name =>
        match available_permissions payload with
        | Raise (KeyError _) => Ok false
        | Raise e => Raise e
        | Ok available =>
            Ok (py_in (required_permission resource_name (req_method request)) available)
        end
    end.

Definition has_object_permission {Obj} (request : Request token) (view : View) (obj : Obj)
    : res bool :=
  Ok false.
End JWTPermission.

(** ** The permission methods of [User] *)

(** [User.has_perm]: active superusers have every permission; no backend
    is consulted otherwise. *)
Definition has_perm {Obj} (u : User) (perm : string) (obj : option Obj) : bool :=
  if user_is_active u && user_is_superuser u then true else false.

(** [User.has_perms]: the loop returns [False] at the first permission
    the user lacks. *)
Fixpoint has_perms {Obj} (u : User) (perm_list : list string) (obj : option Obj) : bool :=
  match perm_list with
  | [] => true
  | perm :: rest => if negb (has_perm u perm obj) then false else has_perms u rest obj
  end.

Section ModulePerms.
(** [django.contrib.auth.models._user_has_module_perms], the function the
    fall-through means to call. *)
Variable user_has_module_perms_impl : User -> string -> res bool.

(** [User.has_module_perms]: the fall-through reads the global
    [_user_has_module_perms] of [models.py] before calling it. *)
Definition has_module_perms (u : User) (app_label : string) : res bool :=
  if user_is_active u && user_is_superuser u then Ok true
  else _ <- py_lookup_global models_py_globals "_user_has_module_perms" ;;
       user_has_module_perms_impl u app_label.
End ModulePerms.

(** ** The payload schema *)

(** The payload shape of the specification (4.5): a dict whose
    ["permissions"] is a list of dicts, each holding a string ["name"]. *)
Inductive perm_entry_wt : pyval -> Prop :=
| perm_entry_wt_dict kvs s : dict_lookup kvs "name" = Some (PyStr s) -> perm_entry_wt (PyDict kvs).

Inductive payload_wt : pyval -> Prop :=
| payload_wt_dict kvs l :
    dict_lookup kvs "permissions" = Some (PyList l) -> Forall perm_entry_wt l ->
    payload_wt (PyDict kvs).

(** The schema as a check, for concrete payloads. *)
Definition perm_entry_wtb (v : pyval) : bool :=
  match v with
  | PyDict kvs => match dict_lookup kvs "name" with Some (PyStr _) => true | _ => false end
  | _ => false
  end.

Definition payload_wtb (v : pyval) : bool :=
  match v with
  | PyDict kvs =>
      match dict_lookup kvs "permissions" with
      | Some (PyList l) => forallb perm_entry_wtb l
      | _ => false
      end
  | _ => false
  end.

(** ** Theorems *)

Section Decision.
Context {token : Type} `{!JWTDecode token}.
Implicit Types (request : Request token) (view : View).

(** The four steps of the decision once the user is authenticated, the
    token decodes, the view names its resource and the payload's list
    reads. *)
Lemma has_permission_available request view u payload resource available :
  req_user request = AuthUser u ->
  get_payload request = Ok payload ->
  view_resource_name view = Some resource ->
  available_permissions payload = Ok available ->
  has_permission request view =
    Ok (py_in (required_permission resource (req_method request)) available).
Proof.
  intros Hu Hp Hv Ha. unfold has_permission, getattr_resource_name.
  by rewrite Hu, Hp; simpl; rewrite Hv, Ha.
Qed.

(** The guard [request.user and is_authenticated(request.user)]. *)
Lemma has_permission_guard request view :
  request_user_truthy (req_user request) && is_authenticated (req_user request) = false ->
  has_permission request view = Ok false.
Proof. intros H. unfold has_permission. by rewrite H. Qed.

(** What an allowed request has: an authenticated user, a token that
    decodes, a [resource_name], and the required name among the token's. *)
Lemma has_permission_true_inv request view :
  has_permission request view = Ok true ->
  exists u payload resource available,
    req_user request = AuthUser u /\ get_payload request = Ok payload /\
    view_resource_name view = Some resource /\ available_permissions payload = Ok available /\
    py_in (required_permission resource (req_method request)) available = true.
Proof.
  unfold has_permission, getattr_resource_name.
  destruct (req_user request) as [| |u] eqn:Hu; simpl; try discriminate.
  destruct (get_payload request) as [payload|e] eqn:Hp; simpl; [|discriminate].
  destruct (view_resource_name view) as [resource|] eqn:Hv; [|discriminate].
  destruct (available_permissions payload) as [available|e] eqn:Ha; [|destruct e; discriminate].
  intros [= H]. by exists u, payload, resource, available.
Qed.

Lemma perm_entry_wtb_spec v : perm_entry_wtb v = true <-> perm_entry_wt v.
Proof.
  split.
  - destruct v as [| | | | |kvs]; simpl; try discriminate.
    destruct (dict_lookup kvs "name") as [[| | |s| |]|] eqn:E; try discriminate. intros _.
    by econstructor.
  - intros [kvs s E]. simpl. by rewrite E.
Qed.

Lemma payload_wtb_spec v : payload_wtb v = true <-> payload_wt v.
Proof.
  split.
  - destruct v as [| | | | |kvs]; simpl; try discriminate.
    destruct (dict_lookup kvs "permissions") as [[| | | |l|]|] eqn:E; try discriminate.
    intros Hl. econstructor; [exact E|]. apply Forall_forall. intros x Hx.
    apply perm_entry_wtb_spec. rewrite forallb_forall in Hl. by apply Hl, list_elem_of_In.
  - intros [kvs l E Hl]. simpl. rewrite E. apply forallb_forall. intros x Hx.
    apply perm_entry_wtb_spec. rewrite Forall_forall in Hl. by apply Hl, list_elem_of_In.
Qed.

(** On the schema, the comprehension reads a list of strings. *)
Lemma available_permissions_wt payload :
  payload_wt payload -> exists ns, available_permissions payload = Ok (PyStr <$> ns).
Proof.
  intros [kvs l E Hl]. unfold available_permissions. simpl. rewrite E. simpl. clear E.
  induction Hl as [|x l Hx _ IH]; [by exists []|].
  destruct Hx as [kvs' s Hs]. destruct IH as [ns Hn]. exists (s :: ns). simpl. rewrite Hs. simpl.
  by rewrite Hn.
Qed.

(** (C1) Functional behaviour: for an authenticated user whose token
    decodes to a payload listing the permission names [names], the
    request is allowed exactly when "<resource_name>-<method>" is one of
    [names] (exact, case-sensitive string match). *)
Theorem has_permission_decides request view u payload resource (names : list string) :
  req_user request = AuthUser u ->
  get_payload request = Ok payload ->
  view_resource_name view = Some resource ->
  available_permissions payload = Ok (PyStr <$> names) ->
  has_permission request view =
    Ok (bool_decide (required_permission resource (req_method request) ∈ names)).
Proof.
  intros Hu Hp Hv Ha. rewrite (has_permission_available _ _ _ _ _ _ Hu Hp Hv Ha).
  by rewrite py_in_fmap_PyStr.
Qed.

(** (C2) Fail-closed: an anonymous request, or one with no user at all,
    is denied without the token being decoded. *)
Theorem has_permission_unauthenticated request view :
  is_authenticated (req_user request) = false -> has_permission request view = Ok false.
Proof.
  intros H. apply has_permission_guard. by rewrite H, andb_false_r.
Qed.

(** (C3) Fail-closed: a view that declares no [resource_name] is denied
    once the token has decoded. *)
Theorem has_permission_no_resource_name request view payload :
  get_payload request = Ok payload -> view_resource_name view = None ->
  has_permission request view = Ok false.
Proof.
  intros Hp Hv. unfold has_permission, getattr_resource_name.
  destruct (negb _); [done|]. by rewrite Hp; simpl; rewrite Hv.
Qed.

(** (C4) Fail-closed: a payload (a dict) without a ["permissions"] key is
    denied, whatever the method and the resource. *)
Theorem has_permission_no_permissions_key request view kvs :
  get_payload request = Ok (PyDict kvs) -> dict_lookup kvs "permissions" = None ->
  has_permission request view = Ok false.
Proof.
  intros Hp Hk. unfold has_permission, getattr_resource_name.
  destruct (negb _); [done|]. rewrite Hp; simpl.
  destruct (view_resource_name view); [|done].
  unfold available_permissions. by rewrite py_getitem_dict_missing.
Qed.

(** (C5) Error path: when the ["permissions"] list of the payload holds a
    value that is not a dict (a string, a number, a list) after entries
    that all read, [x['name']] raises [TypeError], which the
    [except KeyError] clause does not catch: the request fails with an
    exception instead of being denied. *)
Theorem has_permission_raises_on_malformed_entry request view u kvs resource l1 x l2 :
  req_user request = AuthUser u ->
  get_payload request = Ok (PyDict kvs) ->
  view_resource_name view = Some resource ->
  dict_lookup kvs "permissions" = Some (PyList (l1 ++ x :: l2)) ->
  is_Ok (res_mapM (fun y => py_getitem y "name") l1) = true ->
  (forall kvs', x <> PyDict kvs') ->
  exists msg, has_permission request view = Raise (TypeError msg).
Proof.
  intros Hu Hp Hv Hk Hl1 Hx.
  destruct (py_getitem_not_dict x "name" Hx) as [msg Hmsg].
  exists msg. unfold has_permission, getattr_resource_name, available_permissions.
  rewrite Hu, Hp; simpl. rewrite Hv, Hk; simpl.
  by rewrite (res_mapM_app_raise _ _ _ _ _ Hl1 Hmsg).
Qed.

End Decision.

(** ** The [User] methods *)

(** [has_perms] holds of a non-empty list exactly for an active
    superuser: no other user holds any Django permission, and every user
    holds the empty list. *)
Theorem has_perms_spec {Obj} (u : User) (perm_list : list string) (obj : option Obj) :
  has_perms u perm_list obj = true <->
  perm_list = [] \/ (user_is_active u = true /\ user_is_superuser u = true).
Proof.
  rewrite <- andb_true_iff.
  induction perm_list as [|p ps IH]; simpl; unfold has_perm in *;
    destruct (user_is_active u && user_is_superuser u); simpl; naive_solver.
Qed.

(** (C8) Error path: [models.py] neither imports nor defines
    [_user_has_module_perms], and it is no builtin, so for every user but
    an active superuser [has_module_perms] raises [NameError], whatever
    the function that name was meant to denote. *)
Theorem has_module_perms_raises impl (u : User) (app_label : string) :
  user_is_active u && user_is_superuser u = false ->
  has_module_perms impl u app_label = Raise (NameError "_user_has_module_perms").
Proof. intros H. unfold has_module_perms. rewrite H. reflexivity. Qed.

(** ** The required permission string *)

Fixpoint has_dash (s : string) : bool :=
  match s with
  | EmptyString => false
  | String c s' => bool_decide (String c EmptyString = "-") || has_dash s'
  end.

Lemma has_dash_required_permission (r m : string) : has_dash (required_permission r m) = true.
Proof.
  unfold required_permission. induction r as [|c r IH]; autorewrite with rbac_simpl in *;
    simpl; [done|]. by rewrite IH, orb_true_r.
Qed.

(** (C9) The names "<resource>-<METHOD>" are unambiguous: when neither
    method contains a dash (HTTP verbs do not), equal required permissions
    come from the same resource and the same method. *)
Theorem required_permission_inj (r m r' m' : string) :
  has_dash m = false -> has_dash m' = false ->
  required_permission r m = required_permission r' m' -> r = r' /\ m = m'.
Proof.
  unfold required_permission. intros Hm Hm'.
  revert r'; induction r as [|c r IH]; intros [|c' r'] H;
    autorewrite with rbac_simpl in H; injection H; intros; subst.
  - done.
  - pose proof (has_dash_required_permission r' m') as Hd.
    unfold required_permission in Hd; autorewrite with rbac_simpl in Hd. congruence.
  - pose proof (has_dash_required_permission r m) as Hd.
    unfold required_permission in Hd; autorewrite with rbac_simpl in Hd. congruence.
  - match goal with Heq : _ = _ |- _ => destruct (IH r' Heq) as [-> ->] end. done.
Qed.

(** ** Witnesses *)

Section TypeSafety.
Context {token : Type} `{!JWTDecode token}.

(** (C39) Type safety of the decision: on a token whose decoded payload
    has the schema of the specification (a dict whose ["permissions"] is a
    list of dicts with a string ["name"]), [has_permission] never raises,
    whatever the user, the view and the method. *)
Theorem has_permission_wt_total (request : Request token) view payload :
  get_payload request = Ok payload -> payload_wt payload ->
  exists b, has_permission request view = Ok b.
Proof.
  intros Hp Hwt. unfold has_permission, getattr_resource_name.
  destruct (negb _); [eauto|]. rewrite Hp. simpl.
  destruct (view_resource_name view); [|eauto].
  destruct (available_permissions_wt payload Hwt) as [ns ->]. eauto.
Qed.

End TypeSafety.

Section Witnesses.
(** A token that is already its decoded payload. *)
#[local] Instance decoded_token : JWTDecode pyval := fun p => Ok p.

Definition doctor_1 : User := mkUser 2 "Doctor 1" "doctor1@abcclinic.com" true false false.
Definition doctor_payload : pyval :=
  PyDict [("permissions", PyList [PyDict [("name", PyStr "Patient-GET")];
                                  PyDict [("name", PyStr "Patient-POST")]])].
Definition patient_view : View := mkView (Some "Patient").

Lemma has_permission_decides_witness :
  has_permission (mkRequest (AuthUser doctor_1) doctor_payload "GET") patient_view = Ok true /\
  has_permission (mkRequest (AuthUser doctor_1) doctor_payload "DELETE") patient_view
    = Ok false.
Proof.
  split.
  - rewrite (has_permission_decides _ _ doctor_1 doctor_payload "Patient"
               ["Patient-GET"; "Patient-POST"]); reflexivity.
  - rewrite (has_permission_decides _ _ doctor_1 doctor_payload "Patient"
               ["Patient-GET"; "Patient-POST"]); reflexivity.
Defined.

Lemma has_permission_unauthenticated_witness :
  has_permission (mkRequest AnonymousUser doctor_payload "GET") patient_view = Ok false.
Proof. apply has_permission_unauthenticated. reflexivity. Defined.

Lemma has_permission_no_resource_name_witness :
  has_permission (mkRequest (AuthUser doctor_1) doctor_payload "GET") (mkView None)
    = Ok false.
Proof. apply (has_permission_no_resource_name _ _ doctor_payload); reflexivity. Defined.

Lemma has_permission_no_permissions_key_witness :
  has_permission (mkRequest (AuthUser doctor_1) (PyDict [("user_id", PyInt 2)]) "GET")
    patient_view = Ok false.
Proof.
  apply (has_permission_no_permissions_key _ _ [("user_id", PyInt 2)]); reflexivity.
Defined.

Lemma has_permission_raises_on_malformed_entry_witness :
  exists msg, has_permission
    (mkRequest (AuthUser doctor_1)
       (PyDict [("permissions", PyList [PyDict [("name", PyStr "Patient-GET")];
                                        PyStr "Patient-POST"])]) "POST")
    patient_view = Raise (TypeError msg).
Proof.
  apply (has_permission_raises_on_malformed_entry _ _ doctor_1
           [("permissions", PyList [PyDict [("name", PyStr "Patient-GET")];
                                    PyStr "Patient-POST"])]
           "Patient" [PyDict [("name", PyStr "Patient-GET")]] (PyStr "Patient-POST") []);
    try reflexivity.
  intros kvs'. discriminate.
Defined.

Lemma has_module_perms_raises_witness :
  has_module_perms (fun _ _ => Ok true) doctor_1 "auth_app" =
    Raise (NameError "_user_has_module_perms").
Proof. apply has_module_perms_raises. reflexivity. Defined.

Lemma required_permission_inj_witness :
  "Patient" = "Patient" /\ "GET" = "GET".
Proof.
  apply (required_permission_inj "Patient" "GET" "Patient" "GET"); reflexivity.
Defined.
Lemma has_permission_wt_total_witness :
  exists b, has_permission (mkRequest (AuthUser doctor_1) doctor_payload "PATCH") patient_view = Ok b.
Proof.
  apply (has_permission_wt_total _ _ doctor_payload); [reflexivity|].
  apply payload_wtb_spec. reflexivity.
Defined.

End Witnesses.
