(* ===== verification/Serializers.v ===== *)
(** * The serializers of [auth_app/serializers.py]

    Each [ModelSerializer] reads the fields its [Meta.fields] lists; the
    nested [PermissionSerializer(many=True)] of [RoleSerializer] reads the
    many-to-many [Role.permissions] through [RolePermissionAssociation].
    The [.data] dicts are given as records with one field per listed
    field, in the listed order.  [date_joined] of [UserSerializer] is a
    time stamp, which the model does not keep. *)

From S2P Require Import Prelude Models.

(** The row of [l] with primary key [i]: what a join on a foreign key
    finds (an [INNER JOIN] finds nothing for a dangling key). *)
Definition find_by_id {A} `{HasId A} (l : list A) (i : N) : option A :=
  head (filter (fun x => id_of x = i) l).

Record ApplicationData := mkApplicationData { ad_id : N; ad_name : string }.
Record OrganizationData := mkOrganizationData {
  od_id : N; od_name : string; od_parent_id : option N }.
Record UserData := mkUserData { ud_id : N; ud_name : string; ud_email : string }.
Record PermissionData := mkPermissionData {
  pd_id : N; pd_name : string; pd_description : string }.
Record RoleData := mkRoleData {
  rd_id : N; rd_name : string; rd_description : string; rd_permissions : list PermissionData }.

#[export] Instance OrganizationData_eq_dec : EqDecision OrganizationData.
Proof. solve_decision. Defined.
#[export] Instance PermissionData_eq_dec : EqDecision PermissionData.
Proof. solve_decision. Defined.
#[export] Instance RoleData_eq_dec : EqDecision RoleData.
Proof. solve_decision. Defined.

Definition ApplicationSerializer (a : Application) : ApplicationData :=
  mkApplicationData (app_id a) (app_name a).

Definition OrganizationSerializer (o : Organization) : OrganizationData :=
  mkOrganizationData (org_id o) (org_name o) (org_parent o).

Definition UserSerializer (u : User) : UserData :=
  mkUserData (user_id u) (user_name u) (user_email u).

Definition PermissionSerializer (p : Permission) : PermissionData :=
  mkPermissionData (perm_id p) (perm_name p) (perm_description p).

(** [role.permissions.all()]: the rows of [permissions] joined to the
    role's rows of [roles_permissions], in the order of the join table. *)
Definition role_permissions (db : DB) (r : Role) : list Permission :=
  omap (fun b => find_by_id (rows (permissions db)) (rp_permission b))
       (filter (fun b => rp_role b = role_id r) (rows (roles_permissions db))).

Definition RoleSerializer (db : DB) (r : Role) : RoleData :=
  mkRoleData (role_id r) (role_name r) (role_description r)
             (PermissionSerializer <$> role_permissions db r).

(** ** Lemmas *)

Lemma find_by_id_Some {A} `{HasId A} (l : list A) i x :
  find_by_id l i = Some x -> x ∈ l /\ id_of x = i.
Proof.
  unfold find_by_id. destruct (filter _ l) as [|y l'] eqn:E; simpl; [done|].
  intros [= ->]. assert (Hx : x ∈ filter (fun x => id_of x = i) l) by (rewrite E; left).
  by apply list_elem_of_filter in Hx as [? ?].
Qed.

Lemma find_by_id_elem {A} `{HasId A} (l : list A) i :
  i ∈ id_of <$> l -> exists x, find_by_id l i = Some x.
Proof.
  intros (y & -> & Hy)%list_elem_of_fmap. unfold find_by_id.
  destruct (filter _ l) as [|x l'] eqn:E; simpl; [|eauto].
  exfalso. by apply (filter_nil_not_elem_of _ _ y E).
Qed.

(** With unique keys, the row found is the one in the table. *)
Lemma find_by_id_unique {A} `{HasId A} (l : list A) x :
  NoDup (id_of <$> l) -> x ∈ l -> find_by_id l (id_of x) = Some x.
Proof.
  intros Hnd Hx. destruct (find_by_id_elem l (id_of x)) as [y Hy].
  { apply list_elem_of_fmap. eauto. }
  rewrite Hy. destruct (find_by_id_Some _ _ _ Hy) as [Hyl Hid]. f_equal.
  by apply (NoDup_fmap_inj_on id_of l).
Qed.

(** The permissions of a role are the rows the join table links to it. *)
Lemma elem_of_role_permissions db r p :
  p ∈ role_permissions db r ->
  p ∈ rows (permissions db) /\
  exists b, b ∈ rows (roles_permissions db) /\ rp_role b = role_id r /\ rp_permission b = perm_id p.
Proof.
  unfold role_permissions. intros (b & Hb & Hf)%list_elem_of_omap.
  apply list_elem_of_filter in Hb as [Hr Hb].
  destruct (find_by_id_Some _ _ _ Hf) as [Hp Hid]. split; [done|]. eauto.
Qed.
