(* ===== verification/Aggregation.v ===== *)
(** * Permission aggregation: [User.get_permissions] and [User.get_organizations]

    [get_permissions] ([models.py] 132-143) runs three chained querysets
    (one SQL statement, so one snapshot) and returns the [Permission] rows
    reachable from the user's grants.  [get_organizations] (145-179) folds
    the user's grants into a dict keyed by organization id, serializing
    each role with [RoleSerializer] ([serializers.py]).  The abstract
    specification [effective_permission] is the relation of the
    specification (4.2): a permission reachable through some grant, in
    whatever organization.  The last group shows that granting is live:
    one [get_or_create] of a grant, from any reachable state, gives the
    user the role's permissions. *)

From S2P Require Import Prelude Models Serializers.

(** ** [get_permissions] *)

Section GetPermissions.
Context (db : DB).

(** [RoleUserOrgAssociation.objects.filter(user=self).values_list('role_id', flat=True)] *)
Definition user_role_ids (u : User) : list N :=
  ruo_role <$> filter (fun a => ruo_user a = user_id u) (rows (roles_users_org db)).

(** [RolePermissionAssociation.objects.filter(role_id__in=roles_ids)
    .values_list('permission_id', flat=True)] *)
Definition role_permission_ids (roles_ids : list N) : list N :=
  rp_permission <$> filter (fun b => rp_role b ∈ roles_ids) (rows (roles_permissions db)).

(** [Permission.objects.filter(id__in=permissions_ids).all()] *)
Definition get_permissions (u : User) : list Permission :=
  let roles_ids := user_role_ids u in
  let permissions_ids := role_permission_ids roles_ids in
  filter (fun p => perm_id p ∈ permissions_ids) (rows (permissions db)).

(** The specification's [effectivePermissions]: a permission row reached
    through a grant [(role, organization, user)] of the user and a row
    [(role, permission)], whatever the organization. *)
Definition effective_permission (uid : N) (p : Permission) : Prop :=
  p ∈ rows (permissions db) /\
  exists a b, a ∈ rows (roles_users_org db) /\ ruo_user a = uid /\
    b ∈ rows (roles_permissions db) /\ rp_role b = ruo_role a /\ rp_permission b = perm_id p.

End GetPermissions.

(** ** [get_organizations] *)

(** [organizations_dict]: an insertion-ordered dict from organization id
    to its [{'obj': organization, 'roles': [...]}] entry. *)
Definition org_dict := list (N * (Organization * list RoleData)).

(** One iteration of the loop of [get_organizations]:
    [organizations_dict[organization.id]['obj'] = organization] creates the
    entry at the end of the dict when the key is new, and the [roles] list
    it reads (or creates under [except KeyError]) is the one stored in the
    entry, so [roles.append(...)] extends the entry's list in place. *)
Fixpoint org_dict_add (d : org_dict) (o : Organization) (rd : RoleData) : org_dict :=
  match d with
  | [] => [(org_id o, (o, [rd]))]
  | (k, (obj, roles)) :: d' =>
      if bool_decide (k = org_id o) then (k, (o, roles ++ [rd])) :: d'
      else (k, (obj, roles)) :: org_dict_add d' o rd
  end.

(** [RoleUserOrgAssociation.objects.filter(user=self)
    .select_related('role', 'organization')]: the user's grants with their
    role and organization rows ([INNER JOIN]s on non-null foreign keys). *)
Definition associated_roles (db : DB) (u : User) : list (Role * Organization) :=
  omap (fun a =>
          match find_by_id (rows (roles db)) (ruo_role a),
                find_by_id (rows (organizations db)) (ruo_organization a) with
          | Some r, Some o => Some (r, o)
          | _, _ => None
          end)
       (filter (fun a => ruo_user a = user_id u) (rows (roles_users_org db))).

Definition get_organizations (db : DB) (u : User) : list (OrganizationData * list RoleData) :=
  let organizations_dict :=
    foldl (fun d '(r, o) => org_dict_add d o (RoleSerializer db r)) [] (associated_roles db u) in
  (fun '(_, (o, roles)) => (OrganizationSerializer o, roles)) <$> organizations_dict.

(** ** Lemmas on the three queries *)

Lemma elem_of_user_role_ids db u r :
  r ∈ user_role_ids db u <->
  exists a, a ∈ rows (roles_users_org db) /\ ruo_user a = user_id u /\ ruo_role a = r.
Proof.
  unfold user_role_ids. rewrite list_elem_of_fmap.
  setoid_rewrite list_elem_of_filter. naive_solver.
Qed.

Lemma elem_of_role_permission_ids db rids p :
  p ∈ role_permission_ids db rids <->
  exists b, b ∈ rows (roles_permissions db) /\ rp_role b ∈ rids /\ rp_permission b = p.
Proof.
  unfold role_permission_ids. rewrite list_elem_of_fmap.
  setoid_rewrite list_elem_of_filter. naive_solver.
Qed.

(** [get_permissions] is determined by the set of the user's role ids. *)
Lemma get_permissions_roles db u u' :
  (forall r, r ∈ user_role_ids db u <-> r ∈ user_role_ids db u') ->
  get_permissions db u = get_permissions db u'.
Proof.
  intros Hr. unfold get_permissions. apply list_filter_iff. intros p.
  rewrite !elem_of_role_permission_ids. setoid_rewrite Hr. done.
Qed.

(** ** Theorems *)

Lemma elem_of_get_permissions db u p :
  p ∈ get_permissions db u <-> effective_permission db (user_id u) p.
Proof.
  unfold get_permissions, effective_permission.
  rewrite list_elem_of_filter, elem_of_role_permission_ids.
  setoid_rewrite elem_of_user_role_ids. naive_solver.
Qed.

(** (C10) Refinement: a permission is returned by [get_permissions] exactly
    when it is an effective permission of the user in the sense of the
    specification, through any grant in any organization. *)
Theorem get_permissions_spec db u p :
  p ∈ get_permissions db u <-> effective_permission db (user_id u) p.
Proof. apply elem_of_get_permissions. Qed.

(** (C11) In a well-formed database the permissions [get_permissions]
    returns carry pairwise distinct names: a permission reached through
    several roles or organizations appears once. *)
Theorem get_permissions_names_NoDup db u :
  db_wf db -> NoDup (perm_name <$> get_permissions db u).
Proof. intros Hwf. apply NoDup_fmap_filter, wf_perm_names, Hwf. Qed.

(** (C12) Flattening forgets organizations: when every grant row of
    [u] has a grant row of [u'] with the same role, in whatever
    organization, and the other way round, the two users get the same
    permissions. *)
Theorem get_permissions_org_agnostic db u u' :
  Forall (fun a => ruo_user a = user_id u ->
            Exists (fun b => ruo_user b = user_id u' /\ ruo_role b = ruo_role a)
                   (rows (roles_users_org db))) (rows (roles_users_org db)) ->
  Forall (fun a => ruo_user a = user_id u' ->
            Exists (fun b => ruo_user b = user_id u /\ ruo_role b = ruo_role a)
                   (rows (roles_users_org db))) (rows (roles_users_org db)) ->
  get_permissions db u = get_permissions db u'.
Proof.
  rewrite !Forall_forall. intros H1 H2. apply get_permissions_roles. intros r.
  rewrite !elem_of_user_role_ids.
  split; intros (a & Ha & Hu & <-);
    [pose proof (H1 a Ha Hu) as Hx | pose proof (H2 a Ha Hu) as Hx];
    apply Exists_exists in Hx as (b & Hb & Hbu & Hbr); eauto.
Qed.

(** A user with no grant has no permission. *)
Theorem get_permissions_no_grant db u :
  Forall (fun a => ruo_user a <> user_id u) (rows (roles_users_org db)) ->
  get_permissions db u = [].
Proof.
  rewrite Forall_forall. intros Hno. apply elem_of_nil_inv. intros p.
  unfold get_permissions. rewrite list_elem_of_filter, elem_of_role_permission_ids.
  setoid_rewrite elem_of_user_role_ids. intros [(b & _ & (a & Ha & Hu & _) & _) _].
  by apply (Hno a Ha).
Qed.

(** ** The dict of [get_organizations] *)

(** [organizations_dict[k]['roles']], or [[]] when [k] is absent. *)
Fixpoint dict_roles (d : org_dict) (k : N) : list RoleData :=
  match d with
  | [] => []
  | (k', (_, roles)) :: d' => if bool_decide (k' = k) then roles else dict_roles d' k
  end.

(** The keys are distinct, each entry holds an organization of [L] with
    that key. *)
Definition dict_ok (L : list Organization) (d : org_dict) : Prop :=
  NoDup (fst <$> d) /\
  forall k o roles, (k, (o, roles)) ∈ d -> org_id o = k /\ o ∈ L.

Lemma org_dict_add_roles d o rd k :
  dict_roles (org_dict_add d o rd) k =
  dict_roles d k ++ (if bool_decide (org_id o = k) then [rd] else []).
Proof.
  induction d as [|[k' [obj roles]] d IH]; simpl.
  - by case_bool_decide.
  - destruct (decide (k' = org_id o)) as [->|Hne].
    + rewrite bool_decide_true by done. simpl.
      case_bool_decide; [done | by rewrite app_nil_r].
    + rewrite bool_decide_false by done. simpl. rewrite IH.
      destruct (decide (k' = k)) as [<-|Hk].
      * rewrite bool_decide_true, (bool_decide_false (org_id o = k')) by congruence.
        by rewrite app_nil_r.
      * by rewrite bool_decide_false.
Qed.

Lemma org_dict_add_keys d o rd :
  fst <$> org_dict_add d o rd =
  if bool_decide (org_id o ∈ fst <$> d) then fst <$> d else (fst <$> d) ++ [org_id o].
Proof.
  induction d as [|[k' [obj roles]] d IH]; cbn [org_dict_add].
  - by rewrite bool_decide_false by set_solver.
  - rewrite fmap_cons. destruct (decide (k' = org_id o)) as [->|Hne].
    + rewrite !bool_decide_true by set_solver. by rewrite fmap_cons.
    + rewrite bool_decide_false by done. rewrite fmap_cons, IH. simpl fst.
      destruct (decide (org_id o ∈ fst <$> d)).
      * by rewrite !bool_decide_true by set_solver.
      * by rewrite !bool_decide_false by set_solver.
Qed.

Lemma elem_of_org_dict_add d o rd k o' roles' :
  (k, (o', roles')) ∈ org_dict_add d o rd ->
  (k = org_id o /\ o' = o) \/ exists roles, (k, (o', roles)) ∈ d.
Proof.
  induction d as [|[k1 [obj1 roles1]] d IH]; cbn [org_dict_add].
  - intros Heq%list_elem_of_singleton. injection Heq. auto.
  - case_bool_decide as Hk; intros [Heq | Hd]%elem_of_cons.
    + injection Heq as -> -> ->. auto.
    + right. exists roles'. by right.
    + injection Heq as -> -> ->. right. exists roles1. by left.
    + destruct (IH Hd) as [? | [r Hr]]; [by left | right; exists r; by right].
Qed.

Lemma org_dict_add_ok L d o rd : o ∈ L -> dict_ok L d -> dict_ok L (org_dict_add d o rd).
Proof.
  intros Ho [Hnd Hin]. split.
  - rewrite org_dict_add_keys. case_bool_decide; [done|].
    by apply NoDup_app; split; [|split; [set_solver | apply NoDup_singleton]].
  - intros k o' roles' [[-> ->] | [r Hr]]%elem_of_org_dict_add; [done | by eapply Hin].
Qed.

Lemma dict_ok_roles L d k o roles :
  dict_ok L d -> (k, (o, roles)) ∈ d -> dict_roles d k = roles.
Proof.
  intros [Hnd _]. induction d as [|[k' [obj roles']] d IH]; simpl; [set_solver|].
  apply NoDup_cons in Hnd as [Hk' Hnd].
  intros [Heq | Hd]%elem_of_cons.
  - injection Heq as -> -> ->. by rewrite bool_decide_true.
  - case_bool_decide as Hk; [|by apply IH]. subst k'.
    exfalso. apply Hk'. apply list_elem_of_fmap. by exists (k, (o, roles)).
Qed.

Lemma dict_roles_keys d k : k ∉ fst <$> d -> dict_roles d k = [].
Proof.
  induction d as [|[k' [obj roles]] d IH]; simpl; [done|].
  intros Hk. case_bool_decide; [set_solver | apply IH; set_solver].
Qed.

Section Fold.
Context (db : DB).

Definition org_step (d : org_dict) (ro : Role * Organization) : org_dict :=
  org_dict_add d ro.2 (RoleSerializer db ro.1).

Lemma foldl_org_step_eq (l : list (Role * Organization)) d :
  foldl (fun d '(r, o) => org_dict_add d o (RoleSerializer db r)) d l = foldl org_step d l.
Proof. revert d; induction l as [|[r o] l IH]; intros d; simpl; [done | apply IH]. Qed.

(** The roles the fold lists under [k]: those of the pairs with an
    organization of id [k], in their order. *)
Lemma foldl_org_step_roles l d k :
  dict_roles (foldl org_step d l) k =
  dict_roles d k ++ (RoleSerializer db ∘ fst <$> filter (fun ro => org_id ro.2 = k) l).
Proof.
  revert d; induction l as [|[r o] l IH]; intros d; simpl; [by rewrite app_nil_r|].
  rewrite IH. unfold org_step; simpl. rewrite org_dict_add_roles, filter_cons. simpl.
  destruct (decide (org_id o = k)).
  - rewrite bool_decide_true by done. rewrite fmap_cons. by rewrite <- app_assoc.
  - rewrite bool_decide_false by done. by rewrite app_nil_r.
Qed.

Lemma foldl_org_step_keys l d k :
  k ∈ fst <$> foldl org_step d l <-> k ∈ fst <$> d \/ exists ro, ro ∈ l /\ org_id ro.2 = k.
Proof.
  revert d; induction l as [|[r o] l IH]; intros d; simpl; [set_solver|].
  rewrite IH. unfold org_step. rewrite org_dict_add_keys. simpl.
  case_bool_decide; set_solver.
Qed.

Lemma foldl_org_step_ok L l d :
  (forall ro, ro ∈ l -> ro.2 ∈ L) -> dict_ok L d -> dict_ok L (foldl org_step d l).
Proof.
  revert d; induction l as [|[r o] l IH]; intros d Hl Hd; simpl; [done|].
  apply IH; [set_solver|]. apply org_dict_add_ok; [apply (Hl (r, o)); left | done].
Qed.
End Fold.

(** ** Properties of [get_organizations] *)

Lemma elem_of_associated_roles db u r o :
  (r, o) ∈ associated_roles db u <->
  exists a, a ∈ rows (roles_users_org db) /\ ruo_user a = user_id u /\
    find_by_id (rows (roles db)) (ruo_role a) = Some r /\
    find_by_id (rows (organizations db)) (ruo_organization a) = Some o.
Proof.
  unfold associated_roles. rewrite list_elem_of_omap. setoid_rewrite list_elem_of_filter.
  split.
  - intros (a & [Hu Ha] & Hm).
    destruct (find_by_id (rows (roles db)) (ruo_role a)) eqn:Er,
             (find_by_id (rows (organizations db)) (ruo_organization a)) eqn:Eo;
      simplify_eq. exists a. auto.
  - intros (a & Ha & Hu & Hr & Ho). exists a. rewrite Hr, Ho. auto.
Qed.

Lemma get_organizations_dict db u :
  get_organizations db u =
  (fun '(_, (o, roles)) => (OrganizationSerializer o, roles)) <$>
    foldl (org_step db) [] (associated_roles db u).
Proof. unfold get_organizations. by rewrite foldl_org_step_eq. Qed.

Lemma get_organizations_dict_ok db u :
  dict_ok (snd <$> associated_roles db u) (foldl (org_step db) [] (associated_roles db u)).
Proof.
  apply foldl_org_step_ok; [|split; [constructor | set_solver]].
  intros ro Hro. apply list_elem_of_fmap. eauto.
Qed.

(** An entry of the result: a group of the dict, with its roles. *)
Lemma get_organizations_entry db u od roles :
  (od, roles) ∈ get_organizations db u ->
  roles = RoleSerializer db ∘ fst <$>
            filter (fun ro => org_id ro.2 = od_id od) (associated_roles db u).
Proof.
  rewrite get_organizations_dict, list_elem_of_fmap.
  intros ([k [o roles']] & Heq & Hin). injection Heq as -> ->.
  pose proof (get_organizations_dict_ok db u) as Hok.
  destruct (proj2 Hok _ _ _ Hin) as [Hk _]. simpl. rewrite Hk.
  rewrite <- (dict_ok_roles _ _ _ _ _ Hok Hin), foldl_org_step_roles. done.
Qed.

(** Every pair of the join has its role listed under its organization. *)
Lemma get_organizations_has_role db u r o :
  (r, o) ∈ associated_roles db u ->
  exists od roles, (od, roles) ∈ get_organizations db u /\ od_id od = org_id o /\
    RoleSerializer db r ∈ roles.
Proof.
  intros Hro. pose proof (get_organizations_dict_ok db u) as Hok.
  assert (Hk : org_id o ∈ fst <$> foldl (org_step db) [] (associated_roles db u)).
  { apply foldl_org_step_keys. right. exists (r, o). done. }
  apply list_elem_of_fmap in Hk as ([k [o' roles]] & Hk & Hin). simpl in Hk; subst k.
  exists (OrganizationSerializer o'), roles.
  destruct (proj2 Hok _ _ _ Hin) as [Ho' _]. split; [|split; [done|]].
  - rewrite get_organizations_dict. apply list_elem_of_fmap. by exists (org_id o, (o', roles)).
  - rewrite <- (dict_ok_roles _ _ _ _ _ Hok Hin), foldl_org_step_roles. simpl.
    apply list_elem_of_fmap. exists (r, o). split; [done|]. by apply list_elem_of_filter.
Qed.

(** (C14) Grouping: each organization of [get_organizations] lists exactly
    the roles the user holds in that organization, in the order of the
    grants, each with its full permission list ([RoleSerializer]). *)
Theorem get_organizations_groups db u od roles :
  (od, roles) ∈ get_organizations db u ->
  roles = RoleSerializer db ∘ fst <$>
            filter (fun ro => org_id ro.2 = od_id od) (associated_roles db u).
Proof. apply get_organizations_entry. Qed.

(** (C15) The organizations listed are distinct, and they are exactly the
    organizations of the user's grants. *)
Theorem get_organizations_keys db u :
  NoDup (od_id ∘ fst <$> get_organizations db u) /\
  forall k, k ∈ od_id ∘ fst <$> get_organizations db u <->
            exists r o, (r, o) ∈ associated_roles db u /\ org_id o = k.
Proof.
  pose proof (get_organizations_dict_ok db u) as [Hnd Hin].
  assert (Heq : od_id ∘ fst <$> get_organizations db u =
                fst <$> foldl (org_step db) [] (associated_roles db u)).
  { rewrite get_organizations_dict, <- list_fmap_compose. apply Forall_fmap_ext_1.
    apply Forall_forall. intros [k [o roles]] Hk. apply (Hin _ _ _ Hk). }
  rewrite Heq. split; [done|]. intros k. rewrite foldl_org_step_keys.
  split; [intros [Hk | ((r, o) & ? & ?)]; [set_solver | eauto] |].
  intros (r & o & ? & ?). right. by exists (r, o).
Qed.

(** The permission names the breakdown shows, over all its groups. *)
Definition breakdown_names (G : list (OrganizationData * list RoleData)) : list string :=
  G ≫= (fun g => g.2 ≫= (fun rd => pd_name <$> rd_permissions rd)).

(** With the join table's foreign keys in place, each permission linked to a
    role is one of the role's permissions. *)
Lemma role_permissions_complete db r b p :
  db_wf db -> b ∈ rows (roles_permissions db) -> rp_role b = role_id r ->
  p ∈ rows (permissions db) -> rp_permission b = perm_id p -> p ∈ role_permissions db r.
Proof.
  intros Hwf Hb Hr Hp Hpb. unfold role_permissions. apply list_elem_of_omap.
  exists b. split; [by apply list_elem_of_filter|]. rewrite Hpb.
  apply (find_by_id_unique _ p); [apply (wf_permissions db Hwf) | done].
Qed.

(** (C16) Equivalence of the two views: in a well-formed database, the
    permission names that [get_organizations] shows over all the
    organizations are exactly the names of [get_permissions]. *)
Theorem get_organizations_agrees db u n :
  db_wf db ->
  n ∈ breakdown_names (get_organizations db u) <-> n ∈ perm_name <$> get_permissions db u.
Proof.
  intros Hwf. unfold breakdown_names. split.
  - intros ([od roles] & Hn & Hg)%list_elem_of_bind. simpl in Hn.
    apply list_elem_of_bind in Hn as (rd & Hn & Hrd).
    apply list_elem_of_fmap in Hn as (pd & -> & Hpd).
    rewrite (get_organizations_entry _ _ _ _ Hg) in Hrd.
    apply list_elem_of_fmap in Hrd as ([r o] & -> & [_ Hro]%list_elem_of_filter).
    apply list_elem_of_fmap in Hpd as (p & -> & Hp). simpl.
    apply elem_of_role_permissions in Hp as (Hp & b & Hb & Hbr & Hbp).
    apply elem_of_associated_roles in Hro as (a & Ha & Hu & Hr & _).
    apply find_by_id_Some in Hr as [_ Hr].
    apply list_elem_of_fmap. exists p. split; [done|]. apply elem_of_get_permissions.
    split; [done|]. exists a, b. rewrite Hbr. auto.
  - intros (p & -> & Hp)%list_elem_of_fmap.
    apply elem_of_get_permissions in Hp as (Hp & a & b & Ha & Hu & Hb & Hbr & Hbp).
    destruct (wf_ruo_fk db Hwf a Ha) as (Hr & Ho & _).
    destruct (find_by_id_elem _ _ Hr) as [r Er], (find_by_id_elem _ _ Ho) as [o Eo].
    assert (Hro : (r, o) ∈ associated_roles db u).
    { apply elem_of_associated_roles. eauto 10. }
    destruct (get_organizations_has_role _ _ _ _ Hro) as (od & roles & Hg & _ & Hrd).
    apply list_elem_of_bind. exists (od, roles). split; [|done].
    apply list_elem_of_bind. exists (RoleSerializer db r). split; [|done].
    apply list_elem_of_fmap. exists (PermissionSerializer p). split; [done|].
    apply list_elem_of_fmap. exists p. split; [done|].
    apply (role_permissions_complete db r b p Hwf); [done| |done|done].
    rewrite Hbr. symmetry. by apply find_by_id_Some in Er as [_ ?].
Qed.

(** ** Granting a role *)

(** More grants, the same permission tables: every effective permission
    stays. *)
Lemma effective_permission_mono db db' uid p :
  permissions db' = permissions db -> roles_permissions db' = roles_permissions db ->
  rows (roles_users_org db) ⊆ rows (roles_users_org db') ->
  effective_permission db uid p -> effective_permission db' uid p.
Proof.
  unfold effective_permission. intros Hp Hr Hs (Hpm & a & b & ? & ? & ? & ? & ?).
  rewrite Hp, Hr. split; [done|]. exists a, b. split_and!; auto.
Qed.

(** (C36) Liveness of granting: from any reachable state, for a user, a
    role and an organization of the tables, one step
    ([RoleUserOrgAssociation.objects.get_or_create]) reaches a state, still
    reachable, in which the user has every permission of the role and
    keeps every permission they had. *)
Theorem grant_liveness db u r o :
  rtc db_step empty_db db ->
  u ∈ rows (users db) -> r ∈ rows (roles db) -> o ∈ rows (organizations db) ->
  exists db', db_step db db' /\ rtc db_step empty_db db' /\
    (forall p, p ∈ role_permissions db r -> p ∈ get_permissions db' u) /\
    (forall p, p ∈ get_permissions db u -> p ∈ get_permissions db' u).
Proof.
  intros Hreach Hu Hr Ho. pose proof (rtc_db_step_wf _ _ empty_db_wf Hreach) as Hwf.
  destruct (RoleUserOrgAssociation_get_or_create_Ok db (role_id r) (org_id o) (user_id u) Hwf)
    as (db' & a & c & Hg & Ha & Hk & Hsub & Hp & Hrp);
    [apply list_elem_of_fmap_2; done.. |].
  assert (Hs : db_step db db') by (eapply step_ruo_get_or_create; exact Hg).
  exists db'. split; [done|]. split; [by eapply rtc_r|]. split.
  - intros p (Hpm & b & Hb & Hbr & Hbp)%elem_of_role_permissions.
    apply elem_of_get_permissions. unfold ruo_key in Hk. simplify_eq.
    split; [by rewrite Hp|]. exists a, b. rewrite Hrp. split_and!; congruence.
  - intros p Hp'%elem_of_get_permissions. apply elem_of_get_permissions.
    by eapply effective_permission_mono.
Qed.

(** ** Witnesses *)

Section Witnesses.

(** Scenario B of the specification, in two organizations: [U] is a
    Clinic-Doctor in [O1] and a Chat-Doctor in [O2]; [V] holds the same
    two roles the other way round; [W] has no grant. *)
Definition demo_db : DB :=
  mkDB (mkTable [] 0)
    (mkTable [mkOrganization 1 "O1" None true; mkOrganization 2 "O2" None true] 2)
    (mkTable [mkUser 1 "U" "u@abcclinic.com" true false false;
              mkUser 2 "V" "v@abcclinic.com" true false false;
              mkUser 3 "W" "w@abcclinic.com" true false false] 3)
    (mkTable [mkRole 1 "Clinic-Doctor" ""; mkRole 2 "Chat-Doctor" ""] 2)
    (mkTable [mkRoleUserOrgAssociation 1 1 1 1; mkRoleUserOrgAssociation 2 2 2 1;
              mkRoleUserOrgAssociation 3 1 2 2; mkRoleUserOrgAssociation 4 2 1 2] 4)
    (mkTable [mkPermission 1 "Patient-GET" ""; mkPermission 2 "Patient-DELETE" ""] 2)
    (mkTable [mkRolePermissionAssociation 1 1 1; mkRolePermissionAssociation 2 2 1;
              mkRolePermissionAssociation 3 2 2] 3).

Definition demo_U : User := mkUser 1 "U" "u@abcclinic.com" true false false.
Definition demo_V : User := mkUser 2 "V" "v@abcclinic.com" true false false.
Definition demo_W : User := mkUser 3 "W" "w@abcclinic.com" true false false.

Lemma get_permissions_names_NoDup_witness :
  NoDup (perm_name <$> get_permissions demo_db demo_U).
Proof. apply get_permissions_names_NoDup. apply db_wfb_sound. vm_compute. reflexivity. Defined.

Lemma get_permissions_org_agnostic_witness :
  get_permissions demo_db demo_U = get_permissions demo_db demo_V.
Proof.
  apply get_permissions_org_agnostic; apply (bool_decide_unpack _); vm_compute; reflexivity.
Defined.

(** Scenario C: under [O2], [U] holds the Chat-Doctor role only. *)
Lemma get_organizations_groups_witness :
  [RoleSerializer demo_db (mkRole 2 "Chat-Doctor" "")] =
  RoleSerializer demo_db ∘ fst <$>
    filter (fun ro => org_id ro.2 = 2%N) (associated_roles demo_db demo_U).
Proof.
  apply (get_organizations_groups demo_db demo_U (mkOrganizationData 2 "O2" None)).
  apply (bool_decide_unpack _). vm_compute. reflexivity.
Defined.

Lemma get_organizations_agrees_witness :
  "Patient-DELETE" ∈ breakdown_names (get_organizations demo_db demo_U) <->
  "Patient-DELETE" ∈ perm_name <$> get_permissions demo_db demo_U.
Proof. apply get_organizations_agrees. apply db_wfb_sound. vm_compute. reflexivity. Defined.


(** Scenario A of the specification, built by the model's writes: an
    organization, the role Clinic-Doctor with Patient-GET, and a doctor
    without a grant yet. *)
Definition live_org : Organization := mkOrganization 1 "ABC Clinic Group" None true.
Definition live_role : Role := mkRole 1 "Clinic-Doctor" "".
Definition live_user : User := mkUser 1 "Doctor 1" "doctor1@abcclinic.com" true false false.

Definition live_db : DB :=
  mkDB (mkTable [] 0) (mkTable [live_org] 1) (mkTable [live_user] 1) (mkTable [live_role] 1)
    (mkTable [] 0) (mkTable [mkPermission 1 "Patient-GET" ""] 1)
    (mkTable [mkRolePermissionAssociation 1 1 1] 1).

Lemma live_db_reachable : rtc db_step empty_db live_db.
Proof.
  eapply rtc_l; [eapply (step_organization_save _ "ABC Clinic Group" None); reflexivity|].
  eapply rtc_l; [eapply (step_role_save _ "Clinic-Doctor" ""); reflexivity|].
  eapply rtc_l; [eapply (step_permission_save _ "Patient-GET" ""); reflexivity|].
  eapply rtc_l; [eapply (step_rp_get_or_create _ 1 1); reflexivity|].
  eapply rtc_l; [eapply (step_user_create _ "doctor1@abcclinic.com" "Doctor 1" false);
                 reflexivity|].
  apply rtc_refl.
Qed.

Lemma grant_liveness_witness :
  exists db', db_step live_db db' /\ rtc db_step empty_db db' /\
    (forall p, p ∈ role_permissions live_db live_role -> p ∈ get_permissions db' live_user) /\
    (forall p, p ∈ get_permissions live_db live_user -> p ∈ get_permissions db' live_user).
Proof.
  apply (grant_liveness live_db live_user live_role live_org); [exact live_db_reachable | ..];
    apply (bool_decide_unpack _); vm_compute; reflexivity.
Defined.

End Witnesses.
