(* ===== verification/Claims.v ===== *)
(** * The token payload, and the decision on an issued token

    At login the JWT library builds the payload with the handler
    configured in the project's settings (not part of [src/]; modelled
    from the specification, 4.3): the user's id and email, the expiry, and
    [permissions], one [{name: ...}] record per permission of
    [get_permissions].  The class [JWTCodec] is the interface between the
    issuer and [JWTPermission]: the library signs and encodes a payload,
    and decoding what it encoded gives the payload back.  The theorems of
    this file are proved against the class, whatever the signature scheme;
    [ClaimsWitnesses] instantiates it with the unsigned codec. *)

From S2P Require Import Prelude PyValue Models Permissions Serializers Aggregation.

(** ** The codec interface *)

Class JWTCodec (token : Type) `{!JWTDecode token} := {
  jwt_encode_handler : pyval -> token;
  jwt_decode_encode : forall payload, jwt_decode_handler (jwt_encode_handler payload) = Ok payload }.

(** ** The payload handler *)

(** [{'name': permission.name}] *)
Definition permission_claim (p : Permission) : pyval := PyDict [("name", PyStr (perm_name p))].

(** The payload of a token issued for [u] in state [db], expiring at [exp]. *)
Definition jwt_payload_handler (db : DB) (u : User) (exp : Z) : pyval :=
  PyDict [("user_id", PyInt (Z.of_N (user_id u)));
          ("email", PyStr (user_email u));
          ("exp", PyInt exp);
          ("permissions", PyList (permission_claim <$> get_permissions db u))].

(** [obtain_jwt_token] and [refresh_jwt_token]: both recompute the payload
    from the current state, neither copies the previous token's list. *)
Definition issue_token {token} `{JWTCodec token} (db : DB) (u : User) (exp : Z) : token :=
  jwt_encode_handler (jwt_payload_handler db u exp).

(** The abstract decision of the specification (4.4, steps 5 and 6): some
    effective permission of the user is named "<resource>-<method>". *)
Definition authorize_spec (db : DB) (u : User) (resource method : string) : Prop :=
  exists p, effective_permission db (user_id u) p /\
            perm_name p = required_permission resource method.

(** ** Lemmas *)

Lemma available_permissions_payload db u exp :
  available_permissions (jwt_payload_handler db u exp) =
  Ok (PyStr <$> (perm_name <$> get_permissions db u)).
Proof.
  unfold available_permissions, jwt_payload_handler. simpl. rewrite res_mapM_fmap.
  unfold permission_claim. simpl. rewrite res_mapM_Ok_fmap. by rewrite <- list_fmap_compose.
Qed.

(** The abstract decision is the membership the code tests. *)
Lemma authorize_spec_iff db u resource method :
  authorize_spec db u resource method <->
  required_permission resource method ∈ perm_name <$> get_permissions db u.
Proof.
  unfold authorize_spec. rewrite list_elem_of_fmap. setoid_rewrite elem_of_get_permissions.
  naive_solver.
Qed.

#[export] Instance authorize_spec_dec db u resource method :
  Decision (authorize_spec db u resource method).
Proof.
  destruct (decide (required_permission resource method ∈ perm_name <$> get_permissions db u));
    [left | right]; by rewrite authorize_spec_iff.
Defined.

Lemma py_in_names_authorize db u resource method :
  py_in (required_permission resource method) (PyStr <$> (perm_name <$> get_permissions db u))
  = bool_decide (authorize_spec db u resource method).
Proof.
  rewrite py_in_fmap_PyStr. apply bool_decide_ext. symmetry. apply authorize_spec_iff.
Qed.

(** Every payload the handler issues has the schema of the specification. *)
Lemma jwt_payload_handler_wt db u exp : payload_wt (jwt_payload_handler db u exp).
Proof.
  econstructor; [reflexivity|]. apply Forall_fmap, Forall_forall. intros p _.
  by econstructor.
Qed.

Section Codec.
Context {token : Type} `{JWTCodec token}.

Lemma get_payload_issued u' db u exp method :
  get_payload (mkRequest u' (issue_token db u exp) method) = Ok (jwt_payload_handler db u exp).
Proof. apply jwt_decode_encode. Qed.

(** (C18) Refinement: on a token issued for [u], a request of [u] to a view
    declaring [resource] never raises, and it is allowed exactly when the
    abstract decision of the specification holds. *)
Theorem has_permission_refines db u exp resource method :
  exists b, has_permission (mkRequest (AuthUser u) (issue_token db u exp) method)
                           (mkView (Some resource)) = Ok b /\
            (b = true <-> authorize_spec db u resource method).
Proof.
  exists (bool_decide (authorize_spec db u resource method)). split.
  - rewrite <- py_in_names_authorize.
    apply (has_permission_available (mkRequest (AuthUser u) (issue_token db u exp) method)
             (mkView (Some resource)) u (jwt_payload_handler db u exp) resource);
      [done | apply get_payload_issued | done | apply available_permissions_payload].
  - apply bool_decide_eq_true.
Qed.

(** Revocation at refresh: when a permission is no longer effective
    for [u] in the current state, a token issued (or refreshed) now does not
    allow it, whatever earlier tokens listed. *)
Theorem refreshed_token_drops_revoked db u exp resource method :
  ~ authorize_spec db u resource method ->
  has_permission (mkRequest (AuthUser u) (issue_token db u exp) method)
                 (mkView (Some resource)) = Ok false.
Proof.
  intros Hno.
  rewrite (has_permission_available _ _ u (jwt_payload_handler db u exp) resource
             (PyStr <$> (perm_name <$> get_permissions db u)));
    [| done | apply get_payload_issued | done | apply available_permissions_payload].
  rewrite py_in_names_authorize. f_equal. by apply bool_decide_false.
Qed.
End Codec.

(** ** An instance of the interface *)

Section ClaimsWitnesses.

(** The unsigned codec: the token is the payload itself. *)
#[local] Instance unsigned_decode : JWTDecode pyval := fun p => Ok p.
#[local] Instance unsigned_codec : JWTCodec pyval :=
  {| jwt_encode_handler p := p; jwt_decode_encode p := eq_refl |}.

End ClaimsWitnesses.
