(* ===== verification/Views.v ===== *)
(** * The user endpoints of [auth_app/views.py]

    [UserList] and [UserDetail] are [APIView]s with [resource_name =
    'Users'] and [permission_classes = (JWTPermission,)].  Django REST
    framework's [APIView.dispatch] (not part of [src/]; modelled from its
    documented behaviour) runs [check_permissions] before it looks the
    handler up, turns a refusal into 401 or 403 and [Http404] into 404, and
    lets every other exception through (the server answers 500).  The
    validation of [UserSerializer(data=...)] is an interface
    ([UserValidator]) with the one law the views rely on; [drf_validator] is
    an instance.  [JSONWebTokenAuthentication] (library code as well) runs
    before the permission check: [authenticated_dispatch] decodes the token,
    finds the user by email and refuses an inactive account with 401; the
    settings' username handler is a parameter of the section.  The URL
    table is in [Urls.v]. *)

From S2P Require Import Prelude PyValue Models Permissions Serializers Aggregation.

(** ** Responses *)

(** The body of a [Response]: [serializer.data], [serializer.errors] (the
    fields in error), an error [detail], or nothing. *)
Inductive Body :=
| BUsers (l : list UserData)
| BUser (u : UserData)
| BErrors (fields : list string)
| BDetail (msg : string)
| BNone.

Record Response := mkResponse { status_code : N; response_body : Body }.

(** ** Validation of [UserSerializer(data=request.data)] *)

(** [serializer.is_valid()] with [serializer.errors] on the left and the
    validated [(name, email)] on the right; the [option User] is the
    instance of an update. *)
Class UserValidator := user_validate : DB -> option User -> pyval -> list string + (string * string).

(** The law: the [UniqueValidator] of [email] ([unique=True]) refuses an
    email another user holds. *)
Class UserValidatorLaws `{UserValidator} := validated_email_fresh :
  forall db inst data name email, user_validate db inst data = inr (name, email) ->
  email ∉ user_email <$> filter (fun x => Some (user_id x) <> user_id <$> inst) (rows (users db)).

(** [request.data[k]] when it is a string. *)
Definition data_str (data : pyval) (k : string) : option string :=
  match data with
  | PyDict d => match dict_lookup d k with Some (PyStr s) => Some s | _ => None end
  | _ => None
  end.

(** [CharField(max_length=n)], required, not blank. *)
Definition char_field_ok (n : nat) (v : option string) : bool :=
  match v with
  | Some s => negb (bool_decide (s = "")) && (String.length s <=? n)%nat
  | None => false
  end.

(** The shape [EmailValidator] asks: some text, one ["@"], some text. *)
Definition email_shape (s : string) : bool :=
  match String.index 0 "@" s with
  | Some i => (0 <? i)%nat && (S i <? String.length s)%nat &&
              match String.index (S i) "@" s with Some _ => false | None => true end
  | None => false
  end.

(** The fields [name] and [email] of [User] as [ModelSerializer] builds
    them ([id] and [date_joined] are read-only). *)
Definition drf_user_validate (db : DB) (inst : option User) (data : pyval)
    : list string + (string * string) :=
  let name := data_str data "name" in
  let email := data_str data "email" in
  let email_ok := match email with
    | Some e => char_field_ok 254 (Some e) && email_shape e &&
                negb (bool_decide (e ∈ user_email <$> filter
                        (fun x => Some (user_id x) <> user_id <$> inst) (rows (users db))))
    | None => false end in
  match name, email with
  | Some n, Some e => if char_field_ok 255 (Some n) && email_ok then inr (n, e)
                      else inl ((if char_field_ok 255 name then [] else ["name"]) ++
                                (if email_ok then [] else ["email"]))
  | _, _ => inl ((if char_field_ok 255 name then [] else ["name"]) ++
                 (if email_ok then [] else ["email"]))
  end.

#[export] Instance drf_validator : UserValidator := drf_user_validate.

#[export] Instance drf_validator_laws : UserValidatorLaws.
Proof.
  intros db inst data name email. unfold user_validate, drf_validator, drf_user_validate.
  destruct (data_str data "name"), (data_str data "email") as [e|]; try discriminate.
  destruct (char_field_ok 255 (Some s) && _) eqn:E; [|discriminate].
  intros [= <- <-]. apply andb_true_iff in E as [_ E].
  apply andb_true_iff in E as [_ E]. apply negb_true_iff, bool_decide_eq_false in E. done.
Qed.

(** ** The handlers *)

Section Handlers.
Context `{UserValidator}.

(** [UserList.get]: [UserSerializer(User.objects.all(), many=True).data] *)
Definition UserList_get (db : DB) : Response :=
  mkResponse 200 (BUsers (UserSerializer <$> rows (users db))).

(** [UserList.post]: [serializer.save()] is [User.objects.create(...)],
    which inserts the row [create_user] inserts (active, neither staff nor
    superuser; the password column is left empty, which is not modelled). *)
Definition UserList_post (db : DB) (data : pyval) : res (DB * Response) :=
  match user_validate db None data with
  | inl errs => Ok (db, mkResponse 400 (BErrors errs))
  | inr (name, email) =>
      match create_user db email name with
      | Ok (db', u) => Ok (db', mkResponse 201 (BUser (UserSerializer u)))
      | Raise e => Raise e
      end
  end.

(** [UserDetail.get_object]: [User.objects.get(pk=pk)] with [pk] the
    digits of the URL; [int(pk)] is bound as a SQLite [INTEGER], a signed
    64-bit integer (the range of [BigAutoField]), and the driver raises
    [OverflowError] beyond it, which [except User.DoesNotExist] lets
    through. *)
Definition get_object (db : DB) (pk : N) : res User :=
  if bool_decide (BigAutoField_max < pk)%N
  then Raise (OverflowError "Python int too large to convert to SQLite INTEGER") else
  match objects_get "User" (filter (fun u => user_id u = pk) (rows (users db))) with
  | Raise (DoesNotExist m) => if bool_decide (m = "User") then Raise Http404
                              else Raise (DoesNotExist m)
  | r => r
  end.

Definition UserDetail_get (db : DB) (pk : N) : res (DB * Response) :=
  snippet <- get_object db pk ;;
  Ok (db, mkResponse 200 (BUser (UserSerializer snippet))).

(** [ModelSerializer.update]: the validated fields set on the instance. *)
Definition set_user_fields (u : User) (name email : string) : User :=
  mkUser (user_id u) name email (user_is_active u) (user_is_staff u) (user_is_superuser u).

Definition UserDetail_put (db : DB) (pk : N) (data : pyval) : res (DB * Response) :=
  snippet <- get_object db pk ;;
  match user_validate db (Some snippet) data with
  | inl errs => Ok (db, mkResponse 400 (BErrors errs))
  | inr (name, email) =>
      let snippet := set_user_fields snippet name email in
      db' <- User_save_update db snippet ;;
      Ok (db', mkResponse 200 (BUser (UserSerializer snippet)))
  end.

(** [snippet.delete()] cascades to the user's grants. *)
Definition UserDetail_delete (db : DB) (pk : N) : res (DB * Response) :=
  snippet <- get_object db pk ;;
  Ok (User_delete db (user_id snippet), mkResponse 204 BNone).

End Handlers.

(** ** [APIView.dispatch] *)

(** The two views of [views.py]; [UserDetail] carries the [pk] of its URL. *)
Inductive UserView := UserListView | UserDetailView (pk : N).

(** [resource_name = 'Users'] of both classes. *)
Definition view_of (v : UserView) : View := mkView (Some "Users").

(** [View.http_method_names] *)
Definition http_method_names : list string :=
  ["get"; "post"; "put"; "patch"; "delete"; "head"; "options"; "trace"].

Section Dispatch.
Context {token : Type} `{JWTDecode token} `{UserValidator}.

(** [getattr(self, request.method.lower(), None)]: [head] is [get] (set by
    [View.as_view]), [options] is [APIView.options]. *)
Definition handler (v : UserView) (m : string) (db : DB) (data : pyval)
    : option (res (DB * Response)) :=
  match v with
  | UserListView =>
      if bool_decide (m = "get") || bool_decide (m = "head") then Some (Ok (db, UserList_get db))
      else if bool_decide (m = "post") then Some (UserList_post db data)
      else if bool_decide (m = "options") then Some (Ok (db, mkResponse 200 BNone))
      else None
  | UserDetailView pk =>
      if bool_decide (m = "get") || bool_decide (m = "head") then Some (UserDetail_get db pk)
      else if bool_decide (m = "put") then Some (UserDetail_put db pk data)
      else if bool_decide (m = "delete") then Some (UserDetail_delete db pk)
      else if bool_decide (m = "options") then Some (Ok (db, mkResponse 200 BNone))
      else None
  end.

(** [permission_denied]: [NotAuthenticated] (401, the authenticator has a
    [WWW-Authenticate] header) when no authenticator succeeded,
    [PermissionDenied] (403) otherwise. *)
Definition permission_denied (request : Request token) : Response :=
  match req_user request with
  | AuthUser _ => mkResponse 403 (BDetail "You do not have permission to perform this action.")
  | _ => mkResponse 401 (BDetail "Authentication credentials were not provided.")
  end.

(** [handle_exception]: [Http404] becomes [NotFound]; any other exception
    propagates. *)
Definition handle_exception (db : DB) (r : res (DB * Response)) : res (DB * Response) :=
  match r with
  | Raise Http404 => Ok (db, mkResponse 404 (BDetail "Not found."))
  | r => r
  end.

(** [initial] (its [check_permissions]), then the handler, or
    [http_method_not_allowed] (405). *)
Definition dispatch (db : DB) (v : UserView) (request : Request token) (data : pyval)
    : res (DB * Response) :=
  match has_permission request (view_of v) with
  | Raise e => Raise e
  | Ok false => Ok (db, permission_denied request)
  | Ok true =>
      let m := str_lower (req_method request) in
      match (if bool_decide (m ∈ http_method_names) then handler v m db data else None) with
      | Some r => handle_exception db r
      | None => Ok (db, mkResponse 405 (BDetail ("Method " +:+ req_method request +:+ " not allowed.")))
      end
  end.

End Dispatch.

(** ** [JSONWebTokenAuthentication] *)

(** The outcome of the authenticator of both views: no [Authorization:
    JWT ...] header, the user of the token, or [AuthenticationFailed]. *)
Inductive AuthResult :=
| NoCredentials
| Authenticated (u : User)
| AuthenticationFailed (msg : string).

Section Authentication.
Context {token : Type} `{JWTDecode token} `{UserValidator}.

(** [api_settings.JWT_PAYLOAD_GET_USERNAME_HANDLER], set in the project's
    settings (not part of [src/]). *)
Variable jwt_get_username_from_payload : pyval -> option string.

(** [authenticate_credentials]: [User.objects.get_by_natural_key(username)]
    looks the user up by [email] ([USERNAME_FIELD = 'email']); a missing
    user and an inactive one are refused. *)
Definition authenticate_credentials (db : DB) (payload : pyval) : res AuthResult :=
  match jwt_get_username_from_payload payload with
  | None => Ok (AuthenticationFailed "Invalid payload.")
  | Some username =>
      if bool_decide (username = "") then Ok (AuthenticationFailed "Invalid payload.") else
      match objects_get "User" (filter (fun u => user_email u = username) (rows (users db))) with
      | Ok u => Ok (if user_is_active u then Authenticated u
                    else AuthenticationFailed "User account is disabled.")
      | Raise (DoesNotExist _) => Ok (AuthenticationFailed "Invalid signature.")
      | Raise e => Raise e
      end
  end.

(** [authenticate]: a token the decoder refuses (bad signature, expired,
    malformed) is an [AuthenticationFailed]. *)
Definition authenticate (db : DB) (header : option token) : res AuthResult :=
  match header with
  | None => Ok NoCredentials
  | Some t =>
      match jwt_decode_handler t with
      | Raise _ => Ok (AuthenticationFailed "Error decoding signature.")
      | Ok payload => authenticate_credentials db payload
      end
  end.

(** [request.auth] is the raw token, [None] without credentials; the
    decision never decodes [None], since an anonymous request is refused
    first. *)
Definition option_decode : JWTDecode (option token) := fun o =>
  match o with
  | Some t => jwt_decode_handler t
  | None => Raise (TypeError "Invalid token type")
  end.

(** [authentication_classes = (JSONWebTokenAuthentication,)]: [initial()]
    authenticates the request before [check_permissions]; a failure is a
    401 response. *)
Definition authenticated_dispatch (db : DB) (v : UserView) (header : option token)
    (method : string) (data : pyval) : res (DB * Response) :=
  r <- authenticate db header ;;
  match r with
  | NoCredentials =>
      @dispatch (option token) option_decode _ db v (mkRequest AnonymousUser None method) data
  | Authenticated u =>
      @dispatch (option token) option_decode _ db v (mkRequest (AuthUser u) header method) data
  | AuthenticationFailed msg => Ok (db, mkResponse 401 (BDetail msg))
  end.

End Authentication.

(** ** Lemmas *)

(** [get_object] on a well-formed state: [OverflowError] beyond the
    64-bit range, otherwise the row with key [pk], or [Http404] when there
    is none. *)
Lemma get_object_cases db pk :
  db_wf db ->
  ((BigAutoField_max < pk)%N /\ exists msg, get_object db pk = Raise (OverflowError msg)) \/
  (get_object db pk = Raise Http404 /\ pk ∉ user_ids db) \/
  (exists u, get_object db pk = Ok u /\ u ∈ rows (users db) /\ user_id u = pk /\
             (pk <= BigAutoField_max)%N).
Proof.
  intros Hwf. destruct (wf_users db Hwf) as [Hnd _]. unfold get_object.
  case_bool_decide as Hb; [left; eauto|right].
  destruct (filter_key_unique user_id pk (rows (users db)) Hnd) as [E | (u & E & Hu & Hid)];
    rewrite E.
  - left. split; [done|]. by apply filter_key_nil.
  - right. exists u. split_and!; [done..| lia].
Qed.

Lemma get_object_overflow db pk :
  (BigAutoField_max < pk)%N ->
  get_object db pk = Raise (OverflowError "Python int too large to convert to SQLite INTEGER").
Proof. intros Hpk. unfold get_object. case_bool_decide; [done | lia]. Qed.

Lemma get_object_Ok db pk u : get_object db pk = Ok u -> u ∈ rows (users db) /\ user_id u = pk.
Proof.
  unfold get_object. case_bool_decide; [discriminate|].
  destruct (filter _ _) as [|x [|]] eqn:E; simpl; try case_bool_decide; try discriminate.
  intros [= <-]. assert (Hx : x ∈ filter (fun u => user_id u = pk) (rows (users db)))
    by (rewrite E; left). by apply list_elem_of_filter in Hx as [? ?].
Qed.

(** A validated email is not held by any user. *)
Lemma validated_email_fresh_all `{UserValidatorLaws} db data name email :
  user_validate db None data = inr (name, email) -> email ∉ user_email <$> rows (users db).
Proof.
  intros Hv Hin. apply (validated_email_fresh db None data name email Hv).
  apply list_elem_of_fmap in Hin as (x & -> & Hx). apply list_elem_of_fmap. exists x.
  split; [done|]. by apply list_elem_of_filter.
Qed.

Lemma create_user_fresh db email name :
  email ∉ user_email <$> rows (users db) -> exists db' u, create_user db email name = Ok (db', u).
Proof. intros Hn. unfold create_user, UserManager_create. rewrite bool_decide_false by done. eauto. Qed.

Lemma User_save_update_fresh `{UserValidatorLaws} db u data name email :
  user_validate db (Some u) data = inr (name, email) ->
  exists db', User_save_update db (set_user_fields u name email) = Ok db'.
Proof.
  intros Hv. pose proof (validated_email_fresh _ _ _ _ _ Hv) as Hn.
  unfold User_save_update. rewrite bool_decide_false; [eauto|]. simpl.
  erewrite list_filter_iff; [exact Hn|]. intros x. simpl. split; congruence.
Qed.

(** Deleting a user removes the row and, by the cascade, every grant of
    the user. *)
Lemma User_delete_gone db pk :
  (pk ∉ user_ids (User_delete db pk)) /\
  forall u, user_id u = pk -> get_permissions (User_delete db pk) u = [].
Proof.
  split.
  - unfold user_ids, User_delete. simpl. intros (x & Hx & Hin)%list_elem_of_fmap.
    apply list_elem_of_filter in Hin as [Hne _]. congruence.
  - intros u Hu. apply elem_of_nil_inv. intros p Hp%elem_of_get_permissions.
    destruct Hp as (_ & a & b & Ha & Hau & _). simpl in Ha.
    apply list_elem_of_filter in Ha as [Hne _]. congruence.
Qed.

Section DispatchLemmas.
Context {token : Type} `{JWTDecode token} `{UserValidator}.

(** A handler leaves the state as it is, or it is [post], [put] or
    [delete], whose changes are model steps. *)
Lemma handler_effect v m db data r db' resp :
  handler v m db data = Some r -> handle_exception db r = Ok (db', resp) ->
  db' = db \/ (m ∈ ["post"; "put"; "delete"] /\ rtc db_step db db').
Proof.
  intros Hh He. destruct r as [[d x]|e]; [|destruct e; try discriminate;
    by injection He; intros; subst; left].
  injection He; intros; subst. unfold handler in Hh.
  destruct v; repeat (case_bool_decide; simpl in Hh); simplify_eq; try by left.
  - (* UserList.post *) right. split; [set_solver|]. unfold UserList_post in Hh.
    destruct (user_validate _ _ _) as [|[n e]]; [simplify_eq; apply rtc_refl|].
    destruct (create_user _ _ _) as [[d u]|] eqn:E; [|discriminate]. simplify_eq.
    apply rtc_once. by eapply step_user_create.
  - (* UserDetail.get *) left. unfold UserDetail_get in Hh.
    destruct (get_object _ _); simpl in Hh; congruence.
  - left. unfold UserDetail_get in Hh. destruct (get_object _ _); simpl in Hh; congruence.
  - (* UserDetail.put *) right. split; [set_solver|]. unfold UserDetail_put in Hh.
    destruct (get_object _ _) as [s|]; simpl in Hh; [|discriminate].
    destruct (user_validate _ _ _) as [|[n e]]; [simplify_eq; apply rtc_refl|].
    destruct (User_save_update _ _) eqn:E; simpl in Hh; [|discriminate]. simplify_eq.
    apply rtc_once. by eapply step_user_update.
  - (* UserDetail.delete *) right. split; [set_solver|]. unfold UserDetail_delete in Hh.
    destruct (get_object _ _); simpl in Hh; [|discriminate]. simplify_eq.
    apply rtc_once. apply step_user_delete.
Qed.

(** [dispatch] leaves the state as it is, or the request was allowed, its
    method is [post], [put] or [delete], and its changes are model steps. *)
Lemma dispatch_effect db v request data db' r :
  dispatch db v request data = Ok (db', r) ->
  db' = db \/
  (has_permission request (view_of v) = Ok true /\
   str_lower (req_method request) ∈ ["post"; "put"; "delete"] /\ rtc db_step db db').
Proof.
  unfold dispatch. intros Hd.
  destruct (has_permission _ _) as [[]|] eqn:Hp; [|injection Hd; intros; subst; by left
    | discriminate].
  case_bool_decide; [|injection Hd; intros; subst; by left].
  destruct (handler _ _ _ _) eqn:Hh; [|injection Hd; intros; subst; by left].
  destruct (handler_effect _ _ _ _ _ _ _ Hh Hd) as [-> | [? ?]]; [by left | by right].
Qed.

End DispatchLemmas.

Section DispatchTotal.
Context {token : Type} `{JWTDecode token} `{UserValidatorLaws}.

(** On a well-formed state every handler answers when the key of the URL
    is in the 64-bit range: [Http404] is then the only exception the
    handlers raise, and [handle_exception] turns it into a response. *)
Lemma handler_total v m db data r :
  db_wf db -> match v with UserDetailView pk => (pk <= BigAutoField_max)%N | _ => True end ->
  handler v m db data = Some r -> exists x, handle_exception db r = Ok x.
Proof.
  intros Hwf Hpk Hh. destruct v as [|pk].
  - unfold handler in Hh. repeat (case_bool_decide; simpl in Hh); simplify_eq; eauto.
    unfold UserList_post. destruct (user_validate db None data) as [|[n e]] eqn:Hv; [eauto|].
    destruct (create_user_fresh db e n) as (db' & u & ->); [by eapply validated_email_fresh_all|].
    eauto.
  - destruct (get_object_cases db pk Hwf) as [[? _] | [[Hg _] | (u & Hg & _)]]; [lia | |];
      unfold handler in Hh; repeat (case_bool_decide; simpl in Hh); simplify_eq; eauto;
      unfold UserDetail_get, UserDetail_put, UserDetail_delete; rewrite Hg; simpl; eauto.
    destruct (user_validate db (Some u) data) as [|[n e]] eqn:Hv; [eauto|].
    destruct (User_save_update_fresh db u data n e Hv) as [db' ->]. simpl. eauto.
Qed.

End DispatchTotal.

(** ** Claims *)

Section DispatchClaims.
Context {token : Type} `{JWTDecode token} `{UserValidator}.

(** (C32) Safety: a request to the user endpoints changes the database only
    when [JWTPermission] allowed it, and only for [POST], [PUT] or
    [DELETE]; [GET], [HEAD] and [OPTIONS] never write. *)
Theorem dispatch_write_requires_permission db v request data db' r :
  dispatch db v request data = Ok (db', r) -> db' <> db ->
  has_permission request (view_of v) = Ok true /\
  str_lower (req_method request) ∈ ["post"; "put"; "delete"].
Proof.
  intros Hd Hne. by destruct (dispatch_effect _ _ _ _ _ _ Hd) as [-> | (? & ? & _)].
Qed.

(** (C33) Functional behaviour of the writes: a request that changes
    the database is a [POST] on [api/users/] that inserts the validated
    name and email, a [PUT] on [api/users/<pk>/] that saves the user with
    key [pk] with the validated fields, or a [DELETE] on [api/users/<pk>/]
    that deletes the user with key [pk]; no other view, method or key
    writes. *)
Theorem dispatch_writes db v request data db' r :
  dispatch db v request data = Ok (db', r) -> db' <> db ->
  (v = UserListView /\ str_lower (req_method request) = "post" /\
   exists name email u, user_validate db None data = inr (name, email) /\
     create_user db email name = Ok (db', u)) \/
  (exists pk u name email, v = UserDetailView pk /\ str_lower (req_method request) = "put" /\
     get_object db pk = Ok u /\ user_validate db (Some u) data = inr (name, email) /\
     User_save_update db (set_user_fields u name email) = Ok db') \/
  (exists pk, v = UserDetailView pk /\ str_lower (req_method request) = "delete" /\
     pk ∈ user_ids db /\ db' = User_delete db pk).
Proof.
  unfold dispatch. cbn zeta. intros Hd Hne.
  destruct (has_permission _ _) as [[]|]; [|congruence | discriminate].
  case_bool_decide; [|congruence].
  destruct (handler _ _ _ _) as [[[d x]|e]|] eqn:Hh; [| destruct e; simpl in Hd; congruence
    | congruence].
  simpl in Hd. injection Hd as <- <-. unfold handler in Hh.
  destruct v as [|pk]; repeat (case_bool_decide; simpl in Hh); simplify_eq; try congruence.
  - left. unfold UserList_post in Hh. destruct (user_validate _ _ _) as [|[n e]]; [congruence|].
    destruct (create_user _ _ _) as [[d' u]|] eqn:Hc; [|discriminate]. simplify_eq. eauto 10.
  - unfold UserDetail_get in Hh. destruct (get_object _ _); simpl in Hh; congruence.
  - unfold UserDetail_get in Hh. destruct (get_object _ _); simpl in Hh; congruence.
  - right; left. unfold UserDetail_put in Hh.
    destruct (get_object db pk) as [u|] eqn:Hg; simpl in Hh; [|discriminate].
    destruct (user_validate _ _ _) as [|[n e]] eqn:Hv; [congruence|].
    destruct (User_save_update _ _) eqn:Hs; simpl in Hh; [|discriminate]. simplify_eq.
    exists pk, u, n, e. auto.
  - right; right. unfold UserDetail_delete in Hh.
    destruct (get_object db pk) as [u|] eqn:Hg; simpl in Hh; [|discriminate]. simplify_eq.
    apply get_object_Ok in Hg as [Hu <-]. exists (user_id u). split_and!; [done..| |done].
    apply list_elem_of_fmap. eauto.
Qed.

(** A refused request is answered without touching the database:
    401 when no authenticator identified the user, 403 otherwise, before
    the method is even looked up (no 405 for a refused method). *)
Theorem dispatch_refused db v request data :
  has_permission request (view_of v) = Ok false ->
  exists r, dispatch db v request data = Ok (db, r) /\
    status_code r = match req_user request with AuthUser _ => 403%N | _ => 401%N end.
Proof.
  intros Hp. unfold dispatch. rewrite Hp. eexists. split; [reflexivity|].
  unfold permission_denied. by destruct (req_user request).
Qed.

End DispatchClaims.

Section DispatchTotalClaim.
Context {token : Type} `{JWTDecode token} `{UserValidatorLaws}.

(** (C35) Error: on a well-formed database a request the decision allows
    ends in a response when the key of its URL is in the 64-bit range (a
    missing user is a 404, a duplicate email a 400 of the validation,
    never an [IntegrityError]); beyond that range every handler of
    [UserDetail] raises [OverflowError], a server error. *)
Theorem dispatch_permitted_answers db v request data :
  db_wf db -> has_permission request (view_of v) = Ok true ->
  (match v with UserDetailView pk => (pk <= BigAutoField_max)%N | _ => True end ->
   exists db' r, dispatch db v request data = Ok (db', r)) /\
  (forall pk, v = UserDetailView pk -> (BigAutoField_max < pk)%N ->
   str_lower (req_method request) ∈ ["get"; "head"; "put"; "delete"] ->
   exists msg, dispatch db v request data = Raise (OverflowError msg)).
Proof.
  intros Hwf Hp. split.
  - intros Hpk. unfold dispatch. rewrite Hp. case_bool_decide; [|eauto].
    destruct (handler _ _ _ _) as [r|] eqn:Hh; [|eauto].
    destruct (handler_total _ _ _ _ _ Hwf Hpk Hh) as [[db' x] ->]. eauto.
  - intros pk -> Hpk Hm. unfold dispatch. rewrite Hp. cbn zeta.
    remember (str_lower (req_method request)) as m eqn:Em. clear Em.
    unfold handler, UserDetail_get, UserDetail_put, UserDetail_delete.
    rewrite (get_object_overflow db pk Hpk).
    repeat (apply elem_of_cons in Hm as [->|Hm]; [simpl; eauto|]). set_solver.
Qed.

End DispatchTotalClaim.

(** [UserDetail.get_object] on a well-formed state raises [Http404]
    exactly when no user has a key of the 64-bit range, and otherwise
    returns the user with that key. *)
Theorem get_object_spec db pk :
  db_wf db -> (pk <= BigAutoField_max)%N ->
  (get_object db pk = Raise Http404 <-> pk ∉ user_ids db) /\
  (forall u, get_object db pk = Ok u -> u ∈ rows (users db) /\ user_id u = pk).
Proof.
  intros Hwf Hpk. split; [|apply get_object_Ok].
  destruct (get_object_cases db pk Hwf) as [[? _] | [[-> ?] | (u & -> & Hu & <- & _)]];
    [lia | done |].
  split; [discriminate|]. intros Hn. exfalso. apply Hn. apply list_elem_of_fmap. eauto.
Qed.

Section DeleteClaim.
Context {token : Type} `{JWTDecode token} `{UserValidator}.

(** (C38) A [DELETE] on [api/users/<pk>/] that succeeds (204) removes the
    user and, through the cascade on [RoleUserOrgAssociation.user], every
    grant of theirs: a token issued afterwards for that key lists no
    permission. *)
Theorem dispatch_delete_revokes db pk request data db' r :
  str_lower (req_method request) = "delete" ->
  dispatch db (UserDetailView pk) request data = Ok (db', r) -> status_code r = 204%N ->
  (pk ∉ user_ids db') /\ forall u, user_id u = pk -> get_permissions db' u = [].
Proof.
  intros Hm Hd Hs. unfold dispatch in Hd. rewrite Hm in Hd.
  destruct (has_permission _ _) as [[]|]; [| injection Hd; intros; subst;
    unfold permission_denied in Hs; by destruct (req_user request) | discriminate].
  simpl in Hd. unfold UserDetail_delete in Hd.
  destruct (get_object db pk) as [u|e] eqn:Hg; simpl in Hd.
  - injection Hd; intros <- <-. apply get_object_Ok in Hg as [_ <-]. apply User_delete_gone.
  - destruct e; try discriminate. injection Hd; intros; subst. discriminate Hs.
Qed.

End DeleteClaim.

Section AuthenticationLemmas.
Context {token : Type} `{JWTDecode token} `{UserValidator}.
Variable get_username : pyval -> option string.

(** On a well-formed state the lookup by email finds the one user. *)
Lemma objects_get_email db u :
  db_wf db -> u ∈ rows (users db) ->
  objects_get "User" (filter (fun x => user_email x = user_email u) (rows (users db))) = Ok u.
Proof.
  intros Hwf Hu. destruct (filter_key_unique user_email (user_email u) (rows (users db))
                             (wf_user_emails db Hwf)) as [E | (x & E & Hx & Hxu)].
  - exfalso. by apply (filter_nil_not_elem_of _ _ u E).
  - rewrite E. simpl. f_equal.
    exact (NoDup_fmap_inj_on user_email _ x u (wf_user_emails db Hwf) Hx Hu Hxu).
Qed.

(** A refused authentication is a 401 that changes nothing. *)
Lemma authenticated_dispatch_refused db v t method data msg :
  authenticate get_username db (Some t) = Ok (AuthenticationFailed msg) ->
  authenticated_dispatch get_username db v (Some t) method data = Ok (db, mkResponse 401 (BDetail msg)).
Proof. intros Ha. unfold authenticated_dispatch. by rewrite Ha. Qed.

Lemma authenticate_unknown db t payload :
  jwt_decode_handler t = Ok payload ->
  (forall name, get_username payload = Some name -> name ∉ user_email <$> rows (users db)) ->
  exists msg, authenticate get_username db (Some t) = Ok (AuthenticationFailed msg).
Proof.
  intros Hd Hn. unfold authenticate, authenticate_credentials. rewrite Hd.
  destruct (get_username payload) as [name|] eqn:Hg; [|eauto].
  case_bool_decide; [eauto|]. rewrite filter_all_false; [simpl; eauto|].
  intros x Hx Hxn. apply (Hn name eq_refl). apply list_elem_of_fmap. eauto.
Qed.

Lemma authenticate_inactive db t payload u :
  db_wf db -> jwt_decode_handler t = Ok payload -> get_username payload = Some (user_email u) ->
  u ∈ rows (users db) -> user_is_active u = false ->
  exists msg, authenticate get_username db (Some t) = Ok (AuthenticationFailed msg).
Proof.
  intros Hwf Hd Hg Hu Ha. unfold authenticate, authenticate_credentials. rewrite Hd, Hg.
  case_bool_decide; [eauto|]. rewrite (objects_get_email db u Hwf Hu), Ha. eauto.
Qed.

(** What a successful authentication has: a token that decodes to a
    payload naming the email of an active user of the table. *)
Lemma authenticate_Authenticated db t u :
  authenticate get_username db (Some t) = Ok (Authenticated u) ->
  exists payload, jwt_decode_handler t = Ok payload /\
    get_username payload = Some (user_email u) /\ u ∈ rows (users db) /\ user_is_active u = true.
Proof.
  unfold authenticate, authenticate_credentials.
  destruct (jwt_decode_handler t) as [payload|] eqn:Hd; [|discriminate].
  destruct (get_username payload) as [name|] eqn:Hn; [|discriminate].
  case_bool_decide; [discriminate|].
  destruct (objects_get _ _) as [x|e] eqn:Hg; [|destruct e; discriminate].
  apply objects_get_filter_Ok in Hg as [Hx <-]. destruct (user_is_active x) eqn:Ha; [|discriminate].
  intros [= <-]. eauto.
Qed.

(** An active user of a well-formed table, named by a token that decodes,
    is authenticated. *)
Lemma authenticate_known db t payload u :
  db_wf db -> jwt_decode_handler t = Ok payload -> get_username payload = Some (user_email u) ->
  user_email u <> "" -> u ∈ rows (users db) -> user_is_active u = true ->
  authenticate get_username db (Some t) = Ok (Authenticated u).
Proof.
  intros Hwf Hd Hg Hne Hu Ha. unfold authenticate, authenticate_credentials. rewrite Hd, Hg.
  rewrite bool_decide_false by done. by rewrite (objects_get_email db u Hwf Hu), Ha.
Qed.

(** (C40) Error path of authentication: on a well-formed database a
    request whose token does not decode, names no user, or names an
    inactive user is answered 401 before any permission is checked, and
    changes nothing. *)
Theorem authentication_refused_401 db v t method data :
  db_wf db ->
  ((exists e, jwt_decode_handler t = Raise e) \/
   (exists payload, jwt_decode_handler t = Ok payload /\
      forall name, get_username payload = Some name -> name ∉ user_email <$> rows (users db)) \/
   (exists payload u, jwt_decode_handler t = Ok payload /\
      get_username payload = Some (user_email u) /\ u ∈ rows (users db) /\
      user_is_active u = false)) ->
  exists r, authenticated_dispatch get_username db v (Some t) method data = Ok (db, r) /\
            status_code r = 401%N.
Proof.
  intros Hwf Hcase.
  assert (exists msg, authenticate get_username db (Some t) = Ok (AuthenticationFailed msg))
    as [msg Ha].
  { destruct Hcase as [[e He] | [(p & Hd & Hn) | (p & u & Hd & Hg & Hu & Hi)]].
    - unfold authenticate. rewrite He. eauto.
    - by eapply authenticate_unknown.
    - by eapply authenticate_inactive. }
  eexists. split; [by apply authenticated_dispatch_refused | reflexivity].
Qed.

End AuthenticationLemmas.

(** ** Witnesses *)

Definition views_admin : User := mkUser 1 "Admin" "admin@abcclinic.com" true true true.
Definition views_doctor : User := mkUser 2 "Doctor" "doctor@abcclinic.com" true false false.

(** A clinic whose [User-Admin] role (held by [views_admin]) carries
    [Users-DELETE] and [Users-POST]. *)
Definition views_db : DB :=
  mkDB (mkTable [] 0) (mkTable [mkOrganization 1 "Clinic" None true] 1)
       (mkTable [views_admin; views_doctor] 2) (mkTable [mkRole 1 "User-Admin" ""] 1)
       (mkTable [mkRoleUserOrgAssociation 1 1 1 1] 1)
       (mkTable [mkPermission 1 "Users-DELETE" ""; mkPermission 2 "Users-POST" ""] 2)
       (mkTable [mkRolePermissionAssociation 1 1 1; mkRolePermissionAssociation 2 1 2] 2).

Definition admin_payload : pyval :=
  PyDict [("user_id", PyInt 1); ("permissions",
          PyList [PyDict [("name", PyStr "Users-DELETE")]; PyDict [("name", PyStr "Users-POST")]])].
Definition doctor_payload : pyval := PyDict [("user_id", PyInt 2); ("permissions", PyList [])].

Definition new_user_data : pyval :=
  PyDict [("name", PyStr "Nurse"); ("email", PyStr "nurse@abcclinic.com")].

Section ViewsWitnesses.

#[local] Instance views_decode : JWTDecode pyval := fun p => Ok p.

Lemma dispatch_write_requires_permission_witness :
  has_permission (mkRequest (AuthUser views_admin) admin_payload "DELETE")
                 (view_of (UserDetailView 2)) = Ok true /\
  str_lower "DELETE" ∈ ["post"; "put"; "delete"].
Proof.
  apply (dispatch_write_requires_permission views_db (UserDetailView 2)
           (mkRequest (AuthUser views_admin) admin_payload "DELETE") PyNone
           (User_delete views_db 2) (mkResponse 204 BNone));
    [vm_compute; reflexivity | apply (bool_decide_unpack _); vm_compute; reflexivity].
Defined.

Lemma dispatch_writes_witness :
  (UserDetailView 2 = UserListView /\ str_lower "DELETE" = "post" /\
   exists name email u, user_validate views_db None PyNone = inr (name, email) /\
     create_user views_db email name = Ok (User_delete views_db 2, u)) \/
  (exists pk u name email, UserDetailView 2 = UserDetailView pk /\ str_lower "DELETE" = "put" /\
     get_object views_db pk = Ok u /\ user_validate views_db (Some u) PyNone = inr (name, email) /\
     User_save_update views_db (set_user_fields u name email) = Ok (User_delete views_db 2)) \/
  (exists pk, UserDetailView 2 = UserDetailView pk /\ str_lower "DELETE" = "delete" /\
     pk ∈ user_ids views_db /\ User_delete views_db 2 = User_delete views_db pk).
Proof.
  apply (dispatch_writes views_db (UserDetailView 2)
           (mkRequest (AuthUser views_admin) admin_payload "DELETE") PyNone _
           (mkResponse 204 BNone)); [vm_compute; reflexivity | vm_compute; discriminate].
Defined.

Lemma dispatch_permitted_answers_witness :
  ((18446744073709551616 <= BigAutoField_max)%N ->
   exists db' r, dispatch views_db (UserDetailView 18446744073709551616)
                   (mkRequest (AuthUser views_admin) admin_payload "DELETE") PyNone = Ok (db', r)) /\
  (forall pk, UserDetailView 18446744073709551616 = UserDetailView pk ->
   (BigAutoField_max < pk)%N -> str_lower "DELETE" ∈ ["get"; "head"; "put"; "delete"] ->
   exists msg, dispatch views_db (UserDetailView 18446744073709551616)
                 (mkRequest (AuthUser views_admin) admin_payload "DELETE") PyNone = Raise (OverflowError msg)).
Proof.
  apply (dispatch_permitted_answers views_db (UserDetailView 18446744073709551616)
           (mkRequest (AuthUser views_admin) admin_payload "DELETE") PyNone);
    [apply db_wfb_sound; vm_compute | vm_compute]; reflexivity.
Defined.

Lemma dispatch_delete_revokes_witness :
  (2%N ∉ user_ids (User_delete views_db 2)) /\
  forall u, user_id u = 2%N -> get_permissions (User_delete views_db 2) u = [].
Proof.
  apply (dispatch_delete_revokes views_db 2 (mkRequest (AuthUser views_admin) admin_payload "DELETE")
           PyNone _ (mkResponse 204 BNone)); vm_compute; reflexivity.
Defined.

(** A decoder that refuses [None] and reads every other value as its
    payload. *)
Definition views_refusing_decode : JWTDecode pyval := fun p =>
  match p with PyNone => Raise (TypeError "Error decoding signature") | _ => Ok p end.

Lemma authentication_refused_401_witness :
  exists r, @authenticated_dispatch pyval views_refusing_decode _ (fun p => data_str p "username")
              views_db UserListView (Some PyNone) "GET" PyNone = Ok (views_db, r) /\
            status_code r = 401%N.
Proof.
  apply (@authentication_refused_401 pyval views_refusing_decode _); [|left; eexists; reflexivity].
  apply db_wfb_sound. vm_compute. reflexivity.
Defined.

End ViewsWitnesses.
