(* ===== verification/TokenViews.v ===== *)
(** * The token views of the JWT library: [obtain_jwt_token], [refresh_jwt_token], [verify_jwt_token]

    [urls.py] routes [api/tokens/auth/], [api/tokens/refresh/] and
    [api/tokens/verify/] to the views of [rest_framework_jwt] (library code, not part of [src/];
    modelled from the library's serializers, as the specification (4.3)
    describes refresh).  Both are [JSONWebTokenAPIView]s with no
    authentication and no permission class, and [post] their only handler.
    The refresh and verify serializers read [request.data['token']]; a valid token is
    answered 200 with [{'token': ...}], a [ValidationError] 400 with its
    message.

    - [check_payload] is [_check_payload]: the decoder's refusal is a
      [ValidationError] (the library tells an expired signature from a bad
      one; the decoder of [Permissions.v] does not, so both are one
      message here).
    - [check_user] is [_check_user]: the username the settings' handler
      reads from the payload, [get_by_natural_key] (by email), and the
      [is_active] check.
    - [refresh_validate] is [RefreshJSONWebTokenSerializer.validate]:
      [orig_iat] must be truthy and no older than the refresh limit; the
      new payload is [jwt_payload_handler(user)], built again from the
      current state, with [orig_iat] copied over.
    - [verify_validate] is [VerifyJSONWebTokenSerializer.validate]: the
      same checks, and the token given back unchanged.
    - [obtain_post] is [JSONWebTokenSerializer]: its two [CharField]s
      ([email], the [USERNAME_FIELD], and [password]; required, not blank,
      whitespace trimmed), [ModelBackend.authenticate] (the user by email,
      the password, [user_can_authenticate]), and the payload of
      [jwt_payload_handler] with [orig_iat] when [JWT_ALLOW_REFRESH].

    The clock, the two delays and [JWT_ALLOW_REFRESH] of the settings and
    the password check of the hasher are Section variables.  The theorems:
    a refreshed token carries exactly the current permissions of its user
    (C19), a login followed by a refresh succeeds (C7), an expired refresh
    is refused, and verify gives its token back. *)

From Stdlib Require DecimalString.
From S2P Require Import Prelude PyValue Models Permissions Serializers Aggregation Claims Views.

(** The answer of a token view. *)
Inductive TokenResponse (token : Type) :=
| TokenOk (t : token)                  (* 200 [{'token': token}] *)
| TokenInvalid (msg : string)          (* 400 [{'non_field_errors': [msg]}] *)
| TokenFieldErrors (fields : list string)   (* 400, the fields in error *)
| TokenStatus (code : N).              (* 405, or 200 for [OPTIONS] *)
Arguments TokenOk {token} t.
Arguments TokenInvalid {token} msg.
Arguments TokenStatus {token} code.
Arguments TokenFieldErrors {token} fields.

(** [orig_iat + int(refresh_limit)]: Python adds integers and booleans. *)
Definition py_int_value (v : pyval) : option Z :=
  match v with
  | PyInt z => Some z
  | PyBool b => Some (if b then 1 else 0)%Z
  | _ => None
  end.

Section TokenViews.
Context {token : Type} `{JWTCodec token}.

(** [api_settings.JWT_PAYLOAD_GET_USERNAME_HANDLER] *)
Variable jwt_get_username_from_payload : pyval -> option string.
(** The serializer's [token = serializers.CharField()] on [request.data];
    [None] when the field is missing. *)
Variable read_token : pyval -> option token.
(** [timegm(datetime.utcnow().utctimetuple())] *)
Variable now : Z.
(** [JWT_EXPIRATION_DELTA] and [JWT_REFRESH_EXPIRATION_DELTA], in seconds. *)
Variable expiration_delta refresh_limit : Z.

(** [_check_payload]: a [ValidationError] is [inl msg]. *)
Definition check_payload (t : token) : string + pyval :=
  match jwt_decode_handler t with
  | Ok payload => inr payload
  | Raise _ => inl "Error decoding signature."
  end.

(** [_check_user]: [User.DoesNotExist] is a [ValidationError]; any other
    exception of the query propagates. *)
Definition check_user (db : DB) (payload : pyval) : res (string + User) :=
  match jwt_get_username_from_payload payload with
  | None => Ok (inl "Invalid payload.")
  | Some username =>
      if bool_decide (username = "") then Ok (inl "Invalid payload.") else
      match objects_get "User" (filter (fun u => user_email u = username) (rows (users db))) with
      | Ok u => Ok (if user_is_active u then inr u else inl "User account is disabled.")
      | Raise (DoesNotExist _) => Ok (inl "User doesn't exist.")
      | Raise e => Raise e
      end
  end.

(** [RefreshJSONWebTokenSerializer.validate] *)
Definition refresh_validate (db : DB) (t : token) : res (string + token) :=
  match check_payload t with
  | inl msg => Ok (inl msg)
  | inr payload =>
      r <- check_user db payload ;;
      match r with
      | inl msg => Ok (inl msg)
      | inr u =>
          orig_iat <- py_get payload "orig_iat" ;;
          match orig_iat with
          | Some v =>
              if py_truthy v then
                match py_int_value v with
                | Some iat =>
                    if Z.ltb (iat + refresh_limit) now then Ok (inl "Refresh has expired.")
                    else new_payload <- py_setitem (jwt_payload_handler db u (now + expiration_delta))
                                                   "orig_iat" v ;;
                         Ok (inr (jwt_encode_handler new_payload))
                | None => Raise (TypeError "unsupported operand type(s) for +")
                end
              else Ok (inl "orig_iat field is required.")
          | None => Ok (inl "orig_iat field is required.")
          end
      end
  end.

(** [VerifyJSONWebTokenSerializer.validate] *)
Definition verify_validate (db : DB) (t : token) : res (string + token) :=
  match check_payload t with
  | inl msg => Ok (inl msg)
  | inr payload =>
      r <- check_user db payload ;;
      Ok (match r with inl msg => inl msg | inr _ => inr t end)
  end.

(** [JSONWebTokenAPIView.post] with a serializer's [validate]. *)
Definition token_post (validate : token -> res (string + token)) (data : pyval)
    : res (TokenResponse token) :=
  match read_token data with
  | None => Ok (TokenInvalid "This field is required.")
  | Some t =>
      r <- validate t ;;
      Ok (match r with inl msg => TokenInvalid msg | inr t' => TokenOk t' end)
  end.

(** [APIView.dispatch] of a view whose only handler is [post]. *)
Definition jwt_view_dispatch (post : pyval -> res (TokenResponse token)) (method : string)
    (data : pyval) : res (TokenResponse token) :=
  let m := str_lower method in
  if bool_decide (m = "post") then post data
  else if bool_decide (m = "options") then Ok (TokenStatus 200)
  else Ok (TokenStatus 405).

Definition token_dispatch (validate : token -> res (string + token)) (method : string)
    (data : pyval) : res (TokenResponse token) :=
  jwt_view_dispatch (token_post validate) method data.

Definition refresh_jwt_token (db : DB) (method : string) (data : pyval) : res (TokenResponse token) :=
  token_dispatch (refresh_validate db) method data.

Definition verify_jwt_token (db : DB) (method : string) (data : pyval) : res (TokenResponse token) :=
  token_dispatch (verify_validate db) method data.

(** ** [obtain_jwt_token] *)

(** [AbstractBaseUser.check_password]: the password hasher of the
    settings, not modelled. *)
Variable check_password : User -> string -> bool.
(** [JWT_ALLOW_REFRESH] *)
Variable allow_refresh : bool.

(** [serializers.CharField()] (required, blank not allowed, whitespace
    trimmed) on [request.data[k]]: strings and integers ([str(n)]) are
    read, anything else is an error of the field. *)
Definition char_field (data : pyval) (k : string) : option string :=
  match data with
  | PyDict kvs =>
      match dict_lookup kvs k with
      | Some (PyStr s) => let s := py_strip s in if bool_decide (s = "") then None else Some s
      | Some (PyInt z) => Some (DecimalString.NilZero.string_of_int (Z.to_int z))
      | _ => None
      end
  | _ => None
  end.

(** [ModelBackend.authenticate]: the user by [get_by_natural_key], the
    password, and [user_can_authenticate] (the [is_active] flag). *)
Definition model_backend_authenticate (db : DB) (email password : string) : res (option User) :=
  match objects_get "User" (filter (fun u => user_email u = email) (rows (users db))) with
  | Ok u => Ok (if check_password u password && user_is_active u then Some u else None)
  | Raise (DoesNotExist _) => Ok None
  | Raise e => Raise e
  end.

(** [jwt_payload_handler(user)] at login: the library's handler adds
    [orig_iat] when [JWT_ALLOW_REFRESH]. *)
Definition login_payload (db : DB) (u : User) : res pyval :=
  let p := jwt_payload_handler db u (now + expiration_delta) in
  if allow_refresh then py_setitem p "orig_iat" (PyInt now) else Ok p.

(** [JSONWebTokenSerializer]: its two fields, then [validate]. *)
Definition obtain_post (db : DB) (data : pyval) : res (TokenResponse token) :=
  match data with
  | PyDict _ =>
      match char_field data "email", char_field data "password" with
      | Some email, Some password =>
          r <- model_backend_authenticate db email password ;;
          match r with
          | Some u =>
              if user_is_active u then p <- login_payload db u ;; Ok (TokenOk (jwt_encode_handler p))
              else Ok (TokenInvalid "User account is disabled.")
          | None => Ok (TokenInvalid "Unable to log in with provided credentials.")
          end
      | e, pw => Ok (TokenFieldErrors ((match e with Some _ => [] | None => ["email"] end) ++
                                       (match pw with Some _ => [] | None => ["password"] end)))
      end
  | _ => Ok (TokenInvalid ("Invalid data. Expected a dictionary, but got " +:+ py_type_name data +:+ "."))
  end.

Definition obtain_jwt_token (db : DB) (method : string) (data : pyval) : res (TokenResponse token) :=
  jwt_view_dispatch (obtain_post db) method data.

End TokenViews.

(** ** Lemmas *)

Section TokenViewLemmas.
Context {token : Type} `{JWTCodec token}.
Variable get_username : pyval -> option string.
Variable read_token : pyval -> option token.
Variables now expiration_delta refresh_limit : Z.
Variable check_password : User -> string -> bool.
Variable allow_refresh : bool.

Lemma check_user_inr db payload u :
  check_user get_username db payload = Ok (inr u) ->
  get_username payload = Some (user_email u) /\ user_email u <> "" /\
  u ∈ rows (users db) /\ user_is_active u = true.
Proof.
  unfold check_user. destruct (get_username payload) as [name|]; [|discriminate].
  case_bool_decide; [discriminate|].
  destruct (objects_get _ _) as [x|e] eqn:Hg; [|destruct e; discriminate].
  apply objects_get_filter_Ok in Hg as [Hx <-]. destruct (user_is_active x) eqn:Ha; [|discriminate].
  intros [= <-]. auto.
Qed.

(** What a successful refresh has: the old token named an active user, and
    the new token encodes that user's payload, built from the current
    state, with [orig_iat] set. *)
Lemma refresh_validate_inr db t t' :
  refresh_validate get_username now expiration_delta refresh_limit db t = Ok (inr t') ->
  exists payload u v p', jwt_decode_handler t = Ok payload /\
    get_username payload = Some (user_email u) /\ user_email u <> "" /\
    u ∈ rows (users db) /\ user_is_active u = true /\
    py_setitem (jwt_payload_handler db u (now + expiration_delta)) "orig_iat" v = Ok p' /\
    t' = jwt_encode_handler p'.
Proof.
  unfold refresh_validate, check_payload.
  destruct (jwt_decode_handler t) as [payload|] eqn:Hd; [|discriminate].
  destruct (check_user get_username db payload) as [[msg|u]|] eqn:Hc; simpl; try discriminate.
  destruct (check_user_inr _ _ _ Hc) as (Hg & Hne & Hu & Ha).
  destruct (py_get payload "orig_iat") as [[v|]|]; simpl; try discriminate.
  destruct (py_truthy v); [|discriminate]. destruct (py_int_value v) as [iat|]; [|discriminate].
  destruct (iat + refresh_limit <? now)%Z; [discriminate|].
  simpl. intros [= <-]. exists payload, u, v. eexists. split_and!; try reflexivity; done.
Qed.

(** A 200 comes from [post], through a valid token of the data. *)
Lemma token_dispatch_TokenOk validate method data t' :
  token_dispatch read_token validate method data = Ok (TokenOk t') ->
  exists t, read_token data = Some t /\ validate t = Ok (inr t').
Proof.
  unfold token_dispatch, jwt_view_dispatch, token_post. case_bool_decide; [|case_bool_decide; discriminate].
  destruct (read_token data) as [t|] eqn:Ht; [|discriminate].
  destruct (validate t) as [[msg|t'']|] eqn:Hv; simpl; try discriminate. intros [= <-]. eauto.
Qed.

(** What a successful refresh read and wrote about [orig_iat]. *)
Lemma refresh_validate_orig_iat db t t' :
  refresh_validate get_username now expiration_delta refresh_limit db t = Ok (inr t') ->
  exists payload v iat p', jwt_decode_handler t = Ok payload /\
    py_get payload "orig_iat" = Ok (Some v) /\ py_int_value v = Some iat /\
    (now <= iat + refresh_limit)%Z /\ py_get p' "orig_iat" = Ok (Some v) /\
    t' = jwt_encode_handler p'.
Proof.
  unfold refresh_validate, check_payload.
  destruct (jwt_decode_handler t) as [payload|] eqn:Hd; [|discriminate].
  destruct (check_user get_username db payload) as [[msg|u]|]; simpl; try discriminate.
  destruct (py_get payload "orig_iat") as [[v|]|] eqn:Hg; simpl; try discriminate.
  destruct (py_truthy v); [|discriminate].
  destruct (py_int_value v) as [iat|] eqn:Hi; [|discriminate].
  destruct (iat + refresh_limit <? now)%Z eqn:Hlt; [discriminate|].
  simpl. intros [= <-]. apply Z.ltb_ge in Hlt. exists payload, v, iat. eexists.
  split_and!; [done..| |reflexivity]. reflexivity.
Qed.

(** Setting a key other than ["permissions"] keeps the list the decision reads. *)
Lemma available_permissions_setitem p k v p' :
  k <> "permissions" -> py_setitem p k v = Ok p' ->
  available_permissions p' = available_permissions p.
Proof.
  intros Hk. destruct p; simpl; try discriminate. intros [= <-].
  unfold available_permissions. simpl. by rewrite dict_lookup_dict_set_ne.
Qed.

(** The refreshed payload is the user's payload with [orig_iat]. *)
Lemma refreshed_payload_permissions db u exp v p' :
  py_setitem (jwt_payload_handler db u exp) "orig_iat" v = Ok p' ->
  available_permissions p' = Ok (PyStr <$> (perm_name <$> get_permissions db u)).
Proof.
  intros Hs. rewrite (available_permissions_setitem _ "orig_iat" v p' ltac:(intros E; discriminate E) Hs).
  apply available_permissions_payload.
Qed.

(** (C19) Refinement of the specification's re-issuance (4.3): a token
    [refresh_jwt_token] returns was issued for the active user the old
    token named, and the permission names [JWTPermission] reads from it
    are exactly [get_permissions] of that user in the current state,
    whatever the old token listed. *)
Theorem refresh_recomputes_permissions db method data t' :
  refresh_jwt_token get_username read_token now expiration_delta refresh_limit db method data =
    Ok (TokenOk t') ->
  exists t payload u, read_token data = Some t /\ jwt_decode_handler t = Ok payload /\
    get_username payload = Some (user_email u) /\
    u ∈ rows (users db) /\ user_is_active u = true /\
    (payload' <- jwt_decode_handler t' ;; available_permissions payload') =
      Ok (PyStr <$> (perm_name <$> get_permissions db u)).
Proof.
  intros (t & Ht & Hv)%token_dispatch_TokenOk.
  destruct (refresh_validate_inr _ _ _ Hv) as (payload & u & v & p' & Hd & Hg & _ & Hu & Ha & Hs & ->).
  exists t, payload, u. rewrite jwt_decode_encode. simpl.
  split_and!; auto. by eapply refreshed_payload_permissions.
Qed.

(** A refresh after the limit: the old token decodes and names an active
    user, but [orig_iat + refresh_limit < now]; the answer is a 400 and no
    token, even though the signature itself is still accepted. *)
Theorem refresh_expired_400 db method data t payload u iat :
  str_lower method = "post" -> read_token data = Some t -> jwt_decode_handler t = Ok payload ->
  check_user get_username db payload = Ok (inr u) ->
  py_get payload "orig_iat" = Ok (Some (PyInt iat)) -> iat <> 0%Z -> (iat + refresh_limit < now)%Z ->
  refresh_jwt_token get_username read_token now expiration_delta refresh_limit db method data =
    Ok (TokenInvalid "Refresh has expired.").
Proof.
  intros Hm Ht Hd Hc Hg Hz Hlt. unfold refresh_jwt_token, token_dispatch, jwt_view_dispatch, token_post.
  rewrite bool_decide_true by done. rewrite Ht. unfold refresh_validate, check_payload.
  rewrite Hd, Hc. simpl. rewrite Hg. simpl. rewrite (proj2 (Z.eqb_neq _ _) Hz).
  simpl. by rewrite (proj2 (Z.ltb_lt _ _) Hlt).
Qed.

(** [verify_jwt_token] gives back the token it was sent: unlike refresh,
    it does not rebuild the payload. *)
Theorem verify_returns_token db method data t' :
  verify_jwt_token get_username read_token db method data = Ok (TokenOk t') ->
  read_token data = Some t'.
Proof.
  intros (t & Ht & Hv)%token_dispatch_TokenOk. unfold verify_validate in Hv.
  destruct (check_payload t); [discriminate|].
  destruct (check_user get_username db p) as [[|]|]; simpl in Hv; congruence.
Qed.

Lemma check_user_known db payload u :
  db_wf db -> get_username payload = Some (user_email u) -> user_email u <> "" ->
  u ∈ rows (users db) -> user_is_active u = true -> check_user get_username db payload = Ok (inr u).
Proof.
  intros Hwf Hg Hne Hu Ha. unfold check_user. rewrite Hg, bool_decide_false by done.
  by rewrite (objects_get_email db u Hwf Hu), Ha.
Qed.

(** A field the serializer reads is never blank. *)
Lemma char_field_nonblank data k s : char_field data k = Some s -> s <> "".
Proof.
  destruct data as [| | | | |kvs]; simpl; try discriminate.
  destruct (dict_lookup kvs k) as [[| |z|s'| |]|]; try discriminate.
  - intros [= <-]. destruct (Z.to_int z) as [[]|[]]; discriminate.
  - case_bool_decide; [discriminate|]. by intros [= <-].
Qed.

(** The settings pair the payload handler with the username handler. *)
Hypothesis get_username_refreshed : forall db u exp v p',
  py_setitem (jwt_payload_handler db u exp) "orig_iat" v = Ok p' -> get_username p' = Some (user_email u).

(** (C7) Liveness of the token views, login then refresh: with [JWT_ALLOW_REFRESH], an active user of a
    well-formed table whose password checks gets a token from
    [obtain_jwt_token] that lists exactly their [get_permissions], and
    [refresh_jwt_token] accepts that token (a non-negative refresh limit,
    a clock past the epoch). *)
Theorem login_then_refresh db u password data :
  db_wf db -> u ∈ rows (users db) -> user_is_active u = true ->
  check_password u password = true -> allow_refresh = true ->
  now <> 0%Z -> (0 <= refresh_limit)%Z ->
  char_field data "email" = Some (user_email u) -> char_field data "password" = Some password ->
  exists t, obtain_jwt_token now expiration_delta check_password allow_refresh db "POST" data =
              Ok (TokenOk t) /\
    (payload <- jwt_decode_handler t ;; available_permissions payload) =
      Ok (PyStr <$> (perm_name <$> get_permissions db u)) /\
    forall data', read_token data' = Some t -> exists t',
      refresh_jwt_token get_username read_token now expiration_delta refresh_limit db "POST" data' =
        Ok (TokenOk t').
Proof.
  intros Hwf Hu Ha Hpw Hr Hnow Hlim He Hp.
  set (p := PyDict (dict_set (match jwt_payload_handler db u (now + expiration_delta) with
                              | PyDict kvs => kvs | _ => [] end) "orig_iat" (PyInt now))).
  assert (Hs : py_setitem (jwt_payload_handler db u (now + expiration_delta)) "orig_iat" (PyInt now)
               = Ok p) by reflexivity.
  exists (jwt_encode_handler p). split_and!.
  - unfold obtain_jwt_token, jwt_view_dispatch. rewrite bool_decide_true by reflexivity.
    destruct data; try discriminate. cbn [obtain_post]. rewrite He, Hp. unfold model_backend_authenticate. rewrite (objects_get_email db u Hwf Hu).
    simpl. rewrite Hpw, Ha. simpl. unfold login_payload. by rewrite Ha, Hr, Hs.
  - rewrite jwt_decode_encode. simpl. by eapply refreshed_payload_permissions.
  - intros data' Ht. eexists. unfold refresh_jwt_token, token_dispatch, jwt_view_dispatch, token_post.
    rewrite bool_decide_true by reflexivity. rewrite Ht. unfold refresh_validate, check_payload. rewrite jwt_decode_encode.
    rewrite (check_user_known db p u Hwf (get_username_refreshed _ _ _ _ _ Hs)
               (char_field_nonblank _ _ _ He) Hu Ha). simpl.
    unfold p at 1. simpl.
    rewrite (proj2 (Z.eqb_neq _ _) Hnow). simpl.
    replace (now + refresh_limit <? now)%Z with false by (symmetry; apply Z.ltb_ge; lia).
    reflexivity.
Qed.

(** A refreshed token carries the old token's [orig_iat] unchanged, an
    integer no older than the refresh limit. *)
Theorem refresh_keeps_orig_iat db method data t' :
  refresh_jwt_token get_username read_token now expiration_delta refresh_limit db method data =
    Ok (TokenOk t') ->
  exists t payload payload' v iat, read_token data = Some t /\ jwt_decode_handler t = Ok payload /\
    jwt_decode_handler t' = Ok payload' /\
    py_get payload "orig_iat" = Ok (Some v) /\ py_get payload' "orig_iat" = Ok (Some v) /\
    py_int_value v = Some iat /\ (now <= iat + refresh_limit)%Z.
Proof.
  intros (t & Ht & Hv)%token_dispatch_TokenOk.
  destruct (refresh_validate_orig_iat _ _ _ Hv) as (payload & v & iat & p' & Hd & Hg & Hi & Hle & Hg' & ->).
  exists t, payload, p', v, iat. rewrite jwt_decode_encode. auto 10.
Qed.

(** (C6) Safety of login: an inactive user of a well-formed table gets
    no token, whatever the password and the hasher; [ModelBackend]'s
    [user_can_authenticate] refuses the account first, so the answer is
    the generic 400 and the serializer's ['User account is disabled.']
    branch is never reached. *)
Theorem obtain_inactive_refused db method data u password :
  db_wf db -> u ∈ rows (users db) -> user_is_active u = false -> str_lower method = "post" ->
  char_field data "email" = Some (user_email u) -> char_field data "password" = Some password ->
  obtain_jwt_token now expiration_delta check_password allow_refresh db method data =
    Ok (TokenInvalid "Unable to log in with provided credentials.").
Proof.
  intros Hwf Hu Ha Hm He Hp. unfold obtain_jwt_token, jwt_view_dispatch.
  rewrite bool_decide_true by done. destruct data; try discriminate. cbn [obtain_post].
  rewrite He, Hp. unfold model_backend_authenticate. rewrite (objects_get_email db u Hwf Hu).
  simpl. by rewrite Ha, andb_false_r.
Qed.

End TokenViewLemmas.

(** ** Witnesses *)

Section TokenViewsWitnesses.

(** The unsigned codec of [Claims.v]: the token is its payload. *)
#[local] Instance tv_decode : JWTDecode pyval := fun p => Ok p.
#[local] Instance tv_codec : JWTCodec pyval :=
  {| jwt_encode_handler p := p; jwt_decode_encode p := eq_refl |}.

(** The settings' username handler reads the [email] claim. *)
Definition tv_username (p : pyval) : option string := data_str p "email".

Definition tv_read_token (data : pyval) : option pyval :=
  match data with PyDict kvs => dict_lookup kvs "token" | _ => None end.

(** A token of the administrator of [views_db] that still lists
    [Users-GET], a permission none of their roles grants. *)
Definition stale_token : pyval :=
  PyDict [("user_id", PyInt 1); ("email", PyStr "admin@abcclinic.com"); ("exp", PyInt 400);
          ("permissions", PyList [PyDict [("name", PyStr "Users-GET")]]); ("orig_iat", PyInt 100)].

Definition refresh_data : pyval := PyDict [("token", stale_token)].

Definition refreshed_token : pyval :=
  match refresh_jwt_token tv_username tv_read_token 200 300 1000 views_db "POST" refresh_data with
  | Ok (TokenOk t) => t
  | _ => PyNone
  end.

Lemma refresh_recomputes_permissions_witness :
  exists t payload u, tv_read_token refresh_data = Some t /\ jwt_decode_handler t = Ok payload /\
    tv_username payload = Some (user_email u) /\
    u ∈ rows (users views_db) /\ user_is_active u = true /\
    (payload' <- jwt_decode_handler refreshed_token ;; available_permissions payload') =
      Ok (PyStr <$> (perm_name <$> get_permissions views_db u)).
Proof.
  apply (refresh_recomputes_permissions tv_username tv_read_token 200 300 1000 views_db "POST"
           refresh_data refreshed_token).
  vm_compute. reflexivity.
Defined.


Definition login_data : pyval :=
  PyDict [("email", PyStr "admin@abcclinic.com"); ("password", PyStr "secret")].

Lemma login_then_refresh_witness :
  exists t, obtain_jwt_token 100 300 (fun _ pw => bool_decide (pw = "secret")) true views_db "POST"
              login_data = Ok (TokenOk t) /\
    (payload <- jwt_decode_handler t ;; available_permissions payload) =
      Ok (PyStr <$> (perm_name <$> get_permissions views_db views_admin)) /\
    forall data', tv_read_token data' = Some t -> exists t',
      refresh_jwt_token tv_username tv_read_token 100 300 1000 views_db "POST" data' = Ok (TokenOk t').
Proof.
  apply (login_then_refresh tv_username tv_read_token 100 300 1000
           (fun _ pw => bool_decide (pw = "secret")) true
           ltac:(intros db u exp v p' [= <-]; reflexivity) views_db views_admin "secret" login_data);
    [apply db_wfb_sound; vm_compute; reflexivity | apply (bool_decide_unpack _); vm_compute;
     reflexivity | reflexivity | reflexivity | reflexivity | lia | lia | vm_compute; reflexivity
    | vm_compute; reflexivity].
Defined.


(** [views_db] with the doctor's account disabled. *)
Definition disabled_doctor : User := mkUser 2 "Doctor" "doctor@abcclinic.com" false false false.
Definition disabled_db : DB := set_users views_db (mkTable [views_admin; disabled_doctor] 2).

Lemma obtain_inactive_refused_witness :
  obtain_jwt_token 100 300 (fun _ _ => true) true disabled_db "POST"
    (PyDict [("email", PyStr "doctor@abcclinic.com"); ("password", PyStr "anything")]) =
  Ok (TokenInvalid "Unable to log in with provided credentials.").
Proof.
  apply (obtain_inactive_refused 100 300 (fun _ _ => true) true disabled_db "POST" _
           disabled_doctor "anything");
    [apply db_wfb_sound; vm_compute; reflexivity | apply (bool_decide_unpack _); vm_compute;
     reflexivity | reflexivity | reflexivity | vm_compute; reflexivity | vm_compute; reflexivity].
Defined.

End TokenViewsWitnesses.
