(* ===== verification/Urls.v ===== *)
(** * The URL table of [authserver/urls.py], and the whole request path

    [resolve] is the list of [urlpatterns] in order, each regex anchored at
    the start of the path; [detail_pattern] is the reference meaning of the
    pattern [^api/users/(?P<pk>[0-9]+)/$] (Python's [$] included), and
    [resolve] is proved to agree with it.  [handle_request] composes the
    three stages a request to the user endpoints goes through: URL
    resolution, [JSONWebTokenAuthentication], and [APIView.dispatch] with
    [JWTPermission].  [handle_token_request] sends the three token paths
    to the token views of [TokenViews.v]; the last claim composes the
    two: a token refreshed through the URL table is refused, at the user
    endpoints, every permission the user no longer has. *)

From Stdlib Require DecimalString DecimalN.
From S2P Require Import Prelude PyValue Models Permissions Serializers Aggregation Claims Views TokenViews.

(** ** [urlpatterns] *)

Inductive Route :=
| AdminSite | ObtainToken | RefreshToken | VerifyToken
| UserRoute (v : UserView).

(** [s] without the prefix [p]. *)
Fixpoint strip_prefix (p s : string) : option string :=
  match p, s with
  | EmptyString, _ => Some s
  | String c p', String c' s' => if bool_decide (c = c') then strip_prefix p' s' else None
  | _, _ => None
  end.

(** [$] of Python's [re]: the end, or a newline that ends the string. *)
Definition at_end (s : string) : bool :=
  bool_decide (s = "") || bool_decide (s = String (Ascii.ascii_of_nat 10) "").

Definition is_digit (c : Ascii.ascii) : bool :=
  let n := Ascii.nat_of_ascii c in (48 <=? n)%nat && (n <=? 57)%nat.

(** The longest prefix of digits of [s], and the rest. *)
Fixpoint split_digits (s : string) : string * string :=
  match s with
  | String c s' => if is_digit c then let (d, r) := split_digits s' in (String c d, r) else ("", s)
  | EmptyString => ("", "")
  end.

(** [(?P<pk>[0-9]+)/$] after [api/users/], and [int(pk)] of the lookup. *)
Definition match_pk (s : string) : option N :=
  let (d, r) := split_digits s in
  match strip_prefix "/" r with
  | Some r' => if at_end r' then N.of_uint <$> DecimalString.NilZero.uint_of_string d else None
  | None => None
  end.

(** [re.match(p, s)] for a literal [p]. *)
Definition starts_with (p s : string) : bool :=
  match strip_prefix p s with Some _ => true | None => false end.

(** The patterns in order, each anchored at the start of the path (the
    path without its leading slash); the first that matches wins. *)
Definition resolve (path : string) : option Route :=
  if starts_with "admin/" path then Some AdminSite
  else if starts_with "api/tokens/auth/" path then Some ObtainToken
  else if starts_with "api/tokens/refresh/" path then Some RefreshToken
  else if starts_with "api/tokens/verify/" path then Some VerifyToken
  else match strip_prefix "api/users/" path with
       | Some r => if at_end r then Some (UserRoute UserListView)
                   else (fun pk => UserRoute (UserDetailView pk)) <$> match_pk r
       | None => None
       end.

(** [str(pk)] in a URL. *)
Definition pk_to_string (n : N) : string := DecimalString.NilZero.string_of_uint (N.to_uint n).

Section Pipeline.
Context {token : Type} `{JWTDecode token} `{UserValidator}.
Variable get_username : pyval -> option string.

(** A request for [path] with the token of its [Authorization: JWT]
    header, if any: the URL table picks the view, whose [as_view()] runs
    [authenticated_dispatch]; Django's 404 when no pattern matches; [None]
    for the admin site and the token views, which this file does not
    model. *)
Definition handle_request (db : DB) (path : string) (header : option token) (method : string)
    (data : pyval) : option (res (DB * Response)) :=
  match resolve path with
  | Some (UserRoute v) => Some (authenticated_dispatch get_username db v header method data)
  | Some _ => None
  | None => Some (Ok (db, mkResponse 404 BNone))
  end.

End Pipeline.

Section TokenPipeline.
Context {token : Type} `{JWTCodec token}.
Variable get_username : pyval -> option string.
Variable read_token : pyval -> option token.
Variables now expiration_delta refresh_limit : Z.
Variable check_password : User -> string -> bool.
Variable allow_refresh : bool.

(** A request for [path] that [urls.py] sends to a token view of the JWT
    library; [None] for the other patterns. *)
Definition handle_token_request (db : DB) (path : string) (method : string) (data : pyval)
    : option (res (TokenResponse token)) :=
  match resolve path with
  | Some ObtainToken =>
      Some (obtain_jwt_token now expiration_delta check_password allow_refresh db method data)
  | Some RefreshToken =>
      Some (refresh_jwt_token get_username read_token now expiration_delta refresh_limit db method data)
  | Some VerifyToken => Some (verify_jwt_token get_username read_token db method data)
  | _ => None
  end.

End TokenPipeline.

(** ** Lemmas on the URL table *)

Lemma to_uint_not_Nil n : N.to_uint n <> Decimal.Nil.
Proof.
  intros E. pose proof (DecimalN.Unsigned.of_to n) as Ho. rewrite E in Ho. simpl in Ho.
  subst n. discriminate E.
Qed.

(** [str(pk)] starts with a digit. *)
Lemma pk_to_string_digit n :
  exists c s, pk_to_string n = String c s /\ is_digit c = true /\
    pk_to_string n = DecimalString.NilEmpty.string_of_uint (N.to_uint n).
Proof.
  pose proof (to_uint_not_Nil n) as Hn. unfold pk_to_string.
  destruct (N.to_uint n); [contradiction | ..]; simpl; eauto.
Qed.

Lemma at_end_digit c s : is_digit c = true -> at_end (String c s) = false.
Proof.
  intros Hc. unfold at_end. rewrite !bool_decide_false; [done | | done].
  intros [= -> _]. discriminate Hc.
Qed.

Lemma resolve_user_detail r :
  at_end r = false -> resolve ("api/users/" +:+ r) = (fun pk => UserRoute (UserDetailView pk)) <$> match_pk r.
Proof.
  intros Hr. unfold resolve, starts_with. rewrite !str_app_cons, str_app_nil_l. simpl.
  by rewrite Hr.
Qed.

(** ** The reference meaning of the detail pattern *)

(** [k] zeros. *)
Fixpoint zeros (k : nat) : string :=
  match k with O => "" | S k => String (Ascii.Ascii false false false false true true false false) (zeros k) end.

(** [url(r'^api/users/(?P<pk>[0-9]+)/$', ...)] with [int(pk)]: the path is
    [api/users/], the decimal digits of [n] after any number of leading
    zeros, a slash, and the end of the path, where Python's [$] also
    accepts one final newline. *)
Definition detail_pattern (path : string) (n : N) : Prop :=
  exists k r, path = "api/users/" +:+ zeros k +:+ pk_to_string n +:+ "/" +:+ r /\
              at_end r = true.

(** [k] leading zeros on a decimal numeral. *)
Fixpoint pad (k : nat) (d : Decimal.uint) : Decimal.uint :=
  match k with O => d | S k => Decimal.D0 (pad k d) end.

Lemma strip_prefix_Some p s r : strip_prefix p s = Some r -> s = p +:+ r.
Proof.
  revert s; induction p as [|c p IH]; intros [|c' s] H; simpl in H; try discriminate;
    [by injection H as <- | by injection H as <- |].
  case_bool_decide; [subst|discriminate]. rewrite str_app_cons. f_equal. by apply IH.
Qed.

Lemma split_digits_app s : s = (split_digits s).1 +:+ (split_digits s).2.
Proof.
  induction s as [|c s IH]; [done|]. simpl. destruct (is_digit c); [|done].
  destruct (split_digits s) as [d r]. simpl in *. by rewrite str_app_cons, <- IH.
Qed.

Lemma split_digits_uint_slash d r :
  split_digits (DecimalString.NilEmpty.string_of_uint d +:+ "/" +:+ r) =
  (DecimalString.NilEmpty.string_of_uint d, "/" +:+ r).
Proof.
  induction d; simpl; autorewrite with rbac_simpl in *; simpl; try rewrite IHd; done.
Qed.

Lemma string_of_uint_pad k d :
  DecimalString.NilEmpty.string_of_uint (pad k d) =
  zeros k +:+ DecimalString.NilEmpty.string_of_uint d.
Proof. induction k as [|k IH]; simpl; [by rewrite str_app_nil_l | by rewrite IH, str_app_cons]. Qed.

Lemma of_uint_pad k d : N.of_uint (pad k d) = N.of_uint d.
Proof.
  induction k as [|k IH]; [done|]. cbn [pad].
  rewrite <- IH, <- (DecimalN.Unsigned.of_uint_norm (Decimal.D0 (pad k d))),
    <- (DecimalN.Unsigned.of_uint_norm (pad k d)). done.
Qed.

Lemma pad_not_Nil k d : d <> Decimal.Nil -> pad k d <> Decimal.Nil.
Proof. destruct k; simpl; [done | discriminate]. Qed.

Lemma nilzero_nonnil d :
  d <> Decimal.Nil ->
  DecimalString.NilZero.string_of_uint d = DecimalString.NilEmpty.string_of_uint d.
Proof. by destruct d. Qed.

(** A numeral is its leading zeros followed by its normal form. *)
Lemma string_of_uint_unorm d :
  d <> Decimal.Nil ->
  exists k, DecimalString.NilZero.string_of_uint d =
            zeros k +:+ DecimalString.NilZero.string_of_uint (Decimal.unorm d).
Proof.
  induction d as [|d IH|d _|d _|d _|d _|d _|d _|d _|d _|d _]; intros Hn;
    try (exists O; reflexivity).
  assert (Hd : {d = Decimal.Nil} + {d <> Decimal.Nil}) by (destruct d; [left|right..]; done).
  destruct Hd as [->|Hd]; [exists O; reflexivity|].
  destruct (IH Hd) as [k Hk]. exists (S k).
  assert (E : DecimalString.NilZero.string_of_uint (Decimal.D0 d) =
              zeros 1 +:+ DecimalString.NilZero.string_of_uint d) by (destruct d; done).
  rewrite E, Hk. reflexivity.
Qed.

(** [match_pk] reads exactly the numerals of the pattern. *)
Lemma match_pk_Some r n :
  match_pk r = Some n <->
  exists k r', r = zeros k +:+ pk_to_string n +:+ "/" +:+ r' /\ at_end r' = true.
Proof.
  unfold match_pk. split.
  - pose proof (split_digits_app r) as Hr. destruct (split_digits r) as [d r1]. simpl in Hr.
    destruct (strip_prefix "/" r1) as [r2|] eqn:Hs; [|discriminate].
    apply strip_prefix_Some in Hs. destruct (at_end r2) eqn:Ha; [|discriminate].
    destruct (DecimalString.NilZero.uint_of_string d) as [u|] eqn:Hu; [|discriminate].
    intros [= <-]. apply DecimalString.NilZero.sus in Hu as Hd.
    assert (Hnil : u <> Decimal.Nil)
      by (intros ->; by apply (DecimalString.NilZero.uint_of_string_nonnil d)).
    destruct (string_of_uint_unorm u Hnil) as [k Hk]. exists k, r2. split; [|done].
    rewrite Hr, Hs, <- Hd, Hk, <- (DecimalN.Unsigned.to_of u). unfold pk_to_string.
    by rewrite <- !str_app_assoc.
  - intros (k & r' & -> & Ha). destruct (pk_to_string_digit n) as (c & s & _ & _ & E).
    rewrite E, str_app_assoc, <- string_of_uint_pad, split_digits_uint_slash. simpl.
    rewrite str_app_nil_l, Ha, <- nilzero_nonnil, DecimalString.NilZero.usu
      by (apply pad_not_Nil, to_uint_not_Nil). simpl.
    by rewrite of_uint_pad, DecimalN.Unsigned.of_to.
Qed.

Lemma at_end_pattern k n s : at_end (zeros k +:+ pk_to_string n +:+ s) = false.
Proof.
  destruct k as [|k]; [|by apply at_end_digit].
  destruct (pk_to_string_digit n) as (c & s' & E & Hc & _).
  rewrite str_app_nil_l, E, str_app_cons. by apply at_end_digit.
Qed.

Lemma resolve_detail_inv path n :
  resolve path = Some (UserRoute (UserDetailView n)) ->
  exists r, path = "api/users/" +:+ r /\ match_pk r = Some n.
Proof.
  unfold resolve.
  destruct (starts_with "admin/" path), (starts_with "api/tokens/auth/" path),
    (starts_with "api/tokens/refresh/" path), (starts_with "api/tokens/verify/" path);
    try discriminate.
  destruct (strip_prefix "api/users/" path) as [r|] eqn:Hp; [|discriminate].
  apply strip_prefix_Some in Hp.
  destruct (at_end r); [discriminate|]. destruct (match_pk r) as [m|] eqn:Hm; [|discriminate].
  intros [= <-]. eauto.
Qed.

(** (C37) Equivalence: [resolve] sends a path to [UserDetail] with
    primary key [n] exactly when the path matches
    [^api/users/(?P<pk>[0-9]+)/$] with [int(pk) = n]: the digits of [n]
    after any leading zeros, a slash, and the end of the path or one final
    newline. *)
Theorem resolve_detail_spec path n :
  resolve path = Some (UserRoute (UserDetailView n)) <-> detail_pattern path n.
Proof.
  split.
  - intros (r & -> & Hm)%resolve_detail_inv. apply match_pk_Some in Hm as (k & r' & -> & Ha).
    by exists k, r'.
  - intros (k & r & -> & Ha). rewrite resolve_user_detail by apply at_end_pattern.
    assert (Hm : match_pk (zeros k +:+ pk_to_string n +:+ "/" +:+ r) = Some n)
      by (apply match_pk_Some; eauto).
    by rewrite Hm.
Qed.

(** Two consequences of the patterns of [urls.py]: the token
    patterns have no [$], so any path below [api/tokens/auth/] reaches
    [obtain_jwt_token]; and Python's [$] lets [api/users/] followed by a
    newline reach [UserList]. *)
Theorem resolve_unanchored_patterns rest :
  resolve ("api/tokens/auth/" +:+ rest) = Some ObtainToken /\
  resolve ("api/users/" +:+ String (Ascii.ascii_of_nat 10) "") = Some (UserRoute UserListView).
Proof.
  split; [|reflexivity]. unfold resolve, starts_with. rewrite !str_app_cons, str_app_nil_l.
  reflexivity.
Qed.


(** ** The whole request path *)

Section PipelineClaims.
Context {token : Type} `{JWTDecode token} `{UserValidator}.
Variable get_username : pyval -> option string.

(** Under [NoCredentials] the request is anonymous, so nothing is written. *)
Lemma dispatch_anonymous_unchanged db v method data db' r :
  @dispatch (option token) option_decode _ db v (mkRequest AnonymousUser None method) data =
    Ok (db', r) -> db' = db.
Proof.
  intros Hd. destruct (dispatch_effect _ _ _ _ _ _ Hd) as [-> | (Hp & _)]; [done|].
  by destruct (has_permission_true_inv _ _ Hp) as (? & ? & ? & ? & ? & _).
Qed.

(** (C34) Safety of the whole request path: a request that changes the
    database was routed by [urls.py] to a user view, carried a token that
    decodes to a payload naming an active user of the table, whose
    permission names include "Users-<method>", and used [POST], [PUT] or
    [DELETE]; what it committed is a sequence of model steps. *)
Theorem handle_request_write_requires_grant db path header method data db' r :
  handle_request get_username db path header method data = Some (Ok (db', r)) -> db' <> db ->
  exists v t payload u available,
    resolve path = Some (UserRoute v) /\ header = Some t /\
    jwt_decode_handler t = Ok payload /\ get_username payload = Some (user_email u) /\
    u ∈ rows (users db) /\ user_is_active u = true /\
    available_permissions payload = Ok available /\
    py_in (required_permission "Users" method) available = true /\
    str_lower method ∈ ["post"; "put"; "delete"] /\ rtc db_step db db'.
Proof.
  unfold handle_request. intros Hh Hne.
  destruct (resolve path) as [[| | | |v]|] eqn:Hr; try discriminate; [|congruence].
  injection Hh as Hd. unfold authenticated_dispatch in Hd.
  destruct (authenticate get_username db header) as [[|u|msg]|] eqn:Ha; simpl in Hd;
    [by apply dispatch_anonymous_unchanged in Hd | | congruence | discriminate].
  destruct header as [t|]; [|discriminate].
  destruct (authenticate_Authenticated _ _ _ _ Ha) as (payload & Hp & Hg & Hu & Hact).
  destruct (dispatch_effect _ _ _ _ _ _ Hd) as [-> | (Hperm & Hm & Hs)]; [done|].
  destruct (has_permission_true_inv _ _ Hperm) as (u' & p' & res & av & _ & Hp' & Hv & Hav & Hin).
  assert (Ok payload = Ok p') as [= <-] by (rewrite <- Hp, <- Hp'; reflexivity).
  simpl in Hv. simplify_eq. by exists v, t, payload, u, av.
Qed.

End PipelineClaims.

Section RefreshClaims.
Context {token : Type} `{JWTCodec token} `{UserValidator}.
Variable get_username : pyval -> option string.
Variable read_token : pyval -> option token.
Variables now expiration_delta refresh_limit : Z.
Variable check_password : User -> string -> bool.
Variable allow_refresh : bool.

(** The settings pair the payload handler with the username handler: the
    username read from a refreshed payload is the user's email. *)
Hypothesis get_username_refreshed : forall db u exp v p',
  py_setitem (jwt_payload_handler db u exp) "orig_iat" v = Ok p' -> get_username p' = Some (user_email u).

(** (C13) Revocation, end to end: on a well-formed state, a token that
    [api/tokens/refresh/] returns belongs to a user of the table, and every
    request carrying it to a user endpoint whose "Users-<method>" is not
    an effective permission of that user is answered 403 and changes
    nothing, whatever the old token listed. *)
Theorem refresh_then_request_refused db tpath tmethod tdata t' :
  db_wf db -> resolve tpath = Some RefreshToken ->
  handle_token_request get_username read_token now expiration_delta refresh_limit check_password
    allow_refresh db tpath tmethod tdata = Some (Ok (TokenOk t')) ->
  exists u, u ∈ rows (users db) /\
    forall path v method data, resolve path = Some (UserRoute v) ->
      ~ authorize_spec db u "Users" method ->
      exists r, handle_request get_username db path (Some t') method data = Some (Ok (db, r)) /\
                status_code r = 403%N.
Proof.
  intros Hwf Ht Hh. unfold handle_token_request in Hh. rewrite Ht in Hh. injection Hh as Hh.
  destruct (token_dispatch_TokenOk _ _ _ _ _ Hh) as (t & _ & Hv).
  destruct (refresh_validate_inr _ _ _ _ _ _ _ Hv) as (payload & u & v & p' & _ & _ & Hne & Hu & Ha & Hs & ->).
  exists u. split; [done|]. intros path w method data Hr Hno.
  unfold handle_request. rewrite Hr. unfold authenticated_dispatch.
  rewrite (authenticate_known get_username db _ p' u Hwf (jwt_decode_encode p')
             (get_username_refreshed _ _ _ _ _ Hs) Hne Hu Ha). simpl.
  destruct (@dispatch_refused (option token) option_decode _ db w
              (mkRequest (AuthUser u) (Some (jwt_encode_handler p')) method) data) as (r & Hd & Hst).
  { rewrite (@has_permission_available _ option_decode _ _ u p' "Users"
               (PyStr <$> (perm_name <$> get_permissions db u)));
      [| done | apply jwt_decode_encode | done | by eapply refreshed_payload_permissions].
    rewrite py_in_names_authorize. f_equal. by apply bool_decide_false. }
  exists r. by rewrite Hd.
Qed.

(** (C17) Invariant of refresh, through the URL table: a token that
    [api/tokens/refresh/] returns carries the submitted token's
    [orig_iat] unchanged, an integer no older than the refresh limit;
    so a chain of refreshes never reaches past [orig_iat + refresh_limit]
    of the first login. *)
Theorem refresh_route_keeps_orig_iat db path method data t' :
  resolve path = Some RefreshToken ->
  handle_token_request get_username read_token now expiration_delta refresh_limit check_password
    allow_refresh db path method data = Some (Ok (TokenOk t')) ->
  exists t payload payload' v iat, read_token data = Some t /\ jwt_decode_handler t = Ok payload /\
    jwt_decode_handler t' = Ok payload' /\
    py_get payload "orig_iat" = Ok (Some v) /\ py_get payload' "orig_iat" = Ok (Some v) /\
    py_int_value v = Some iat /\ (now <= iat + refresh_limit)%Z.
Proof.
  intros Hr Hh. unfold handle_token_request in Hh. rewrite Hr in Hh. injection Hh as Hh.
  by eapply refresh_keeps_orig_iat.
Qed.

End RefreshClaims.

(** ** Witnesses *)

Section UrlsWitnesses.

#[local] Instance urls_decode : JWTDecode pyval := fun p => Ok p.

Definition admin_token : pyval :=
  PyDict [("username", PyStr "admin@abcclinic.com"); ("permissions",
          PyList [PyDict [("name", PyStr "Users-DELETE")]; PyDict [("name", PyStr "Users-POST")]])].

Lemma handle_request_write_requires_grant_witness :
  exists v t payload u available,
    resolve "api/users/2/" = Some (UserRoute v) /\ Some admin_token = Some t /\
    jwt_decode_handler t = Ok payload /\ data_str payload "username" = Some (user_email u) /\
    u ∈ rows (users views_db) /\ user_is_active u = true /\
    available_permissions payload = Ok available /\
    py_in (required_permission "Users" "DELETE") available = true /\
    str_lower "DELETE" ∈ ["post"; "put"; "delete"] /\ rtc db_step views_db (User_delete views_db 2).
Proof.
  apply (handle_request_write_requires_grant (fun p => data_str p "username") views_db
           "api/users/2/" (Some admin_token) "DELETE" PyNone _ (mkResponse 204 BNone));
    vm_compute; [reflexivity | discriminate].
Defined.


#[local] Instance urls_codec : JWTCodec pyval :=
  {| jwt_encode_handler p := p; jwt_decode_encode p := eq_refl |}.

Definition urls_username (p : pyval) : option string := data_str p "email".

Definition urls_read_token (data : pyval) : option pyval :=
  match data with PyDict kvs => dict_lookup kvs "token" | _ => None end.

(** The administrator's old token lists [Users-GET], which no role of
    [views_db] grants. *)
Definition stale_admin_token : pyval :=
  PyDict [("user_id", PyInt 1); ("email", PyStr "admin@abcclinic.com");
          ("permissions", PyList [PyDict [("name", PyStr "Users-GET")]]); ("orig_iat", PyInt 100)].

Definition urls_refreshed_token : pyval :=
  match handle_token_request urls_username urls_read_token 200 300 1000 (fun _ _ => false) true
          views_db "api/tokens/refresh/" "POST" (PyDict [("token", stale_admin_token)]) with
  | Some (Ok (TokenOk t)) => t
  | _ => PyNone
  end.

Lemma refresh_then_request_refused_witness :
  exists u, u ∈ rows (users views_db) /\
    forall path v method data, resolve path = Some (UserRoute v) ->
      ~ authorize_spec views_db u "Users" method ->
      exists r, handle_request urls_username views_db path (Some urls_refreshed_token) method data
                  = Some (Ok (views_db, r)) /\ status_code r = 403%N.
Proof.
  apply (refresh_then_request_refused urls_username urls_read_token 200 300 1000 (fun _ _ => false)
           true ltac:(intros db u exp v p' [= <-]; reflexivity) views_db
           "api/tokens/refresh/" "POST" (PyDict [("token", stale_admin_token)]));
    [apply db_wfb_sound; vm_compute; reflexivity | reflexivity | vm_compute; reflexivity].
Defined.

Lemma refresh_route_keeps_orig_iat_witness :
  exists t payload payload' v iat, urls_read_token (PyDict [("token", stale_admin_token)]) = Some t /\
    jwt_decode_handler t = Ok payload /\ jwt_decode_handler urls_refreshed_token = Ok payload' /\
    py_get payload "orig_iat" = Ok (Some v) /\ py_get payload' "orig_iat" = Ok (Some v) /\
    py_int_value v = Some iat /\ (200 <= iat + 1000)%Z.
Proof.
  apply (refresh_route_keeps_orig_iat urls_username urls_read_token 200 300 1000 (fun _ _ => false)
           true views_db "api/tokens/refresh/" "POST" (PyDict [("token", stale_admin_token)]));
    [reflexivity | vm_compute; reflexivity].
Defined.

End UrlsWitnesses.
