(* ===== verification/InitializeData.v ===== *)
(** * The seed script [scripts/initialize_data.py]

    [initialize_data] as a program of the database monad [DBM] of
    [Models.v]: four organizations (a clinic group and three branches),
    the seven roles of [roles_data] with their permissions (looked up
    case-insensitively with [name__iexact], created when absent), the
    users and their grants.  The script runs inside [transaction.atomic]:
    an exception rolls the whole run back. *)

From S2P Require Import Prelude PyValue Models Permissions Serializers Aggregation Claims Views.

(** ** Helpers the script uses *)

(** [Permission.objects.get(name__iexact=name)]: SQLite's [LIKE] folds
    ASCII letters only, as [str_lower] does. *)
Definition Permission_get_iexact (name : string) : DBM Permission := fun db =>
  match objects_get "Permission"
          (filter (fun p => str_lower (perm_name p) = str_lower name) (rows (permissions db))) with
  | Ok p => Ok (db, p)
  | Raise e => Raise e
  end.

(** [try: c except Permission.DoesNotExist: h] *)
Definition catch_DoesNotExist {A} (model : string) (c h : DBM A) : DBM A := fun db =>
  match c db with
  | Raise (DoesNotExist m) => if bool_decide (m = model) then h db else Raise (DoesNotExist m)
  | r => r
  end.

Definition organization_save (name : string) (parent : option Organization) : DBM Organization :=
  fun db => Organization_save db name (org_id <$> parent).

Definition role_save (name description : string) : DBM Role :=
  fun db => Role_save db name description.

(** [Permission(name=name).save()]: [description] is left at [''] *)
Definition permission_save (name : string) : DBM Permission :=
  fun db => Permission_save db name "".

Definition role_permission_get_or_create (r : Role) (p : Permission) : DBM bool := fun db =>
  match RolePermissionAssociation_get_or_create db (role_id r) (perm_id p) with
  | Ok (db', _, created) => Ok (db', created)
  | Raise e => Raise e
  end.

Definition role_user_org_get_or_create (u : User) (r : Role) (o : Organization) : DBM bool :=
  fun db =>
    match RoleUserOrgAssociation_get_or_create db (role_id r) (org_id o) (user_id u) with
    | Ok (db', _, created) => Ok (db', created)
    | Raise e => Raise e
    end.

(** [User.objects.create_user(email, password, name=name)]; the password
    is hashed and stored by the manager, which the model does not keep. *)
Definition create_userM (email password name : string) : DBM User :=
  fun db => create_user db email name.

Definition create_superuserM (email password name : string) : DBM User :=
  fun db => create_superuser db email name.

(** [roles_obj_dict]: [d[k]] ([d[k] = v] is [dict_set] of [PyValue.v]). *)
Fixpoint dict_get {V} (d : list (string * V)) (k : string) : res V :=
  match d with
  | [] => Raise (KeyError k)
  | (k', v) :: d' => if bool_decide (k = k') then Ok v else dict_get d' k
  end.

Definition dict_getM {V} (d : list (string * V)) (k : string) : DBM V := fun db =>
  match dict_get d k with Ok v => Ok (db, v) | Raise e => Raise e end.

Fixpoint foldM {A B} (f : B -> A -> DBM B) (acc : B) (l : list A) : DBM B :=
  match l with
  | [] => mret acc
  | x :: l' => acc' ← f acc x; foldM f acc' l'
  end.

(** ** [roles_data] *)

(** One dict of [roles_data]; [permissions] is [None] when the key is
    absent ([data.get('permissions', [])]). *)
Record RoleSpec := mkRoleSpec {
  rs_name : string; rs_description : string; rs_permissions : option (list string) }.

Definition roles_data : list RoleSpec := [
  mkRoleSpec "Super-Admin"
    "Can access everything in system and create, modify and delete records as long as the operation keeps database integrity."
    None;
  mkRoleSpec "Group-Owner" "Owns a group of clinic branches" None;
  mkRoleSpec "Clinic-Owner" "Owns a Clinic branch"
    (Some ["Patient-GET"; "Patient-POST"; "Patient-PUT"; "Patient-PATCH"; "Patient-DELETE"]);
  mkRoleSpec "Clinic-Assistant" "An admin who can only make and change appointments in a branch."
    (Some ["Patient-GET"]);
  mkRoleSpec "Clinic-Doctor" "A doctor who works in one or more branche of a clinic group."
    (Some ["Patient-GET"; "Patient-POST"; "Patient-PUT"; "Patient-PATCH"]);
  mkRoleSpec "Mobile-Patient"
    "Any patient who uses the mobile to use our services (appointment, chat etc)."
    (Some ["Patient-GET"; "Patient-PUT"; "Patient-PATCH"]);
  mkRoleSpec "Chat-Doctor" "Any doctor who uses the mobile to provide chat services."
    (Some ["Patient-GET"; "Patient-POST"; "Patient-PUT"; "Patient-PATCH"; "Patient-DELETE"])].

(** ** The script *)

(** The inner loop: [for name in permission_names: ...] *)
Definition init_permission (role : Role) (name : string) : DBM unit :=
  permission_obj ← catch_DoesNotExist "Permission" (Permission_get_iexact name)
                                                   (permission_save name);
  _ ← role_permission_get_or_create role permission_obj;
  mret ().

(** The outer loop: [for data in roles_data: ...] *)
Definition init_role (roles_obj_dict : list (string * Role)) (data : RoleSpec)
    : DBM (list (string * Role)) :=
  role ← role_save (rs_name data) (rs_description data);
  let roles_obj_dict := dict_set roles_obj_dict (role_name role) role in
  let permission_names := default [] (rs_permissions data) in
  forM_ permission_names (init_permission role);;
  mret roles_obj_dict.

(** [RoleUserOrgAssociation.objects.get_or_create(user=u,
    role=roles_obj_dict[role_name], organization=o)] *)
Definition grant (roles_obj_dict : list (string * Role)) (u : User) (role_name : string)
    (o : Organization) : DBM unit :=
  r ← dict_getM roles_obj_dict role_name;
  _ ← role_user_org_get_or_create u r o;
  mret ().

(** The clinic group and its three branches. *)
Definition create_organizations : DBM (Organization * Organization * Organization * Organization) :=
  clinic ← organization_save "ABC Clinic Group" None;
  branch_1 ← organization_save "ABC Clinic, Indiranagar Branch, Bengaluru" (Some clinic);
  branch_2 ← organization_save "ABC Clinic, Koramangala Branch, Bengaluru" (Some clinic);
  branch_3 ← organization_save "ABC Clinic, MG Road Branch, Bengaluru" (Some clinic);
  mret (clinic, branch_1, branch_2, branch_3).

(** [roles_obj_dict = {}] and the loop over [roles_data]. *)
Definition create_roles : DBM (list (string * Role)) := foldM init_role [] roles_data.

(** The users and their grants, through [roles_obj_dict]. *)
Definition create_users (roles_obj_dict : list (string * Role))
    (clinic branch_1 branch_2 branch_3 : Organization) : DBM unit :=
  _ ← create_superuserM "admin@awesomehealthapp.com" "password" "Super Admin User";
  doctor_1_user ← create_userM "doctor1@abcclinic.com" "password" "Doctor 1";
  grant roles_obj_dict doctor_1_user "Clinic-Doctor" branch_1;;
  grant roles_obj_dict doctor_1_user "Chat-Doctor" branch_1;;
  grant roles_obj_dict doctor_1_user "Clinic-Doctor" branch_2;;
  grant roles_obj_dict doctor_1_user "Chat-Doctor" branch_2;;
  doctor_2_user ← create_userM "doctor2@abcclinic.com" "password" "Doctor 2";
  grant roles_obj_dict doctor_2_user "Clinic-Doctor" branch_2;;
  grant roles_obj_dict doctor_2_user "Chat-Doctor" branch_2;;
  grant roles_obj_dict doctor_2_user "Clinic-Doctor" branch_3;;
  grant roles_obj_dict doctor_2_user "Chat-Doctor" branch_3;;
  group_owner_user ← create_userM "groupowner@abcclinic.com" "password" "ABC Clinic Group Owner";
  grant roles_obj_dict group_owner_user "Group-Owner" clinic;;
  branch_1_owner_user ← create_userM "Indiranagar@abcclinic.com" "password"
                                     "ABC Clinic Indiranagar Branch Owner";
  grant roles_obj_dict branch_1_owner_user "Clinic-Owner" branch_1;;
  branch_2_owner_user ← create_userM "Koramangala@abcclinic.com" "password"
                                     "ABC Clinic Koramangala Branch Owner";
  grant roles_obj_dict branch_2_owner_user "Clinic-Owner" branch_2;;
  branch_3_owner_user ← create_userM "MGRoad@abcclinic.com" "password"
                                     "ABC Clinic MGRoad Branch Owner";
  grant roles_obj_dict branch_3_owner_user "Clinic-Owner" branch_3;;
  branch_1_assistant_user ← create_userM "IndiranagarAssistant@abcclinic.com" "password"
                                         "ABC Clinic Indiranagar Branch Assistant";
  grant roles_obj_dict branch_1_assistant_user "Clinic-Assistant" branch_1;;
  branch_2_assistant_user ← create_userM "KoramangalaAssistant@abcclinic.com" "password"
                                         "ABC Clinic Koramangala Branch Assistant";
  grant roles_obj_dict branch_2_assistant_user "Clinic-Assistant" branch_2;;
  branch_3_assistant_user ← create_userM "MGRoadAssistant@abcclinic.com" "password"
                                         "ABC Clinic MGRoad Branch Assistant";
  grant roles_obj_dict branch_3_assistant_user "Clinic-Assistant" branch_3.

Definition initialize_data : DBM unit :=
  '(clinic, branch_1, branch_2, branch_3) ← create_organizations;
  roles_obj_dict ← create_roles;
  create_users roles_obj_dict clinic branch_1 branch_2 branch_3.

(** [with transaction.atomic(): initialize_data()]: the state after the
    run is committed only when the run completes. *)
Definition atomic {A} (c : DBM A) (db : DB) : res DB :=
  match c db with
  | Ok (db', _) => Ok db'
  | Raise e => Raise e
  end.

Definition main (db : DB) : res DB := atomic initialize_data db.

(** The state the script leaves on an empty database. *)
Definition seed_db : DB := match main empty_db with Ok db => db | Raise _ => empty_db end.

(** ** The script is made of model steps *)

Lemma steps_only_organization_save name parent : steps_only (organization_save name parent).
Proof. apply steps_only_step. intros db db' o H. by eapply step_organization_save. Qed.

Lemma steps_only_role_save name description : steps_only (role_save name description).
Proof. apply steps_only_step. intros db db' r H. by eapply step_role_save. Qed.

Lemma steps_only_permission_save name : steps_only (permission_save name).
Proof. apply steps_only_step. intros db db' p H. by eapply step_permission_save. Qed.

Lemma steps_only_create_userM email password name : steps_only (create_userM email password name).
Proof. apply steps_only_step. intros db db' u H. by eapply step_user_create. Qed.

Lemma steps_only_create_superuserM email password name :
  steps_only (create_superuserM email password name).
Proof. apply steps_only_step. intros db db' u H. by eapply step_user_create. Qed.

Lemma steps_only_role_permission_get_or_create r p :
  steps_only (role_permission_get_or_create r p).
Proof.
  apply steps_only_step. intros db db' c H. unfold role_permission_get_or_create in H.
  destruct (RolePermissionAssociation_get_or_create _ _ _) as [[[d a] c']|] eqn:E; [|discriminate].
  injection H; intros; subst. by eapply step_rp_get_or_create.
Qed.

Lemma steps_only_role_user_org_get_or_create u r o :
  steps_only (role_user_org_get_or_create u r o).
Proof.
  apply steps_only_step. intros db db' c H. unfold role_user_org_get_or_create in H.
  destruct (RoleUserOrgAssociation_get_or_create _ _ _ _) as [[[d a] c']|] eqn:E; [|discriminate].
  injection H; intros; subst. by eapply step_ruo_get_or_create.
Qed.

Lemma steps_only_Permission_get_iexact name : steps_only (Permission_get_iexact name).
Proof.
  apply steps_only_read. intros db db' p H. unfold Permission_get_iexact in H.
  destruct (objects_get _ _); [by injection H; intros; subst | discriminate].
Qed.

Lemma steps_only_dict_getM {V} (d : list (string * V)) k : steps_only (dict_getM d k).
Proof.
  apply steps_only_read. intros db db' v H. unfold dict_getM in H.
  destruct (dict_get d k); [by injection H; intros; subst | discriminate].
Qed.

Lemma steps_only_catch {A} m (c h : DBM A) :
  steps_only c -> steps_only h -> steps_only (catch_DoesNotExist m c h).
Proof.
  intros Hc Hh db db' a H. unfold catch_DoesNotExist in H.
  destruct (c db) as [[d x]|[]] eqn:E; try discriminate; [by eapply Hc; rewrite E|].
  case_bool_decide; [by eapply Hh | discriminate].
Qed.

Lemma steps_only_foldM {A B} (f : B -> A -> DBM B) acc l :
  (forall b x, steps_only (f b x)) -> steps_only (foldM f acc l).
Proof. intros Hf. revert acc. induction l; intros; simpl; auto with rbac. Qed.

#[export] Hint Resolve steps_only_organization_save steps_only_role_save
  steps_only_permission_save steps_only_create_userM steps_only_create_superuserM
  steps_only_role_permission_get_or_create steps_only_role_user_org_get_or_create
  steps_only_Permission_get_iexact steps_only_dict_getM steps_only_catch
  steps_only_foldM : rbac.

Lemma steps_only_init_role d data : steps_only (init_role d data).
Proof. unfold init_role, init_permission. cbv zeta. auto 10 with rbac. Qed.

Lemma steps_only_grant d u n o : steps_only (grant d u n o).
Proof. unfold grant. auto with rbac. Qed.

#[export] Hint Resolve steps_only_init_role steps_only_grant : rbac.




(** Every permission of [get_permissions] is a row of the table. *)
Lemma get_permissions_rows db u : perm_name <$> get_permissions db u ⊆ perm_name <$> rows (permissions db).
Proof.
  intros n (p & -> & Hp)%list_elem_of_fmap. apply elem_of_get_permissions in Hp as [Hp _].
  apply list_elem_of_fmap. eauto.
Qed.

Section Decisions.
Context {token : Type} `{JWTCodec token}.

(** On a token issued in state [db], the decision is the membership of
    the required name among the names of [get_permissions]. *)
Lemma has_permission_issued db u exp resource method :
  has_permission (mkRequest (AuthUser u) (issue_token db u exp) method)
                 (mkView (Some resource)) =
  Ok (bool_decide (required_permission resource method ∈ perm_name <$> get_permissions db u)).
Proof.
  rewrite (has_permission_available _ _ u (jwt_payload_handler db u exp) resource
             (PyStr <$> (perm_name <$> get_permissions db u)));
    [| done | apply jwt_decode_encode | done | apply available_permissions_payload].
  by rewrite py_in_fmap_PyStr.
Qed.

(** A permission that no row of the table carries is refused to any
    token issued in that state. *)
Lemma has_permission_issued_not_in db u exp resource method :
  required_permission resource method ∉ perm_name <$> rows (permissions db) ->
  has_permission (mkRequest (AuthUser u) (issue_token db u exp) method)
                 (mkView (Some resource)) = Ok false.
Proof.
  intros Hno. rewrite has_permission_issued. f_equal. apply bool_decide_false.
  intros Hin. by apply Hno, (get_permissions_rows db u).
Qed.

End Decisions.

(** ** Claims *)

(** On an empty database the script runs to completion: it creates
    the four organizations, the seven roles and the five [Patient-*]
    permissions, in this order, and ten users. *)
Theorem main_empty_db :
  main empty_db = Ok seed_db /\
  org_name <$> rows (organizations seed_db) =
    ["ABC Clinic Group"; "ABC Clinic, Indiranagar Branch, Bengaluru";
     "ABC Clinic, Koramangala Branch, Bengaluru"; "ABC Clinic, MG Road Branch, Bengaluru"] /\
  role_name <$> rows (roles seed_db) = rs_name <$> roles_data /\
  perm_name <$> rows (permissions seed_db) =
    ["Patient-GET"; "Patient-POST"; "Patient-PUT"; "Patient-PATCH"; "Patient-DELETE"] /\
  length (rows (users seed_db)) = 10%nat.
Proof. vm_compute. repeat split. Qed.


(** (C27) Error: the script is not re-runnable.  On a database that already
    holds an organization named ["ABC Clinic Group"] (as after a first run)
    the first [clinic.save()] raises the unique-name [IntegrityError] and
    nothing is committed. *)
Theorem main_rerun_IntegrityError db :
  "ABC Clinic Group" ∈ org_name <$> rows (organizations db) ->
  main db = Raise (integrity_unique "organizations.name").
Proof.
  intros Hin. unfold main, atomic, initialize_data, create_organizations, mbind, DBM_bind,
    organization_save, Organization_save. by rewrite (bool_decide_true _ Hin).
Qed.

(** The effective permissions of the seeded users, by email: the
    superuser and the group owner hold none, each doctor and branch owner
    the five [Patient-*] permissions ([Patient-DELETE] reaching the doctors
    through [Chat-Doctor]), each assistant [Patient-GET] only. *)
Theorem seed_effective_permissions :
  (fun u => (user_email u, perm_name <$> get_permissions seed_db u)) <$> rows (users seed_db) =
  let all := ["Patient-GET"; "Patient-POST"; "Patient-PUT"; "Patient-PATCH"; "Patient-DELETE"] in
  [("admin@awesomehealthapp.com", []); ("doctor1@abcclinic.com", all);
   ("doctor2@abcclinic.com", all); ("groupowner@abcclinic.com", []);
   ("Indiranagar@abcclinic.com", all); ("Koramangala@abcclinic.com", all);
   ("MGRoad@abcclinic.com", all); ("IndiranagarAssistant@abcclinic.com", ["Patient-GET"]);
   ("KoramangalaAssistant@abcclinic.com", ["Patient-GET"]);
   ("MGRoadAssistant@abcclinic.com", ["Patient-GET"])].
Proof. vm_compute. reflexivity. Qed.

(** The script creates no [Users-*] permission. *)
Lemma seed_no_users_permission method :
  required_permission "Users" method ∉ perm_name <$> rows (permissions seed_db).
Proof.
  assert (Hn : perm_name <$> rows (permissions seed_db) =
    ["Patient-GET"; "Patient-POST"; "Patient-PUT"; "Patient-PATCH"; "Patient-DELETE"])
    by (vm_compute; reflexivity).
  rewrite Hn. unfold required_permission. autorewrite with rbac_simpl.
  rewrite list_elem_of_In. simpl. intuition discriminate.
Qed.

Section SeedUsersApi.
Context {token : Type} `{JWTCodec token} `{UserValidator}.

(** (C29) The user endpoints are closed to every user of the seeded
    database: whatever the method, the view and the data, a request on a
    token issued in that state is answered 403 and changes nothing, since
    the script creates no [Users-*] permission. *)
Theorem seed_users_api_denied u exp method v data :
  exists r, dispatch seed_db v (mkRequest (AuthUser u) (issue_token seed_db u exp) method) data
            = Ok (seed_db, r) /\ status_code r = 403%N.
Proof.
  unfold dispatch. rewrite (has_permission_issued_not_in seed_db u exp "Users" method)
    by apply seed_no_users_permission.
  eexists. split; reflexivity.
Qed.

End SeedUsersApi.

Section SeedDecisions.
Context {token : Type} `{JWTCodec token}.

(** The superuser the script creates is refused every resource and
    method on a token issued in the seeded state: the decision has no
    superuser bypass and the script grants the superuser no role. *)
Theorem seed_superuser_denied u exp resource method :
  u ∈ rows (users seed_db) -> user_is_superuser u = true ->
  has_permission (mkRequest (AuthUser u) (issue_token seed_db u exp) method)
                 (mkView (Some resource)) = Ok false.
Proof.
  intros Hu Hsu. rewrite has_permission_issued.
  assert (Hall : Forall (fun u => user_is_superuser u = true -> get_permissions seed_db u = [])
                        (rows (users seed_db)))
    by (apply (bool_decide_unpack _); vm_compute; reflexivity).
  rewrite Forall_forall in Hall. by rewrite (Hall u Hu Hsu).
Qed.

End SeedDecisions.

(** A database that already holds the permission ["patient-get"]. *)
Definition lowercase_db : DB :=
  match Permission_save empty_db "patient-get" "" with Ok (db, _) => db | Raise _ => empty_db end.

Section LowercaseDecisions.
Context {token : Type} `{JWTCodec token}.

(** (C31) The case-insensitive lookup of the script meets the
    case-sensitive decision: on a well-formed database whose only
    permission matching [name] case-insensitively is [p], spelled
    differently, [init_permission role name] links [p] to the role and
    creates no permission, and then no token issued in the resulting state
    allows a request whose required name is [name]. *)
Theorem init_permission_iexact db role name p :
  db_wf db -> role ∈ rows (roles db) ->
  filter (fun q => str_lower (perm_name q) = str_lower name) (rows (permissions db)) = [p] ->
  perm_name p <> name ->
  exists db', init_permission role name db = Ok (db', ()) /\
    permissions db' = permissions db /\
    (exists b, b ∈ rows (roles_permissions db') /\ rp_role b = role_id role /\
               rp_permission b = perm_id p) /\
    forall u exp resource method, required_permission resource method = name ->
      has_permission (mkRequest (AuthUser u) (issue_token db' u exp) method)
                     (mkView (Some resource)) = Ok false.
Proof.
  intros Hwf Hr Hf Hne.
  assert (Hp : p ∈ rows (permissions db))
    by (assert (p ∈ filter (fun q => str_lower (perm_name q) = str_lower name)
                          (rows (permissions db))) as Hx by (rewrite Hf; set_solver);
        by apply list_elem_of_filter in Hx as [_ ?]).
  destruct (RolePermissionAssociation_get_or_create_Ok db (role_id role) (perm_id p) Hwf)
    as (db' & b & c & Hg & Hb & Hk & Hperm); [by apply list_elem_of_fmap_2 .. |].
  exists db'. split; [|split; [done|split]].
  - unfold init_permission, mbind, DBM_bind, catch_DoesNotExist, Permission_get_iexact,
      role_permission_get_or_create. rewrite Hf. simpl. by rewrite Hg.
  - unfold rp_key in Hk. simplify_eq. eauto.
  - intros u exp resource method Hn. apply has_permission_issued_not_in. rewrite Hn, Hperm.
    intros (q & Hq & Hqm)%list_elem_of_fmap.
    assert (q ∈ filter (fun q => str_lower (perm_name q) = str_lower name) (rows (permissions db)))
      as Hx by (apply list_elem_of_filter; split; [by rewrite Hq | done]).
    rewrite Hf in Hx. apply list_elem_of_singleton in Hx as ->. by apply Hne.
Qed.

End LowercaseDecisions.

(** The scenario of the specification (4.2) on the seeded state:
    Doctor 1 (branches Indiranagar and Koramangala) and Doctor 2
    (Koramangala and MG Road) hold the same roles in different
    organizations, so they get the same effective permissions but
    different organization breakdowns. *)
Theorem seed_doctors_same_permissions_different_breakdown :
  exists d1 d2, d1 ∈ rows (users seed_db) /\ d2 ∈ rows (users seed_db) /\
    user_email d1 = "doctor1@abcclinic.com" /\ user_email d2 = "doctor2@abcclinic.com" /\
    get_permissions seed_db d1 = get_permissions seed_db d2 /\
    get_organizations seed_db d1 <> get_organizations seed_db d2.
Proof.
  exists (mkUser 2 "Doctor 1" "doctor1@abcclinic.com" true false false),
         (mkUser 3 "Doctor 2" "doctor2@abcclinic.com" true false false).
  split; [apply (bool_decide_unpack _); vm_compute; reflexivity|].
  split; [apply (bool_decide_unpack _); vm_compute; reflexivity|].
  split; [reflexivity|]. split; [reflexivity|]. split; [vm_compute; reflexivity|].
  intros E. apply (f_equal (fmap (fun g => od_id g.1))) in E. vm_compute in E. discriminate E.
Qed.


(** ** Witnesses *)

Section SeedWitnesses.

Lemma main_rerun_IntegrityError_witness :
  main seed_db = Raise (integrity_unique "organizations.name").
Proof. apply main_rerun_IntegrityError. apply (bool_decide_unpack _). vm_compute. reflexivity. Defined.

(** A role and [patient-get] in a database the script has not run on. *)
Definition lowercase_role_db : DB :=
  match Role_save lowercase_db "Clinic-Doctor" "" with Ok (db, _) => db | Raise _ => lowercase_db end.

#[local] Instance seed_decode : JWTDecode pyval := fun p => Ok p.
#[local] Instance seed_codec : JWTCodec pyval :=
  {| jwt_encode_handler p := p; jwt_decode_encode p := eq_refl |}.

Lemma init_permission_iexact_witness :
  exists db', init_permission (mkRole 1 "Clinic-Doctor" "") "Patient-GET" lowercase_role_db =
                Ok (db', ()) /\
    permissions db' = permissions lowercase_role_db /\
    (exists b, b ∈ rows (roles_permissions db') /\ rp_role b = role_id (mkRole 1 "Clinic-Doctor" "") /\
               rp_permission b = perm_id (mkPermission 1 "patient-get" "")) /\
    forall u exp resource method, required_permission resource method = "Patient-GET" ->
      has_permission (mkRequest (AuthUser u) (issue_token db' u exp) method)
                     (mkView (Some resource)) = Ok false.
Proof.
  apply init_permission_iexact;
    [apply db_wfb_sound; vm_compute; reflexivity | apply (bool_decide_unpack _); vm_compute;
     reflexivity | vm_compute; reflexivity | discriminate].
Defined.

End SeedWitnesses.
